(** * todo-example-api: a shallow embedding of [index.ts]

    The server keeps two insertion-ordered maps (projects, todos), two
    counters and a token registry; every request goes through [matchRoute],
    then [authHandler] (except for the login route), then [parseBody] and
    the route's handler.  The embedding threads the global state explicitly
    and takes the readings of the clock as inputs of each request. *)

From Stdlib Require Import ZArith NArith List String Ascii Bool Lia.
From Stdlib Require Import DecimalString DecimalN DecimalFacts.
From Stdlib Require Import SpecFloat.
Import ListNotations.

Set Warnings "-register-all".

Local Open Scope string_scope.
Local Open Scope Z_scope.

(** ** JavaScript strings

    A string is a sequence of code units; the embedding keeps the code
    units below 256, which is what [Stdlib.Strings.String] offers. *)
Module JsString.

(** WhiteSpace and LineTerminator code units below 256: TAB, LF, VT, FF,
    CR, SP and NBSP. *)
Definition isWhiteSpace (c : ascii) : bool :=
  let n := N_of_ascii c in
  (N.leb 9 n && N.leb n 13 || N.eqb n 32 || N.eqb n 160)%N%bool.

Definition isEmpty (s : string) : bool :=
  match s with EmptyString => true | String _ _ => false end.

Fixpoint trimStart (s : string) : string :=
  match s with
  | EmptyString => EmptyString
  | String c r => if isWhiteSpace c then trimStart r else s
  end.

Fixpoint trimEnd (s : string) : string :=
  match s with
  | EmptyString => EmptyString
  | String c r =>
      let r' := trimEnd r in
      if isWhiteSpace c && isEmpty r' then EmptyString else String c r'
  end.

(** [s.trim()] *)
Definition trim (s : string) : string := trimEnd (trimStart s).

(** [s.startsWith(p)] *)
Definition startsWith (s p : string) : bool := String.prefix p s.

(** [s.slice(n)] for [0 <= n]. *)
Fixpoint slice (s : string) (n : nat) {struct n} : string :=
  match n, s with
  | O, _ => s
  | S _, EmptyString => EmptyString
  | S n', String _ r => slice r n'
  end.

(** [s.split(sep)] for a separator of one code unit. *)
Fixpoint split (sep : ascii) (s : string) : list string :=
  match s with
  | EmptyString => [EmptyString]
  | String c r =>
      if Ascii.eqb c sep then EmptyString :: split sep r
      else match split sep r with
           | [] => [String c EmptyString]
           | p :: ps => String c p :: ps
           end
  end.

(** [!s] is true exactly for the empty string. *)
Definition falsy (s : string) : bool := isEmpty s.

End JsString.

(** ** JSON values, as [req.json()] produces them *)
Module Json.

(** A number is an IEEE-754 double. *)
Definition number := spec_float.

Inductive JValue : Type :=
| JNull
| JBool (b : bool)
| JNum (x : number)
| JStr (s : string)
| JArr (items : list JValue)
| JObj (props : list (string * JValue)).

(** Own property lookup in the property list of a parsed object. *)
Fixpoint lookup (k : string) (props : list (string * JValue)) : option JValue :=
  match props with
  | [] => None
  | (k', v) :: rest => if String.eqb k' k then Some v else lookup k rest
  end.

(** [body?.k] for one of the keys the handlers read ([name], [title],
    [completed], [dueDate]): [None] is [undefined].  Only an object
    parsed from JSON has such a property, and only as an own property. *)
Definition getField (body : JValue) (k : string) : option JValue :=
  match body with
  | JObj props => lookup k props
  | _ => None
  end.

(** [v ?? d] *)
Definition nullish (v : option JValue) (d : JValue) : JValue :=
  match v with
  | None | Some JNull => d
  | Some x => x
  end.

(** [typeof v] *)
Definition typeof (v : option JValue) : string :=
  match v with
  | None => "undefined"
  | Some JNull => "object"
  | Some (JBool _) => "boolean"
  | Some (JNum _) => "number"
  | Some (JStr _) => "string"
  | Some (JArr _) => "object"
  | Some (JObj _) => "object"
  end.

(** [Boolean(v)] *)
Definition ToBoolean (v : JValue) : bool :=
  match v with
  | JNull => false
  | JBool b => b
  | JNum (S754_zero _) => false
  | JNum S754_nan => false
  | JNum _ => true
  | JStr s => negb (JsString.isEmpty s)
  | JArr _ => true
  | JObj _ => true
  end.

Section ToString.
(** Number::toString of ECMAScript, on doubles. *)
Variable Number_toString : number -> string.

(** [String(v)]; [None] when the conversion throws a TypeError, which
    it does on a parsed object with an own [toString] property (the
    property is not callable, and [Object.prototype.valueOf] gives no
    primitive). An array is joined with commas, [null] items as the
    empty string. *)
Fixpoint ToString (v : JValue) : option string :=
  match v with
  | JNull => Some "null"
  | JBool b => Some (if b then "true" else "false")
  | JNum x => Some (Number_toString x)
  | JStr s => Some s
  | JArr items =>
      (fix join (l : list JValue) : option string :=
         match l with
         | [] => Some ""
         | e :: rest =>
             match (match e with JNull => Some "" | _ => ToString e end) with
             | None => None
             | Some s =>
                 match rest with
                 | [] => Some s
                 | _ :: _ =>
                     match join rest with
                     | None => None
                     | Some r => Some (s ++ "," ++ r)
                     end
                 end
             end
         end) items
  | JObj props =>
      match lookup "toString" props with
      | Some _ => None
      | None => Some "[object Object]"
      end
  end.
End ToString.

End Json.

(** ** [Map<string, V>]: insertion-ordered, one entry per key *)
Module JsMap.
Section Defs.
Context {V : Type}.

Definition t := list (string * V).

Definition empty : t := [].

Fixpoint get (m : t) (k : string) : option V :=
  match m with
  | [] => None
  | (k', v) :: m' => if String.eqb k' k then Some v else get m' k
  end.

Definition has (m : t) (k : string) : bool :=
  match get m k with Some _ => true | None => false end.

(** [m.set(k, v)]: a present key keeps its place, a new one goes last. *)
Fixpoint set (m : t) (k : string) (v : V) : t :=
  match m with
  | [] => [(k, v)]
  | (k', v') :: m' =>
      if String.eqb k' k then (k, v) :: m' else (k', v') :: set m' k v
  end.

Fixpoint remove (m : t) (k : string) : t :=
  match m with
  | [] => []
  | (k', v') :: m' =>
      if String.eqb k' k then remove m' k else (k', v') :: remove m' k
  end.

(** [m.delete(k)] returns whether the key was present. *)
Definition delete (m : t) (k : string) : bool * t := (has m k, remove m k).

(** [Array.from(m.values())] *)
Definition values (m : t) : list V := map snd m.

End Defs.
Arguments t : clear implicits.
End JsMap.

(** ** [Date]: time values and [toISOString]

    A time value is a number of milliseconds since the epoch, between
    [-8.64e15] and [8.64e15].  The functions are those of ECMAScript's
    "Time Values and Time Range"; [YearFromTime], which the standard gives
    as "the largest year starting at or before t", is computed from an
    estimate that is off by one year at most. *)
Module JsDate.

Definition maxTime : Z := 8640000000000000.

Definition isTimeValue (t : Z) : Prop := - maxTime <= t <= maxTime.

Definition msPerDay : Z := 86400000.
Definition msPerHour : Z := 3600000.
Definition msPerMinute : Z := 60000.
Definition msPerSecond : Z := 1000.

Definition Day (t : Z) : Z := t / msPerDay.
Definition TimeWithinDay (t : Z) : Z := t mod msPerDay.

Definition isLeapYear (y : Z) : bool :=
  (y mod 4 =? 0) && (negb (y mod 100 =? 0) || (y mod 400 =? 0)).

Definition DaysInYear (y : Z) : Z := if isLeapYear y then 366 else 365.

Definition DayFromYear (y : Z) : Z :=
  365 * (y - 1970) + (y - 1969) / 4 - (y - 1901) / 100 + (y - 1601) / 400.

Definition YearFromDay (d : Z) : Z :=
  let y0 := 1970 + (400 * d) / 146097 in
  if d <? DayFromYear y0 then y0 - 1
  else if DayFromYear (y0 + 1) <=? d then y0 + 1
  else y0.

Definition YearFromTime (t : Z) : Z := YearFromDay (Day t).

Definition DayWithinYear (t : Z) : Z := Day t - DayFromYear (YearFromTime t).

(** Number of days of the year [y] before its month [m] (0 for January). *)
Definition daysBeforeMonth (y m : Z) : Z :=
  let leap := if isLeapYear y then 1 else 0 in
  if m <=? 0 then 0
  else if m =? 1 then 31
  else if m =? 2 then 59 + leap
  else if m =? 3 then 90 + leap
  else if m =? 4 then 120 + leap
  else if m =? 5 then 151 + leap
  else if m =? 6 then 181 + leap
  else if m =? 7 then 212 + leap
  else if m =? 8 then 243 + leap
  else if m =? 9 then 273 + leap
  else if m =? 10 then 304 + leap
  else if m =? 11 then 334 + leap
  else 365 + leap.

Definition monthOfDayWithinYear (y d : Z) : Z :=
  if d <? daysBeforeMonth y 1 then 0
  else if d <? daysBeforeMonth y 2 then 1
  else if d <? daysBeforeMonth y 3 then 2
  else if d <? daysBeforeMonth y 4 then 3
  else if d <? daysBeforeMonth y 5 then 4
  else if d <? daysBeforeMonth y 6 then 5
  else if d <? daysBeforeMonth y 7 then 6
  else if d <? daysBeforeMonth y 8 then 7
  else if d <? daysBeforeMonth y 9 then 8
  else if d <? daysBeforeMonth y 10 then 9
  else if d <? daysBeforeMonth y 11 then 10
  else 11.

(** Month number, 0 for January. *)
Definition MonthFromTime (t : Z) : Z :=
  monthOfDayWithinYear (YearFromTime t) (DayWithinYear t).

(** Day of the month, from 1. *)
Definition DateFromTime (t : Z) : Z :=
  DayWithinYear t - daysBeforeMonth (YearFromTime t) (MonthFromTime t) + 1.

Definition HourFromTime (t : Z) : Z := (t / msPerHour) mod 24.
Definition MinFromTime (t : Z) : Z := (t / msPerMinute) mod 60.
Definition SecFromTime (t : Z) : Z := (t / msPerSecond) mod 60.
Definition msFromTime (t : Z) : Z := t mod msPerSecond.

Definition digitChar (d : Z) : ascii := ascii_of_N (48 + Z.to_N d).

(** The [w] low decimal digits of [n], most significant first. *)
Fixpoint digits (w : nat) (n : Z) : list ascii :=
  match w with
  | O => []
  | S w' => digits w' (n / 10) ++ [digitChar (n mod 10)]
  end.

(** Four digits for the years 0 to 9999, a sign and six digits otherwise. *)
Definition yearChars (y : Z) : list ascii :=
  if (0 <=? y) && (y <=? 9999) then digits 4 y
  else (if y <? 0 then "-"%char else "+"%char) :: digits 6 (Z.abs y).

(** [new Date(t).toISOString()] for a time value [t]. *)
Definition toISOString (t : Z) : string :=
  string_of_list_ascii
    (yearChars (YearFromTime t) ++ "-"%char ::
     digits 2 (MonthFromTime t + 1) ++ "-"%char ::
     digits 2 (DateFromTime t) ++ "T"%char ::
     digits 2 (HourFromTime t) ++ ":"%char ::
     digits 2 (MinFromTime t) ++ ":"%char ::
     digits 2 (SecFromTime t) ++ "."%char ::
     digits 3 (msFromTime t) ++ ["Z"%char]).

(** *** Reading a complete date-time string back *)

Definition digitValue (c : ascii) : option Z :=
  let n := N_of_ascii c in
  if (N.leb 48 n && N.leb n 57)%N then Some (Z.of_N n - 48) else None.

Fixpoint numberOfDigits (acc : Z) (l : list ascii) : option Z :=
  match l with
  | [] => Some acc
  | c :: l' =>
      match digitValue c with
      | Some d => numberOfDigits (10 * acc + d) l'
      | None => None
      end
  end.

(** Reads exactly [w] digits. *)
Definition takeNumber (w : nat) (l : list ascii) : option (Z * list ascii) :=
  if Nat.leb w (List.length l) then
    match numberOfDigits 0 (firstn w l) with
    | Some n => Some (n, skipn w l)
    | None => None
    end
  else None.

Definition expect (c : ascii) (l : list ascii) : option (list ascii) :=
  match l with
  | c' :: l' => if Ascii.eqb c' c then Some l' else None
  | [] => None
  end.

Definition takeYear (l : list ascii) : option (Z * list ascii) :=
  match l with
  | c :: l' =>
      if Ascii.eqb c "+" then
        match takeNumber 6 l' with
        | Some (y, r) => Some (y, r)
        | None => None
        end
      else if Ascii.eqb c "-" then
        match takeNumber 6 l' with
        | Some (y, r) => if y =? 0 then None else Some (- y, r)
        | None => None
        end
      else takeNumber 4 l
  | [] => None
  end.

Definition DaysInMonth (y m : Z) : Z :=
  daysBeforeMonth y (m + 1) - daysBeforeMonth y m.

Definition MakeTime (h mi s ms : Z) : Z :=
  h * msPerHour + mi * msPerMinute + s * msPerSecond + ms.

(** [MakeDay] for a month in 0..11. *)
Definition MakeDay (y m d : Z) : Z := DayFromYear y + daysBeforeMonth y m + d - 1.

Definition MakeDate (day time : Z) : Z := day * msPerDay + time.

Definition bind {A B : Type} (o : option A) (f : A -> option B) : option B :=
  match o with Some a => f a | None => None end.

(** [Date.parse] on the complete form [YYYY-MM-DDTHH:mm:ss.sssZ] (or with an
    expanded year); [None] is [NaN]. *)
Definition parse (s : string) : option Z :=
  bind (takeYear (list_ascii_of_string s)) (fun '(y, l) =>
  bind (expect "-" l) (fun l =>
  bind (takeNumber 2 l) (fun '(mo, l) =>
  bind (expect "-" l) (fun l =>
  bind (takeNumber 2 l) (fun '(d, l) =>
  bind (expect "T" l) (fun l =>
  bind (takeNumber 2 l) (fun '(h, l) =>
  bind (expect ":" l) (fun l =>
  bind (takeNumber 2 l) (fun '(mi, l) =>
  bind (expect ":" l) (fun l =>
  bind (takeNumber 2 l) (fun '(sec, l) =>
  bind (expect "." l) (fun l =>
  bind (takeNumber 3 l) (fun '(ms, l) =>
  bind (expect "Z" l) (fun l =>
  match l with
  | _ :: _ => None
  | [] =>
      if (1 <=? mo) && (mo <=? 12) && (1 <=? d) && (d <=? DaysInMonth y (mo - 1))
         && (h <=? 23) && (mi <=? 59) && (sec <=? 59)
      then
        let t := MakeDate (MakeDay y (mo - 1) d) (MakeTime h mi sec ms) in
        if (- maxTime <=? t) && (t <=? maxTime) then Some t else None
      else None
  end)))))))))))))).

End JsDate.

(** ** The regular expressions of the route table

    The route patterns are sequences of four kinds of items: the
    assertions [^] and [$], a literal, and the capture group [([^\/]+)].
    [matchRe] is [String.prototype.match] for such a pattern without flags:
    the leftmost start position that admits a match wins, the group is
    greedy and backtracks, and the result lists the captures
    ([match.slice(1)]). *)
Module RegExp.

Inductive Item : Type :=
| Caret                      (* ^ *)
| Dollar                     (* $ *)
| Lit (s : string)           (* literal characters *)
| Segment.                   (* ([^\/]+) *)

Definition t := list Item.

(** [stripPrefix p s] is the rest of [s] after its prefix [p]. *)
Fixpoint stripPrefix (p s : string) : option string :=
  match p, s with
  | EmptyString, _ => Some s
  | String a p', String b s' => if Ascii.eqb a b then stripPrefix p' s' else None
  | String _ _, EmptyString => None
  end.

(** Length of the longest prefix without a slash. *)
Fixpoint spanNotSlash (s : string) : nat :=
  match s with
  | EmptyString => O
  | String c s' => if Ascii.eqb c "/" then O else S (spanNotSlash s')
  end.

(** The first success of [f k], [f (k-1)], ..., [f 1]. *)
Fixpoint firstDown {A : Type} (f : nat -> option A) (k : nat) : option A :=
  match k with
  | O => None
  | S k' => match f k with Some r => Some r | None => firstDown f k' end
  end.

(** Match of the items at offset [pos] of the input, [s] being the input
    from that offset on. *)
Fixpoint matchHere (re : t) (pos : nat) (s : string) : option (list string) :=
  match re with
  | [] => Some []
  | Caret :: re' => if Nat.eqb pos 0 then matchHere re' pos s else None
  | Dollar :: re' =>
      match s with
      | EmptyString => matchHere re' pos s
      | String _ _ => None
      end
  | Lit l :: re' =>
      match stripPrefix l s with
      | Some s' => matchHere re' (pos + String.length l) s'
      | None => None
      end
  | Segment :: re' =>
      firstDown
        (fun k =>
           match matchHere re' (pos + k) (JsString.slice s k) with
           | Some caps => Some (String.substring 0 k s :: caps)
           | None => None
           end)
        (spanNotSlash s)
  end.

(** Tries the start offsets [pos], [pos + 1], ... up to the end of input. *)
Fixpoint search (re : t) (pos : nat) (s : string) : option (list string) :=
  match matchHere re pos s with
  | Some caps => Some caps
  | None =>
      match s with
      | EmptyString => None
      | String _ s' => search re (S pos) s'
      end
  end.

(** [s.match(re)], reduced to the captures of the match. *)
Definition matchRe (s : string) (re : t) : option (list string) := search re 0 s.

End RegExp.

(** What [[^\/]+] matches as a whole: a non-empty string without a slash. *)
Definition isSegment (x : string) : Prop :=
  x <> "" /\ forall c, In c (list_ascii_of_string x) -> c <> "/"%char.

(** ** What the server takes from its runtime and from [jose] *)
Class Runtime : Type := {
  (** Number::toString on doubles *)
  Number_toString : Json.number -> string;
  (** [atob]; [None] when it throws on input that is not base64 *)
  atob : string -> option string;
  (** [new SignJWT({sub, role}).setProtectedHeader({alg: "HS256"})
      .setIssuedAt(iat).setExpirationTime(exp).sign(secret)], as a
      function of [sub], [role], [iat], [exp] and [secret] *)
  SignJWT : string -> string -> Z -> Z -> string -> string
}.

(** ** The data model *)
Module Project.
Record t : Type := { id : string; name : string; createdAt : string }.
End Project.

Module Todo.
Record t : Type := {
  id : string;
  projectId : string;
  title : string;
  completed : bool;
  dueDate : option string;   (* string | null *)
  createdAt : string
}.
End Todo.

Module Request.
Record t : Type := {
  method : string;
  (** [new URL(req.url).pathname] *)
  pathname : string;
  (** [req.headers.get("authorization")], [None] for [null] *)
  authorization : option string;
  (** what [req.json()] resolves to, [None] when it rejects *)
  json : option Json.JValue
}.
End Request.

(** What [JSON.stringify] is applied to in a response. *)
Inductive Payload : Type :=
| EmptyObj                                   (* {} *)
| ErrorObj (error : string)                  (* { error } *)
| MessageObj (message : string)              (* { message } *)
| TokenObj (token : string) (expMs : Z)      (* { token, expMs } *)
| ProjectObj (p : Project.t)
| TodoObj (t : Todo.t)
| ProjectArr (l : list Project.t)
| TodoArr (l : list Todo.t).

Inductive Body : Type :=
| JsonBody (res : Payload)    (* JSON.stringify(res), application/json *)
| TextBody (s : string)
| NullBody.

Module Response.
Record t : Type := { status : Z; body : Body }.
End Response.

Inductive Exception : Type := TypeError | InvalidCharacterError.

(** A handler returns a response or throws. *)
Inductive Outcome : Type :=
| Returns (r : Response.t)
| Throws (e : Exception).

(** [2^53]: up to it a double holds every integer. *)
Definition integerLimit : N := 9007199254740992.

(** [n++] on a counter, which is a double that holds an integer: the
    double nearest to [n + 1]. Below [2^53] that is [n + 1] itself; from
    [2^53] to [2^54] the doubles are the even integers and [n + 1] lies
    half way between two of them, of which the one with the even
    significand is taken, so that [2^53] stays [2^53]; from [2^54] on the
    nearest double is [n]. *)
Definition increment (n : N) : N :=
  if (n <? integerLimit)%N then (n + 1)%N
  else if (n <? 2 * integerLimit)%N
       then (if N.even (n / 2) then n else (n + 2)%N)
       else n.

(** The module-level variables of [index.ts]. The counters are doubles
    that hold integers; they start at 1 and [increment] is their [++]. *)
Record State : Type := {
  projects : JsMap.t Project.t;
  todos : JsMap.t Todo.t;
  projectCounter : N;
  todoCounter : N;
  validJwts : JsMap.t Z
}.

Definition initialState : State :=
  {| projects := JsMap.empty; todos := JsMap.empty;
     projectCounter := 1; todoCounter := 1; validJwts := JsMap.empty |}.

Definition with_projects (s : State) (m : JsMap.t Project.t) : State :=
  {| projects := m; todos := todos s; projectCounter := projectCounter s;
     todoCounter := todoCounter s; validJwts := validJwts s |}.

Definition with_todos (s : State) (m : JsMap.t Todo.t) : State :=
  {| projects := projects s; todos := m; projectCounter := projectCounter s;
     todoCounter := todoCounter s; validJwts := validJwts s |}.

Definition with_projectCounter (s : State) (n : N) : State :=
  {| projects := projects s; todos := todos s; projectCounter := n;
     todoCounter := todoCounter s; validJwts := validJwts s |}.

Definition with_todoCounter (s : State) (n : N) : State :=
  {| projects := projects s; todos := todos s; projectCounter := projectCounter s;
     todoCounter := n; validJwts := validJwts s |}.

Definition with_validJwts (s : State) (m : JsMap.t Z) : State :=
  {| projects := projects s; todos := todos s; projectCounter := projectCounter s;
     todoCounter := todoCounter s; validJwts := m |}.

(** [String(n)] for a counter: its decimal numeral (which it is for
    every integer below [10^21]). *)
Definition String_of_counter (n : N) : string :=
  NilEmpty.string_of_uint (N.to_uint n).

(** [Number(s)] on a decimal numeral, the other way round. *)
Definition counter_of_String (s : string) : option N :=
  option_map N.of_uint (NilEmpty.uint_of_string s).

Record HandlerArgs : Type := {
  req : Request.t;
  body : Json.JValue;        (* RequestBody, [JNull] for [null] *)
  params : list string
}.

(** A route handler reads the clock (its second argument) and the state. *)
Definition Handler : Type := HandlerArgs -> Z -> State -> Outcome * State.

Module Route.
Record t : Type := {
  method : string;
  path : RegExp.t;
  handler : Handler;
  name : option string
}.
End Route.

Module Match.
Record t : Type := {
  handler : Handler;
  name : option string;
  params : list string
}.
End Match.

(** The two clock readings of one request: [Date.now()] in [authHandler]
    and the one of the route's handler. *)
Record Clock : Type := { authNow : Z; handlerNow : Z }.

Definition json (res : Payload) (status : Z) : Response.t :=
  {| Response.status := status; Response.body := JsonBody res |}.

Definition text (s : string) (status : Z) : Response.t :=
  {| Response.status := status; Response.body := TextBody s |}.

Definition notFound : Response.t := text "Not Found" 404.

Definition noContent : Response.t :=
  {| Response.status := 204; Response.body := NullBody |}.

Definition parseBody (r : Request.t) : Json.JValue :=
  match Request.json r with
  | Some v => v
  | None => Json.JNull
  end.

Definition optionStringEqb (o : option string) (s : string) : bool :=
  match o with
  | Some x => String.eqb x s
  | None => false
  end.

(** ** The handlers *)
Section Handlers.
Context {rt : Runtime}.

(** The handler of the first route, [() => json({})]. *)
Definition rootHandler : Handler :=
  fun _ _ s => (Returns (json EmptyObj 200), s).

Definition listProjects : Handler :=
  fun _ _ s => (Returns (json (ProjectArr (JsMap.values (projects s))) 200), s).

Definition createProject : Handler :=
  fun args now s =>
    match Json.ToString Number_toString
            (Json.nullish (Json.getField (body args) "name") (Json.JStr "")) with
    | None => (Throws TypeError, s)
    | Some str =>
        let name := JsString.trim str in
        if JsString.falsy name then (Returns (text "Missing project name" 400), s)
        else
          let id := String_of_counter (projectCounter s) in
          let s1 := with_projectCounter s (increment (projectCounter s)) in
          let createdAt := JsDate.toISOString now in
          let project :=
            {| Project.id := id; Project.name := name; Project.createdAt := createdAt |} in
          let s2 := with_projects s1 (JsMap.set (projects s1) id project) in
          (Returns (json (ProjectObj project) 201), s2)
    end.

(** [const [projectId] = params] leaves [undefined] for an empty list, a
    key that no map holds. *)
Definition getProject : Handler :=
  fun args _ s =>
    match hd_error (params args) with
    | None => (Returns notFound, s)
    | Some projectId =>
        match JsMap.get (projects s) projectId with
        | Some project => (Returns (json (ProjectObj project) 200), s)
        | None => (Returns notFound, s)
        end
    end.

(** [projects.has(projectId)] and the later [projects.get(projectId)!] are
    one lookup here. *)
Definition updateProject : Handler :=
  fun args _ s =>
    match hd_error (params args) with
    | None => (Returns notFound, s)
    | Some projectId =>
        match JsMap.get (projects s) projectId with
        | None => (Returns notFound, s)
        | Some existing =>
            match Json.ToString Number_toString
                    (Json.nullish (Json.getField (body args) "name") (Json.JStr "")) with
            | None => (Throws TypeError, s)
            | Some str =>
                let name := JsString.trim str in
                if JsString.falsy name
                then (Returns (text "Missing project name" 400), s)
                else
                  let updated :=
                    {| Project.id := Project.id existing; Project.name := name;
                       Project.createdAt := Project.createdAt existing |} in
                  (Returns (json (ProjectObj updated) 200),
                   with_projects s (JsMap.set (projects s) projectId updated))
            end
        end
    end.

Definition deleteProject : Handler :=
  fun args _ s =>
    match hd_error (params args) with
    | None => (Returns notFound, s)
    | Some projectId =>
        let '(existed, projects') := JsMap.delete (projects s) projectId in
        let s' := with_projects s projects' in
        if negb existed then (Returns notFound, s') else (Returns noContent, s')
    end.

Definition listTodos : Handler :=
  fun args _ s =>
    match hd_error (params args) with
    | None => (Returns notFound, s)
    | Some projectId =>
        if negb (JsMap.has (projects s) projectId) then (Returns notFound, s)
        else
          let result :=
            filter (fun todo => String.eqb (Todo.projectId todo) projectId)
                   (JsMap.values (todos s)) in
          (Returns (json (TodoArr result) 200), s)
    end.

Definition listAllTodos : Handler :=
  fun _ _ s => (Returns (json (TodoArr (JsMap.values (todos s))) 200), s).

Definition createTodo : Handler :=
  fun args now s =>
    match hd_error (params args) with
    | None => (Returns notFound, s)
    | Some projectId =>
        if negb (JsMap.has (projects s) projectId) then (Returns notFound, s)
        else
          match Json.ToString Number_toString
                  (Json.nullish (Json.getField (body args) "title") (Json.JStr "")) with
          | None => (Throws TypeError, s)
          | Some str =>
              let title := JsString.trim str in
              if JsString.falsy title
              then (Returns (text "Missing todo title" 400), s)
              else
                let id := String_of_counter (todoCounter s) in
                let s1 := with_todoCounter s (increment (todoCounter s)) in
                let createdAt := JsDate.toISOString now in
                let todo :=
                  {| Todo.id := id;
                     Todo.projectId := projectId;
                     Todo.title := title;
                     Todo.completed :=
                       Json.ToBoolean
                         (Json.nullish (Json.getField (body args) "completed")
                                       (Json.JBool false));
                     Todo.dueDate :=
                       match Json.getField (body args) "dueDate" with
                       | Some (Json.JStr d) => Some d
                       | _ => None
                       end;
                     Todo.createdAt := createdAt |} in
                let s2 := with_todos s1 (JsMap.set (todos s1) id todo) in
                (Returns (json (TodoObj todo) 201), s2)
          end
    end.

Definition getTodo : Handler :=
  fun args _ s =>
    match hd_error (params args) with
    | None => (Returns notFound, s)
    | Some todoId =>
        match JsMap.get (todos s) todoId with
        | Some todo => (Returns (json (TodoObj todo) 200), s)
        | None => (Returns notFound, s)
        end
    end.

(** [todos.has(todoId)] and [todos.get(todoId)!] are one lookup here. *)
Definition updateTodo : Handler :=
  fun args _ s =>
    match hd_error (params args) with
    | None => (Returns notFound, s)
    | Some todoId =>
        match JsMap.get (todos s) todoId with
        | None => (Returns notFound, s)
        | Some todo =>
            let updated :=
              {| Todo.id := Todo.id todo;
                 Todo.projectId := Todo.projectId todo;
                 Todo.title :=
                   match Json.getField (body args) "title" with
                   | Some (Json.JStr x) => x
                   | _ => Todo.title todo
                   end;
                 Todo.completed :=
                   match Json.getField (body args) "completed" with
                   | Some (Json.JBool b) => b
                   | _ => Todo.completed todo
                   end;
                 Todo.dueDate :=
                   match Json.getField (body args) "dueDate" with
                   | Some (Json.JStr d) => Some d
                   | _ => Todo.dueDate todo
                   end;
                 Todo.createdAt := Todo.createdAt todo |} in
            (Returns (json (TodoObj updated) 200),
             with_todos s (JsMap.set (todos s) todoId updated))
        end
    end.

Definition deleteTodo : Handler :=
  fun args _ s =>
    match hd_error (params args) with
    | None => (Returns notFound, s)
    | Some todoId =>
        let '(existed, todos') := JsMap.delete (todos s) todoId in
        let s' := with_todos s todos' in
        if negb existed then (Returns notFound, s') else (Returns noContent, s')
    end.

Definition JWT_SECRET : string := "hunter2".
Definition USERNAME : string := "admin".
Definition PASSWORD : string := "hunter2".

Definition login : Handler :=
  fun args clock s =>
    match Request.authorization (req args) with
    | None => (Returns (json (ErrorObj "Missing Authorization header") 401), s)
    | Some authHeader =>
        if JsString.falsy authHeader || negb (JsString.startsWith authHeader "Basic ")
        then (Returns (json (ErrorObj "Missing Authorization header") 401), s)
        else
          let base64 := JsString.slice authHeader (String.length "Basic ") in
          match atob base64 with
          | None => (Throws InvalidCharacterError, s)
          | Some decoded =>
              let parts := JsString.split ":" decoded in
              let username := nth_error parts 0 in
              let password := nth_error parts 1 in
              if negb (optionStringEqb username USERNAME)
                 || negb (optionStringEqb password PASSWORD)
              then (Returns (json (ErrorObj "Invalid credentials") 401), s)
              else
                let now := clock / 1000 in
                let exp := now + 60 * 60 in
                (* [username === USERNAME] on this branch *)
                let jwt := SignJWT USERNAME "user" now exp JWT_SECRET in
                let expMs := exp * 1000 in
                (Returns (json (TokenObj jwt expMs) 200),
                 with_validJwts s (JsMap.set (validJwts s) jwt expMs))
          end
    end.

(** ** The router *)
Definition routes : list Route.t :=
  let route m p h n :=
    {| Route.method := m; Route.path := p; Route.handler := h; Route.name := n |} in
  let projectsRe := [RegExp.Caret; RegExp.Lit "/projects"; RegExp.Dollar] in
  let projectRe :=
    [RegExp.Caret; RegExp.Lit "/projects/"; RegExp.Segment; RegExp.Dollar] in
  let projectTodosRe :=
    [RegExp.Caret; RegExp.Lit "/projects/"; RegExp.Segment; RegExp.Lit "/todos";
     RegExp.Dollar] in
  let todosRe := [RegExp.Caret; RegExp.Lit "/todos"; RegExp.Dollar] in
  let todoRe := [RegExp.Caret; RegExp.Lit "/todos/"; RegExp.Segment; RegExp.Dollar] in
  [ route "GET" [RegExp.Lit "/"; RegExp.Dollar] rootHandler None;
    route "GET" projectsRe listProjects None;
    route "POST" projectsRe createProject None;
    route "GET" projectRe getProject None;
    route "PUT" projectRe updateProject None;
    route "DELETE" projectRe deleteProject None;
    route "GET" projectTodosRe listTodos None;
    route "POST" projectTodosRe createTodo None;
    route "GET" todosRe listAllTodos None;
    route "GET" todoRe getTodo None;
    route "PUT" todoRe updateTodo None;
    route "DELETE" todoRe deleteTodo None;
    route "POST" [RegExp.Caret; RegExp.Lit "/login"; RegExp.Dollar] login
          (Some "login") ].

(** The loop of [matchRoute] over a list of routes. *)
Fixpoint firstMatch (rs : list Route.t) (path method : string) : option Match.t :=
  match rs with
  | [] => None
  | route :: rs' =>
      match RegExp.matchRe path (Route.path route) with
      | Some caps =>
          if String.eqb method (Route.method route)
          then Some {| Match.handler := Route.handler route;
                       Match.name := Route.name route;
                       Match.params := caps |}
          else firstMatch rs' path method
      | None => firstMatch rs' path method
      end
  end.

Definition matchRoute (path method : string) : option Match.t :=
  firstMatch routes path method.

(** ** The auth gate and the request handler *)
Definition authHandler (r : Request.t) (now : Z) (s : State) : Response.t :=
  match Request.authorization r with
  | None => json (ErrorObj "Missing Authorization header") 401
  | Some authHeader =>
      if JsString.falsy authHeader || negb (JsString.startsWith authHeader "Bearer ")
      then json (ErrorObj "Missing Authorization header") 401
      else
        let token := JsString.slice authHeader (String.length "Bearer ") in
        match JsMap.get (validJwts s) token with
        | None => json (ErrorObj "Invalid token") 401
        | Some expMs =>
            if (expMs =? 0) || (expMs <? now)
            then json (ErrorObj "Invalid token") 401
            else json (MessageObj "Token is valid") 200
        end
  end.

Definition handler (r : Request.t) (clock : Clock) (s : State) : Outcome * State :=
  match matchRoute (Request.pathname r) (Request.method r) with
  | None => (Returns notFound, s)
  | Some m =>
      let run :=
        let body :=
          if String.eqb (Request.method r) "POST" || String.eqb (Request.method r) "PUT"
          then parseBody r else Json.JNull in
        Match.handler m {| req := r; body := body; params := Match.params m |}
                      (handlerNow clock) in
      if negb (optionStringEqb (Match.name m) "login") then
        let auth := authHandler r (authNow clock) s in
        if negb (Response.status auth =? 200) then (Returns auth, s) else run s
      else run s
  end.

(** The server on a sequence of requests, one after the other. *)
Fixpoint serve (rs : list (Request.t * Clock)) (s : State) : list Outcome * State :=
  match rs with
  | [] => ([], s)
  | (r, clock) :: rs' =>
      let '(o, s1) := handler r clock s in
      let '(os, s2) := serve rs' s1 in
      (o :: os, s2)
  end.

End Handlers.

(** ** Properties of handlers used in the proofs *)

(** A handler leaves the project counter as it is or increments it, and
    when it answers 201 with a project, the project's id is the numeral of
    the counter it found, and it has incremented the counter. *)
Definition countsProjects (h : Handler) : Prop :=
  forall args now s o s',
    h args now s = (o, s') ->
    (projectCounter s' = projectCounter s \/
     projectCounter s' = increment (projectCounter s)) /\
    forall p, o = Returns (json (ProjectObj p) 201) ->
      Project.id p = String_of_counter (projectCounter s) /\
      projectCounter s' = increment (projectCounter s).

(** Two bodies with the same fields. *)
Definition sameFields (b1 b2 : Json.JValue) : Prop :=
  forall k, Json.getField b1 k = Json.getField b2 k.

(** A handler reads the request for its authorization header only, and the
    body for its fields only. *)
Definition readsFieldsOnly (h : Handler) : Prop :=
  forall r1 r2 b1 b2 ps now s,
    Request.authorization r1 = Request.authorization r2 ->
    sameFields b1 b2 ->
    h {| req := r1; body := b1; params := ps |} now s =
    h {| req := r2; body := b2; params := ps |} now s.

(** The request [r] with another result of [req.json()]. *)
Definition withJson (r : Request.t) (j : option Json.JValue) : Request.t :=
  {| Request.method := Request.method r; Request.pathname := Request.pathname r;
     Request.authorization := Request.authorization r; Request.json := j |}.

(** ** A runtime for the examples

    Numbers with exponent zero print as integers, [atob] is the identity
    and a token is its claims in clear. *)
Definition exampleRuntime : Runtime :=
  {| Number_toString := fun x =>
       match x with
       | S754_zero _ => "0"
       | S754_infinity false => "Infinity"
       | S754_infinity true => "-Infinity"
       | S754_nan => "NaN"
       | S754_finite sign m e =>
           ((if sign then "-" else "") ++ NilEmpty.string_of_uint (Pos.to_uint m)
            ++ (if (e =? 0)%Z then "" else "e" ++ NilZero.string_of_int (Z.to_int e)))%string
       end;
     atob := fun s => Some s;
     SignJWT := fun sub role iat exp secret =>
       (sub ++ "." ++ role ++ "." ++ NilZero.string_of_int (Z.to_int exp))%string |}.

(** A state with one project, one of its todos and one token. *)
Definition exampleState : State :=
  {| projects :=
       [("1", {| Project.id := "1"; Project.name := "Groceries";
                 Project.createdAt := "2025-11-01T18:29:00.123Z" |})];
     todos :=
       [("1", {| Todo.id := "1"; Todo.projectId := "1"; Todo.title := "Milk";
                 Todo.completed := false; Todo.dueDate := None;
                 Todo.createdAt := "2025-11-01T18:30:00.000Z" |})];
     projectCounter := 2;
     todoCounter := 2;
     validJwts := [("tok", 1762025340000)] |}.

Definition exampleRequest (method path : string) (json : option Json.JValue)
  : Request.t :=
  {| Request.method := method; Request.pathname := path;
     Request.authorization := Some "Bearer tok"; Request.json := json |}.

Definition exampleClock : Clock :=
  {| authNow := 1762021740123; handlerNow := 1762021740123 |}.

(** Handler arguments for the examples. *)
Definition exampleArgs (method path : string) (b : option Json.JValue)
    (ps : list string) : HandlerArgs :=
  {| req := exampleRequest method path b;
     body := parseBody (exampleRequest method path b);
     params := ps |}.

(** A session from the start of the process: login, a project created,
    deleted, and another one created. *)
Definition exampleSession : list (Request.t * Clock) :=
  let bearer m p j :=
    {| Request.method := m; Request.pathname := p;
       Request.authorization := Some "Bearer admin.user.1762025340";
       Request.json := j |} in
  [ ({| Request.method := "POST"; Request.pathname := "/login";
        Request.authorization := Some "Basic admin:hunter2";
        Request.json := None |}, exampleClock);
    (bearer "POST" "/projects" (Some (Json.JObj [("name", Json.JStr "Groceries")])),
     exampleClock);
    (bearer "DELETE" "/projects/1" None, exampleClock);
    (bearer "POST" "/projects" (Some (Json.JObj [("name", Json.JStr "Chores")])),
     exampleClock) ].

(** ** The states a server can be in, and what requests do to them *)

(** The keys of a map, in insertion order. *)
Definition keys {V : Type} (m : JsMap.t V) : list string := map fst m.

(** The numeral of a number that a counter now at [counter] has given
    out: a number from 1 below the counter, or the counter itself once it
    has stopped at [2^53]. *)
Definition assignedId (counter : N) (k : string) : Prop :=
  exists n, k = String_of_counter n /\ (1 <= n)%N /\
            ((n < counter)%N \/ (n = counter /\ counter = integerLimit)).

(** A project is stored under its own id, which the project counter has
    given out, and its name is trimmed and not empty. *)
Definition projectEntryOk (counter : N) (e : string * Project.t) : Prop :=
  Project.id (snd e) = fst e /\
  assignedId counter (fst e) /\
  JsString.trim (Project.name (snd e)) = Project.name (snd e) /\
  Project.name (snd e) <> "".

(** A todo is stored under its own id, which the todo counter has given
    out, and names a project id that the project counter has given out. *)
Definition todoEntryOk (pCounter tCounter : N) (e : string * Todo.t) : Prop :=
  Todo.id (snd e) = fst e /\
  assignedId tCounter (fst e) /\
  assignedId pCounter (Todo.projectId (snd e)).

Definition wellFormed (s : State) : Prop :=
  NoDup (keys (projects s)) /\
  NoDup (keys (todos s)) /\
  Forall (projectEntryOk (projectCounter s)) (projects s) /\
  Forall (todoEntryOk (projectCounter s) (todoCounter s)) (todos s) /\
  (1 <= projectCounter s <= integerLimit)%N /\
  (1 <= todoCounter s <= integerLimit)%N.

(** A relation between the arguments, the clock, the state found, the
    outcome and the state left, that every call of a handler satisfies. *)
Definition always (R : HandlerArgs -> Z -> State -> Outcome -> State -> Prop)
    (h : Handler) : Prop :=
  forall args now s o s', h args now s = (o, s') -> R args now s o s'.

(** The body that [handler] gives to the route's handler. *)
Definition bodyOf (r : Request.t) : Json.JValue :=
  if String.eqb (Request.method r) "POST" || String.eqb (Request.method r) "PUT"
  then parseBody r else Json.JNull.

(** A token is registered, whatever its expiry. *)
Definition registered (s : State) (token : string) : Prop :=
  exists expMs, JsMap.get (validJwts s) token = Some expMs.

(** A value that is an object, with fields to look up. *)
Definition isObject (v : Json.JValue) : bool :=
  match v with Json.JObj _ => true | _ => false end.

(** What [matchRoute] returns for a route without a name. *)
Definition found (h : Handler) (ps : list string) : Match.t :=
  {| Match.handler := h; Match.name := None; Match.params := ps |}.

(** Every code unit of a string is white space. *)
Definition isBlank (x : string) : Prop :=
  forall c, In c (list_ascii_of_string x) -> JsString.isWhiteSpace c = true.

(** More examples: a login request, a request without credentials, and a
    session in which two todos are created and one is deleted. *)
Definition exampleLogin (credentials : string) : Request.t :=
  {| Request.method := "POST"; Request.pathname := "/login";
     Request.authorization := Some ("Basic " ++ credentials);
     Request.json := None |}.

Definition exampleAnonymous (method path : string) : Request.t :=
  {| Request.method := method; Request.pathname := path;
     Request.authorization := None; Request.json := None |}.

Definition exampleTodoSession : list (Request.t * Clock) :=
  let bearer m p j :=
    {| Request.method := m; Request.pathname := p;
       Request.authorization := Some "Bearer admin.user.1762025340";
       Request.json := j |} in
  [ (exampleLogin "admin:hunter2", exampleClock);
    (bearer "POST" "/projects" (Some (Json.JObj [("name", Json.JStr "Groceries")])),
     exampleClock);
    (bearer "POST" "/projects/1/todos"
       (Some (Json.JObj [("title", Json.JStr "Milk")])), exampleClock);
    (bearer "DELETE" "/todos/1" None, exampleClock);
    (bearer "POST" "/projects/1/todos"
       (Some (Json.JObj [("title", Json.JStr "Eggs");
                         ("dueDate", Json.JStr "2025-12-01")])), exampleClock) ].

(** * Facts *)

(** ** Maps *)
Module JsMapFacts.
Section Facts.
Context {V : Type}.
Implicit Types (m : JsMap.t V) (k : string) (v : V).

Lemma get_set_eq m k v : JsMap.get (JsMap.set m k v) k = Some v.
Proof.
  induction m as [|[k' v'] m IH]; simpl.
  - now rewrite String.eqb_refl.
  - destruct (String.eqb k' k) eqn:E; simpl.
    + now rewrite String.eqb_refl.
    + now rewrite E.
Qed.

Lemma get_set_ne m k k' v :
  k <> k' -> JsMap.get (JsMap.set m k v) k' = JsMap.get m k'.
Proof.
  intros Hne. induction m as [|[k0 v0] m IH]; simpl.
  - destruct (String.eqb_spec k k'); [contradiction | reflexivity].
  - destruct (String.eqb_spec k0 k) as [->|Hk]; simpl.
    + destruct (String.eqb_spec k k'); [contradiction | reflexivity].
    + now rewrite IH.
Qed.

(** Setting a key to the value it has changes nothing. *)
Lemma set_same m k v : JsMap.get m k = Some v -> JsMap.set m k v = m.
Proof.
  induction m as [|[k0 v0] m IH]; simpl; [discriminate|].
  destruct (String.eqb_spec k0 k) as [->|Hk]; intros H.
  - now injection H as ->.
  - now rewrite IH.
Qed.

Lemma get_remove_eq m k : JsMap.get (JsMap.remove m k) k = None.
Proof.
  induction m as [|[k0 v0] m IH]; simpl; [reflexivity|].
  destruct (String.eqb k0 k) eqn:E; simpl; [assumption|].
  now rewrite E.
Qed.

Lemma get_remove_ne m k k' :
  k <> k' -> JsMap.get (JsMap.remove m k) k' = JsMap.get m k'.
Proof.
  intros Hne. induction m as [|[k0 v0] m IH]; simpl; [reflexivity|].
  destruct (String.eqb_spec k0 k) as [->|Hk]; simpl.
  - destruct (String.eqb_spec k k'); [contradiction | assumption].
  - now rewrite IH.
Qed.

(** Deleting an absent key changes nothing. *)
Lemma remove_absent m k : JsMap.get m k = None -> JsMap.remove m k = m.
Proof.
  induction m as [|[k0 v0] m IH]; simpl; [reflexivity|].
  destruct (String.eqb k0 k); [discriminate|].
  intros H. now rewrite IH.
Qed.

Lemma has_true m k : JsMap.has m k = true <-> exists v, JsMap.get m k = Some v.
Proof.
  unfold JsMap.has. destruct (JsMap.get m k) as [v|]; split; intros H.
  - now exists v.
  - reflexivity.
  - discriminate.
  - destruct H as [v H]; discriminate.
Qed.

Lemma has_false m k : JsMap.has m k = false <-> JsMap.get m k = None.
Proof. unfold JsMap.has. destruct (JsMap.get m k); split; congruence. Qed.

End Facts.
End JsMapFacts.

(** ** Strings and counters *)

Lemma isEmpty_true s : JsString.isEmpty s = true <-> s = "".
Proof. destruct s; simpl; split; congruence. Qed.

Lemma isEmpty_false s : JsString.isEmpty s = false <-> s <> "".
Proof. destruct s; simpl; split; congruence. Qed.

Lemma counter_of_String_of_counter n :
  counter_of_String (String_of_counter n) = Some n.
Proof.
  unfold counter_of_String, String_of_counter.
  rewrite NilEmpty.usu. simpl. now rewrite DecimalN.Unsigned.of_to.
Qed.

Lemma String_of_counter_inj n m :
  String_of_counter n = String_of_counter m -> n = m.
Proof.
  intros H. apply (f_equal counter_of_String) in H.
  rewrite !counter_of_String_of_counter in H. congruence.
Qed.

(** State updates that write back what is there. *)
Lemma with_todos_same s : with_todos s (todos s) = s.
Proof. now destruct s. Qed.

Lemma with_projects_same s : with_projects s (projects s) = s.
Proof. now destruct s. Qed.

(** ** The auth gate *)

Lemma bearer_token token :
  JsString.falsy ("Bearer " ++ token) = false /\
  JsString.startsWith ("Bearer " ++ token) "Bearer " = true /\
  JsString.slice ("Bearer " ++ token) (String.length "Bearer ") = token.
Proof.
  split; [reflexivity | split].
  - unfold JsString.startsWith. simpl. now destruct token.
  - reflexivity.
Qed.

(** What the gate answers to a request with the header [Bearer token]. *)
Lemma authHandler_bearer r now s token :
  Request.authorization r = Some ("Bearer " ++ token) ->
  authHandler r now s =
    match JsMap.get (validJwts s) token with
    | None => json (ErrorObj "Invalid token") 401
    | Some expMs =>
        if (expMs =? 0) || (expMs <? now)
        then json (ErrorObj "Invalid token") 401
        else json (MessageObj "Token is valid") 200
    end.
Proof.
  intros H. unfold authHandler. rewrite H.
  destruct (bearer_token token) as (-> & -> & ->). reflexivity.
Qed.

(** C1, as the code has it: for a request with the header [Bearer token],
    the gate answers 401 "Invalid token" exactly when the token is not in
    the registry, or its recorded expiry is zero or strictly before the
    current time; otherwise it answers 200. A request made at the very
    instant of expiry passes; one millisecond later it is rejected. *)
Theorem authHandler_invalid_iff r now s token :
  Request.authorization r = Some ("Bearer " ++ token) ->
  (authHandler r now s = json (ErrorObj "Invalid token") 401 <->
     JsMap.get (validJwts s) token = None \/
     exists expMs, JsMap.get (validJwts s) token = Some expMs /\
                   (expMs = 0 \/ expMs < now)) /\
  (authHandler r now s = json (MessageObj "Token is valid") 200 <->
     exists expMs, JsMap.get (validJwts s) token = Some expMs /\
                   expMs <> 0 /\ now <= expMs) /\
  (forall expMs, JsMap.get (validJwts s) token = Some expMs -> expMs <> 0 ->
     now = expMs -> Response.status (authHandler r now s) = 200) /\
  (forall expMs, JsMap.get (validJwts s) token = Some expMs ->
     expMs + 1 <= now -> Response.status (authHandler r now s) = 401).
Proof.
  intros H. rewrite (authHandler_bearer r now s token H).
  destruct (JsMap.get (validJwts s) token) as [e|].
  - assert (Hcase : (e = 0 \/ e < now) /\ (e =? 0) || (e <? now) = true \/
                    (e <> 0 /\ now <= e) /\ (e =? 0) || (e <? now) = false).
    { destruct (Z.eqb_spec e 0); destruct (Z.ltb_spec e now); simpl;
        first [left; split; [lia | reflexivity] | right; split; [lia | reflexivity]]. }
    destruct Hcase as [[Hbad ->] | [[Hnz Hle] ->]].
    + split; [|split; [|split]].
      * split; [intros _; right; exists e; now split | reflexivity].
      * split; [discriminate|].
        intros (e' & He & Hn & Hl). injection He as <-. lia.
      * intros e' He Hn ->. injection He as <-. lia.
      * reflexivity.
    + split; [|split; [|split]].
      * split; [discriminate|].
        intros [Hn | (e' & He & Hb)]; [discriminate|]. injection He as <-. lia.
      * split; [intros _; exists e; now repeat split | reflexivity].
      * reflexivity.
      * intros e' He Hl. injection He as <-. lia.
  - split; [|split; [|split]].
    + split; [intros _; now left | reflexivity].
    + split; [discriminate|]. intros (e & He & _). discriminate.
    + discriminate.
    + discriminate.
Qed.

(** C1, as the spec has it, fails at the instant of expiry: the token
    [tok] expires at 1762025340000 and a request at that very time
    passes the gate. *)
Lemma authHandler_accepts_at_expiry :
  JsMap.get (validJwts exampleState) "tok" = Some 1762025340000 /\
  1762025340000 <= 1762025340000 /\
  authHandler (exampleRequest "GET" "/projects" None) 1762025340000 exampleState
    = json (MessageObj "Token is valid") 200.
Proof. repeat split; try reflexivity. Qed.

Lemma authHandler_invalid_iff_witness :
  Request.authorization (exampleRequest "GET" "/projects" None)
    = Some ("Bearer " ++ "tok") /\
  authHandler (exampleRequest "GET" "/projects" None) 1762025340001 exampleState
    = json (ErrorObj "Invalid token") 401.
Proof.
  split; [reflexivity|].
  apply (authHandler_invalid_iff (exampleRequest "GET" "/projects" None)
           1762025340001 exampleState "tok" eq_refl).
  right. exists 1762025340000. split; [reflexivity | right; lia].
Defined.

(** ** Todos: update, create, and the deletion of their project *)
Section TodoFacts.
Context {rt : Runtime}.

(** [updateTodo] on a todo that exists: the answer and the new state. *)
Lemma updateTodo_existing args now s todoId todo :
  hd_error (params args) = Some todoId ->
  JsMap.get (todos s) todoId = Some todo ->
  exists updated,
    updateTodo args now s =
      (Returns (json (TodoObj updated) 200),
       with_todos s (JsMap.set (todos s) todoId updated)) /\
    JsMap.get (todos (snd (updateTodo args now s))) todoId = Some updated /\
    Todo.title updated =
      match Json.getField (body args) "title" with
      | Some (Json.JStr x) => x | _ => Todo.title todo end /\
    Todo.completed updated =
      match Json.getField (body args) "completed" with
      | Some (Json.JBool b) => b | _ => Todo.completed todo end /\
    Todo.dueDate updated =
      match Json.getField (body args) "dueDate" with
      | Some (Json.JStr d) => Some d | _ => Todo.dueDate todo end /\
    Todo.id updated = Todo.id todo /\
    Todo.projectId updated = Todo.projectId todo /\
    Todo.createdAt updated = Todo.createdAt todo.
Proof.
  intros Hp Hg. unfold updateTodo. rewrite Hp, Hg.
  eexists. split; [reflexivity|]. split.
  - simpl. apply JsMapFacts.get_set_eq.
  - simpl. repeat split.
Qed.

Lemma typeof_string v : Json.typeof v = "string" <-> exists x, v = Some (Json.JStr x).
Proof.
  split.
  - destruct v as [[| | | x | |]|]; simpl; try discriminate. now exists x.
  - intros [x ->]. reflexivity.
Qed.

Lemma typeof_boolean v : Json.typeof v = "boolean" <-> exists b, v = Some (Json.JBool b).
Proof.
  split.
  - destruct v as [[| b | | | |]|]; simpl; try discriminate. now exists b.
  - intros [b ->]. reflexivity.
Qed.

(** C2: on a todo that exists, [updateTodo] answers 200 and stores a record
    in which each of [title], [completed] and [dueDate] is the body's field
    when that field is there with the expected type (string, boolean,
    string), and is the previous value in every other case; the other
    fields keep their values. With [completed: "true"] the previous
    [completed] stays. *)
Theorem updateTodo_type_strict args now s todoId todo :
  hd_error (params args) = Some todoId ->
  JsMap.get (todos s) todoId = Some todo ->
  exists updated,
    fst (updateTodo args now s) = Returns (json (TodoObj updated) 200) /\
    JsMap.get (todos (snd (updateTodo args now s))) todoId = Some updated /\
    (forall x, Json.getField (body args) "title" = Some (Json.JStr x) ->
       Todo.title updated = x) /\
    (Json.typeof (Json.getField (body args) "title") <> "string" ->
       Todo.title updated = Todo.title todo) /\
    (forall b, Json.getField (body args) "completed" = Some (Json.JBool b) ->
       Todo.completed updated = b) /\
    (Json.typeof (Json.getField (body args) "completed") <> "boolean" ->
       Todo.completed updated = Todo.completed todo) /\
    (forall d, Json.getField (body args) "dueDate" = Some (Json.JStr d) ->
       Todo.dueDate updated = Some d) /\
    (Json.typeof (Json.getField (body args) "dueDate") <> "string" ->
       Todo.dueDate updated = Todo.dueDate todo) /\
    (Json.getField (body args) "completed" = Some (Json.JStr "true") ->
       Todo.completed updated = Todo.completed todo) /\
    Todo.id updated = Todo.id todo /\
    Todo.projectId updated = Todo.projectId todo /\
    Todo.createdAt updated = Todo.createdAt todo.
Proof.
  intros Hp Hg.
  destruct (updateTodo_existing args now s todoId todo Hp Hg)
    as (u & Hu & Hget & Ht & Hc & Hd & Hid & Hpid & Hca).
  exists u. rewrite Hu in *. simpl fst.
  split; [reflexivity|]. split; [exact Hget|].
  rewrite Ht, Hc, Hd.
  split; [now intros x ->|].
  split.
  { intros Hty. destruct (Json.getField (body args) "title") as [[| | | x | |]|];
      try reflexivity. now contradiction Hty. }
  split; [now intros b ->|].
  split.
  { intros Hty. destruct (Json.getField (body args) "completed") as [[| b | | | |]|];
      try reflexivity. now contradiction Hty. }
  split; [now intros d ->|].
  split.
  { intros Hty. destruct (Json.getField (body args) "dueDate") as [[| | | x | |]|];
      try reflexivity. now contradiction Hty. }
  split; [now intros ->|].
  now repeat split.
Qed.

(** C9: on a todo that exists, a body whose [title] is a string sets the
    title to exactly that string, empty or padded with blanks as it may be;
    the same body given to [createTodo] is refused with 400 when the
    string is blank. *)
Theorem updateTodo_title_unchecked args now s todoId todo x :
  hd_error (params args) = Some todoId ->
  JsMap.get (todos s) todoId = Some todo ->
  Json.getField (body args) "title" = Some (Json.JStr x) ->
  (exists updated,
     fst (updateTodo args now s) = Returns (json (TodoObj updated) 200) /\
     JsMap.get (todos (snd (updateTodo args now s))) todoId = Some updated /\
     Todo.title updated = x) /\
  (forall args' now' s' projectId,
     body args' = body args ->
     hd_error (params args') = Some projectId ->
     JsMap.has (projects s') projectId = true ->
     JsString.trim x = "" ->
     createTodo args' now' s' = (Returns (text "Missing todo title" 400), s')).
Proof.
  intros Hp Hg Hx. split.
  - destruct (updateTodo_existing args now s todoId todo Hp Hg)
      as (u & Hu & Hget & Ht & _).
    exists u. rewrite Hu in *. rewrite Hx in Ht. now repeat split.
  - intros args' now' s' pid Hb Hp' Hhas Htrim.
    unfold createTodo. rewrite Hp', Hhas, Hb, Hx. simpl. now rewrite Htrim.
Qed.

(** C6: deleting a project that exists answers 204, removes that project
    and nothing else: the todo store is untouched, so every todo of the
    deleted project is still read with 200 and still names the project. *)
Theorem deleteProject_keeps_todos args now s projectId :
  hd_error (params args) = Some projectId ->
  JsMap.has (projects s) projectId = true ->
  let s' := snd (deleteProject args now s) in
  fst (deleteProject args now s) = Returns noContent /\
  JsMap.get (projects s') projectId = None /\
  (forall other, other <> projectId ->
     JsMap.get (projects s') other = JsMap.get (projects s) other) /\
  todos s' = todos s /\
  projectCounter s' = projectCounter s /\
  todoCounter s' = todoCounter s /\
  validJwts s' = validJwts s /\
  (forall todoId todo args' now',
     JsMap.get (todos s) todoId = Some todo ->
     Todo.projectId todo = projectId ->
     hd_error (params args') = Some todoId ->
     getTodo args' now' s' = (Returns (json (TodoObj todo) 200), s') /\
     Todo.projectId todo = projectId).
Proof.
  intros Hp Hhas s'. subst s'. unfold deleteProject, JsMap.delete.
  rewrite Hp, Hhas. simpl.
  split; [reflexivity|].
  split; [apply JsMapFacts.get_remove_eq|].
  split; [intros other Hne; apply JsMapFacts.get_remove_ne; congruence|].
  do 4 (split; [reflexivity|]).
  intros todoId todo args' now' Hg Hpid Hp'.
  unfold getTodo. rewrite Hp'. simpl. rewrite Hg. now split.
Qed.

(** [createTodo] under a project that exists, with a title that is not
    blank. *)
Lemma createTodo_success args now s projectId str :
  hd_error (params args) = Some projectId ->
  JsMap.has (projects s) projectId = true ->
  Json.ToString Number_toString
    (Json.nullish (Json.getField (body args) "title") (Json.JStr "")) = Some str ->
  JsString.trim str <> "" ->
  exists todo,
    createTodo args now s =
      (Returns (json (TodoObj todo) 201),
       with_todos (with_todoCounter s (increment (todoCounter s)))
                  (JsMap.set (todos s) (String_of_counter (todoCounter s)) todo)) /\
    Todo.title todo = JsString.trim str /\
    Todo.projectId todo = projectId /\
    Todo.completed todo =
      Json.ToBoolean (Json.nullish (Json.getField (body args) "completed")
                                   (Json.JBool false)).
Proof.
  intros Hp Hhas Hs Ht. unfold createTodo. rewrite Hp, Hhas, Hs. simpl.
  apply isEmpty_false in Ht. unfold JsString.falsy. rewrite Ht.
  eexists. split; [reflexivity|]. now repeat split.
Qed.

(** C10: a successful [createTodo] takes [completed] from the body by
    truthiness: false when the field is absent or [null], the boolean
    itself for a boolean, true for every non-empty string (["false"]
    included), for every array and every object, false for the empty
    string and for the numbers zero and NaN, true for the other numbers.
    [updateTodo], given a string there, keeps the previous value. *)
Theorem createTodo_completed_truthiness args now s projectId str :
  hd_error (params args) = Some projectId ->
  JsMap.has (projects s) projectId = true ->
  Json.ToString Number_toString
    (Json.nullish (Json.getField (body args) "title") (Json.JStr "")) = Some str ->
  JsString.trim str <> "" ->
  exists todo,
    fst (createTodo args now s) = Returns (json (TodoObj todo) 201) /\
    JsMap.get (todos (snd (createTodo args now s))) (Todo.id todo) = Some todo /\
    (Json.getField (body args) "completed" = None -> Todo.completed todo = false) /\
    (Json.getField (body args) "completed" = Some Json.JNull ->
       Todo.completed todo = false) /\
    (forall b, Json.getField (body args) "completed" = Some (Json.JBool b) ->
       Todo.completed todo = b) /\
    (forall x, Json.getField (body args) "completed" = Some (Json.JStr x) ->
       (x <> "" -> Todo.completed todo = true) /\
       (x = "" -> Todo.completed todo = false)) /\
    (Json.getField (body args) "completed" = Some (Json.JStr "false") ->
       Todo.completed todo = true) /\
    (Json.getField (body args) "completed" = Some (Json.JStr "true") ->
       Todo.completed todo = true) /\
    (forall x, Json.getField (body args) "completed" = Some (Json.JNum x) ->
       Todo.completed todo =
         match x with S754_zero _ | S754_nan => false | _ => true end) /\
    (forall l, Json.getField (body args) "completed" = Some (Json.JArr l) ->
       Todo.completed todo = true) /\
    (forall l, Json.getField (body args) "completed" = Some (Json.JObj l) ->
       Todo.completed todo = true) /\
    (forall x args' now' s' todoId old,
       Json.getField (body args) "completed" = Some (Json.JStr x) ->
       body args' = body args ->
       hd_error (params args') = Some todoId ->
       JsMap.get (todos s') todoId = Some old ->
       exists updated,
         fst (updateTodo args' now' s') = Returns (json (TodoObj updated) 200) /\
         Todo.completed updated = Todo.completed old).
Proof.
  intros Hp Hhas Hs Ht.
  destruct (createTodo_success args now s projectId str Hp Hhas Hs Ht)
    as (todo & Hc & _ & _ & Hcompleted).
  exists todo. rewrite Hc. simpl fst. simpl snd.
  split; [reflexivity|].
  split.
  { assert (Hid : Todo.id todo = String_of_counter (todoCounter s)).
    { unfold createTodo in Hc. rewrite Hp, Hhas, Hs in Hc. simpl in Hc.
      apply isEmpty_false in Ht. unfold JsString.falsy in Hc. rewrite Ht in Hc.
      injection Hc as Hc _. now rewrite <- Hc. }
    rewrite Hid. simpl. apply JsMapFacts.get_set_eq. }
  rewrite Hcompleted.
  split; [now intros ->|].
  split; [now intros ->|].
  split; [now intros b ->|].
  split.
  { intros x ->. simpl. split.
    - intros Hx. apply isEmpty_false in Hx. now rewrite Hx.
    - now intros ->. }
  split; [now intros ->|].
  split; [now intros ->|].
  split; [intros x ->; now destruct x|].
  split; [now intros l ->|].
  split; [now intros l ->|].
  intros x args' now' s' todoId old Hx Hb Hp' Hg.
  destruct (updateTodo_existing args' now' s' todoId old Hp' Hg)
    as (u & Hu & _ & _ & Hcu & _).
  exists u. rewrite Hu. split; [reflexivity|].
  now rewrite Hcu, Hb, Hx.
Qed.

End TodoFacts.

(** ** Counters *)
Lemma increment_below n : (n < integerLimit)%N -> increment n = (n + 1)%N.
Proof.
  intros H. unfold increment. now apply N.ltb_lt in H as ->.
Qed.

(** At [2^53] a counter stays where it is. *)
Lemma increment_integerLimit : increment integerLimit = integerLimit.
Proof. reflexivity. Qed.

Lemma increment_le n : (n <= increment n)%N.
Proof.
  unfold increment. destruct (n <? integerLimit)%N; [lia|].
  destruct (n <? 2 * integerLimit)%N; [|lia]. destruct (N.even (n / 2)); lia.
Qed.

Lemma increment_bounded n :
  (n <= integerLimit)%N -> (increment n <= integerLimit)%N.
Proof.
  intros H. destruct (N.eq_dec n integerLimit) as [->|Hne].
  - rewrite increment_integerLimit. lia.
  - rewrite increment_below by lia. lia.
Qed.

(** ** The server as a whole *)
Section ServerFacts.
Context {rt : Runtime}.

(** Case analysis on every [match] and [if] of a hypothesis. *)
Ltac split_matches H :=
  repeat match type of H with
         | context [match ?x with _ => _ end] => destruct x eqn:?
         | context [if ?x then _ else _] => destruct x eqn:?
         end.

Ltac counts_by_cases :=
  let H := fresh "H" in
  intros ? ? ? ? ? H; cbv beta iota zeta delta [JsMap.delete] in H;
  split_matches H;
  injection H as <- <-;
  (split; [simpl; auto | intros ? ?; discriminate]).

Lemma rootHandler_counts : countsProjects rootHandler.
Proof. unfold rootHandler. counts_by_cases. Qed.

Lemma listProjects_counts : countsProjects listProjects.
Proof. unfold listProjects. counts_by_cases. Qed.

Lemma createProject_counts : countsProjects createProject.
Proof.
  unfold createProject. intros args now s o s' H.
  split_matches H; injection H as <- <-; simpl.
  - split; [auto | intros p Hp; discriminate].
  - split; [auto|]. intros p Hp. injection Hp as <-. simpl. now split.
  - split; [auto | intros p Hp; discriminate].
Qed.

Lemma getProject_counts : countsProjects getProject.
Proof. unfold getProject. counts_by_cases. Qed.

Lemma updateProject_counts : countsProjects updateProject.
Proof. unfold updateProject. counts_by_cases. Qed.

Lemma deleteProject_counts : countsProjects deleteProject.
Proof. unfold deleteProject. counts_by_cases. Qed.

Lemma listTodos_counts : countsProjects listTodos.
Proof. unfold listTodos. counts_by_cases. Qed.

Lemma listAllTodos_counts : countsProjects listAllTodos.
Proof. unfold listAllTodos. counts_by_cases. Qed.

Lemma createTodo_counts : countsProjects createTodo.
Proof. unfold createTodo. counts_by_cases. Qed.

Lemma getTodo_counts : countsProjects getTodo.
Proof. unfold getTodo. counts_by_cases. Qed.

Lemma updateTodo_counts : countsProjects updateTodo.
Proof. unfold updateTodo. counts_by_cases. Qed.

Lemma deleteTodo_counts : countsProjects deleteTodo.
Proof. unfold deleteTodo. counts_by_cases. Qed.

Lemma login_counts : countsProjects login.
Proof. unfold login. counts_by_cases. Qed.

(** A match comes from a route of the list. *)
Lemma firstMatch_In rs path method m :
  firstMatch rs path method = Some m ->
  exists route, In route rs /\
    Match.handler m = Route.handler route /\
    Match.name m = Route.name route /\
    method = Route.method route /\
    RegExp.matchRe path (Route.path route) = Some (Match.params m).
Proof.
  induction rs as [|route rs IH]; simpl; [discriminate|].
  destruct (RegExp.matchRe path (Route.path route)) as [caps|] eqn:Hre.
  - destruct (String.eqb_spec method (Route.method route)) as [Hm|Hm].
    + intros H. injection H as <-. exists route. simpl. auto.
    + intros H. destruct (IH H) as (r0 & Hin & Hr). exists r0. auto.
  - intros H. destruct (IH H) as (r0 & Hin & Hr). exists r0. auto.
Qed.

Lemma routes_count route : In route routes -> countsProjects (Route.handler route).
Proof.
  unfold routes. simpl.
  intros H; repeat (destruct H as [<- | H]; [simpl|]); try contradiction;
    auto using rootHandler_counts, listProjects_counts, createProject_counts,
      getProject_counts, updateProject_counts, deleteProject_counts,
      listTodos_counts, createTodo_counts, listAllTodos_counts, getTodo_counts,
      updateTodo_counts, deleteTodo_counts, login_counts.
Qed.

(** The gate answers with an error object or with its message. *)
Lemma authHandler_answers r now s :
  (exists msg, authHandler r now s = json (ErrorObj msg) 401) \/
  authHandler r now s = json (MessageObj "Token is valid") 200.
Proof.
  unfold authHandler.
  destruct (Request.authorization r) as [h|]; [|left; eauto].
  destruct (_ || _); [left; eauto|].
  destruct (JsMap.get _ _) as [e|]; [|left; eauto].
  destruct (_ || _); [left; eauto | now right].
Qed.

(** The property of [countsProjects], for a whole request. *)
Lemma handler_counts r clock s o s' :
  handler r clock s = (o, s') ->
  (projectCounter s' = projectCounter s \/
   projectCounter s' = increment (projectCounter s)) /\
  forall p, o = Returns (json (ProjectObj p) 201) ->
    Project.id p = String_of_counter (projectCounter s) /\
    projectCounter s' = increment (projectCounter s).
Proof.
  unfold handler, matchRoute.
  destruct (firstMatch routes (Request.pathname r) (Request.method r)) as [m|] eqn:Hm.
  - destruct (firstMatch_In _ _ _ _ Hm) as (route & Hin & Hh & _).
    pose proof (routes_count route Hin) as Hc. rewrite <- Hh in Hc.
    destruct (negb (optionStringEqb (Match.name m) "login")).
    + destruct (negb (Response.status (authHandler r (authNow clock) s) =? 200)) eqn:Ha.
      * intros H. injection H as <- <-. split; [auto|].
        intros p Hp. injection Hp as Hp.
        destruct (authHandler_answers r (authNow clock) s) as [[msg E] | E];
          rewrite E in Hp; discriminate.
      * apply Hc.
    + apply Hc.
  - intros H. injection H as <- <-. split; [auto | intros p Hp; discriminate].
Qed.

(** Over a sequence of requests that is too short to take the counter to
    [2^53]: the counter goes up by at most one a request, and every project
    created has the numeral of a number between the counter at the start
    and the counter at the end. *)
Lemma serve_counts rs : forall s os s',
  (projectCounter s + N.of_nat (List.length rs) <= integerLimit)%N ->
  serve rs s = (os, s') ->
  (projectCounter s <= projectCounter s' <=
     projectCounter s + N.of_nat (List.length rs))%N /\
  forall i p, nth_error os i = Some (Returns (json (ProjectObj p) 201)) ->
    exists n, Project.id p = String_of_counter n /\
              (projectCounter s <= n < projectCounter s')%N.
Proof.
  induction rs as [|[r clock] rs IH]; intros s os s' Hb H.
  - simpl in H. injection H as <- <-. split; [simpl; lia|].
    intros [|i] p Hp; discriminate.
  - simpl in H. change (List.length ((r, clock) :: rs)) with (S (List.length rs)) in *.
    destruct (handler r clock s) as [o s1] eqn:Hh.
    destruct (serve rs s1) as [os1 s2] eqn:Hs.
    injection H as <- <-.
    destruct (handler_counts _ _ _ _ _ Hh) as [Hstep Hcreate].
    rewrite increment_below in Hstep, Hcreate by lia.
    destruct (IH s1 os1 s2) as [Hle' Hrest]; [lia | assumption |].
    split; [lia|].
    intros [|i] p Hp; simpl in Hp.
    + injection Hp as ->. destruct (Hcreate p eq_refl) as [Hid Hlt].
      exists (projectCounter s). split; [assumption | lia].
    + destruct (Hrest i p Hp) as (n & Hid & Hn). exists n. split; [assumption | lia].
Qed.

(** Two projects created one after the other, in such a sequence: the
    later id is the numeral of a greater number. *)
Lemma serve_creations_ordered rs : forall s os s' i j p q,
  (projectCounter s + N.of_nat (List.length rs) <= integerLimit)%N ->
  serve rs s = (os, s') ->
  (i < j)%nat ->
  nth_error os i = Some (Returns (json (ProjectObj p) 201)) ->
  nth_error os j = Some (Returns (json (ProjectObj q) 201)) ->
  exists n m, Project.id p = String_of_counter n /\
              Project.id q = String_of_counter m /\ (n < m)%N.
Proof.
  induction rs as [|[r clock] rs IH]; intros s os s' i j p q Hb H Hij Hp Hq.
  - simpl in H. injection H as <- <-. destruct i; discriminate.
  - simpl in H. change (List.length ((r, clock) :: rs)) with (S (List.length rs)) in *.
    destruct (handler r clock s) as [o s1] eqn:Hh.
    destruct (serve rs s1) as [os1 s2] eqn:Hs.
    injection H as <- <-.
    destruct (handler_counts _ _ _ _ _ Hh) as [Hstep Hcreate].
    rewrite increment_below in Hstep, Hcreate by lia.
    destruct j as [|j]; [lia|]. simpl in Hq.
    destruct i as [|i]; simpl in Hp.
    + injection Hp as ->.
      destruct (Hcreate p eq_refl) as [Hid Hlt].
      destruct (serve_counts rs s1 os1 s2) as [_ Hrest]; [lia | assumption |].
      destruct (Hrest j q Hq) as (m & Hm & Hrange).
      exists (projectCounter s), m. repeat split; [assumption | assumption | lia].
    + apply (IH s1 os1 s2 i j p q); [lia | assumption | lia | assumption | assumption].
Qed.

(** C4: in a sequence of fewer than [2^53] requests served from the start
    of the process, two successful project creations return ids that are
    the decimal numerals of two numbers, the later one strictly greater; so
    the ids differ, whatever was deleted in between. The bound keeps the
    counter, a double, below [2^53], where [projectCounter++] stops
    counting and the id repeats. *)
Theorem project_ids_strictly_increase rs i j p q :
  (N.of_nat (List.length rs) < integerLimit)%N ->
  (i < j)%nat ->
  nth_error (fst (serve rs initialState)) i = Some (Returns (json (ProjectObj p) 201)) ->
  nth_error (fst (serve rs initialState)) j = Some (Returns (json (ProjectObj q) 201)) ->
  exists n m,
    counter_of_String (Project.id p) = Some n /\
    counter_of_String (Project.id q) = Some m /\
    (n < m)%N /\
    Project.id p <> Project.id q.
Proof.
  intros Hb Hij Hp Hq.
  destruct (serve rs initialState) as [os s'] eqn:Hs. simpl in Hp, Hq.
  destruct (serve_creations_ordered rs initialState os s' i j p q)
    as (n & m & Hn & Hm & Hlt); try assumption.
  { change (projectCounter initialState) with 1%N. lia. }
  exists n, m. rewrite Hn, Hm, !counter_of_String_of_counter.
  repeat split; try assumption.
  intros E. apply String_of_counter_inj in E. lia.
Qed.

End ServerFacts.

(** ** Bodies that do not parse *)
Section BodyFacts.
Context {rt : Runtime}.

Ltac fields_only :=
  let Hauth := fresh "Hauth" in
  let Hf := fresh "Hf" in
  intros ? ? ? ? ? ? ? Hauth Hf; cbv beta; simpl;
  repeat rewrite Hf; try rewrite Hauth; reflexivity.

Lemma rootHandler_fields : readsFieldsOnly rootHandler.
Proof. unfold rootHandler. fields_only. Qed.

Lemma listProjects_fields : readsFieldsOnly listProjects.
Proof. unfold listProjects. fields_only. Qed.

Lemma createProject_fields : readsFieldsOnly createProject.
Proof. unfold createProject. fields_only. Qed.

Lemma getProject_fields : readsFieldsOnly getProject.
Proof. unfold getProject. fields_only. Qed.

Lemma updateProject_fields : readsFieldsOnly updateProject.
Proof. unfold updateProject. fields_only. Qed.

Lemma deleteProject_fields : readsFieldsOnly deleteProject.
Proof. unfold deleteProject. fields_only. Qed.

Lemma listTodos_fields : readsFieldsOnly listTodos.
Proof. unfold listTodos. fields_only. Qed.

Lemma listAllTodos_fields : readsFieldsOnly listAllTodos.
Proof. unfold listAllTodos. fields_only. Qed.

Lemma createTodo_fields : readsFieldsOnly createTodo.
Proof. unfold createTodo. fields_only. Qed.

Lemma getTodo_fields : readsFieldsOnly getTodo.
Proof. unfold getTodo. fields_only. Qed.

Lemma updateTodo_fields : readsFieldsOnly updateTodo.
Proof. unfold updateTodo. fields_only. Qed.

Lemma deleteTodo_fields : readsFieldsOnly deleteTodo.
Proof. unfold deleteTodo. fields_only. Qed.

Lemma login_fields : readsFieldsOnly login.
Proof. unfold login. fields_only. Qed.

Lemma routes_fields route : In route routes -> readsFieldsOnly (Route.handler route).
Proof.
  unfold routes. simpl.
  intros H; repeat (destruct H as [<- | H]; [simpl|]); try contradiction;
    auto using rootHandler_fields, listProjects_fields, createProject_fields,
      getProject_fields, updateProject_fields, deleteProject_fields,
      listTodos_fields, createTodo_fields, listAllTodos_fields, getTodo_fields,
      updateTodo_fields, deleteTodo_fields, login_fields.
Qed.

Lemma sameFields_null_empty : sameFields Json.JNull (Json.JObj []).
Proof. intros k. reflexivity. Qed.

Lemma sameFields_refl b : sameFields b b.
Proof. intros k. reflexivity. Qed.

(** A request whose body does not parse is served like the same request
    with the body [{}]. *)
Lemma handler_malformed_body r clock s :
  Request.json r = None ->
  handler r clock s = handler (withJson r (Some (Json.JObj []))) clock s.
Proof.
  intros Hj. unfold handler. simpl.
  destruct (matchRoute (Request.pathname r) (Request.method r)) as [m|] eqn:Hm;
    [|reflexivity].
  destruct (firstMatch_In _ _ _ _ Hm) as (route & Hin & Hh & _).
  pose proof (routes_fields route Hin) as Hf. rewrite <- Hh in Hf.
  assert (Hrun :
    Match.handler m
      {| req := r;
         body := if String.eqb (Request.method r) "POST"
                    || String.eqb (Request.method r) "PUT"
                 then parseBody r else Json.JNull;
         params := Match.params m |} (handlerNow clock) s =
    Match.handler m
      {| req := withJson r (Some (Json.JObj []));
         body := if String.eqb (Request.method r) "POST"
                    || String.eqb (Request.method r) "PUT"
                 then parseBody (withJson r (Some (Json.JObj []))) else Json.JNull;
         params := Match.params m |} (handlerNow clock) s).
  { apply Hf; [reflexivity|].
    unfold parseBody. rewrite Hj. simpl.
    destruct (_ || _); [apply sameFields_null_empty | apply sameFields_refl]. }
  assert (Hauth : authHandler (withJson r (Some (Json.JObj []))) (authNow clock) s
                  = authHandler r (authNow clock) s) by reflexivity.
  rewrite Hauth, Hrun. reflexivity.
Qed.

Lemma todo_eta (t : Todo.t) :
  {| Todo.id := Todo.id t; Todo.projectId := Todo.projectId t;
     Todo.title := Todo.title t; Todo.completed := Todo.completed t;
     Todo.dueDate := Todo.dueDate t; Todo.createdAt := Todo.createdAt t |} = t.
Proof. now destruct t. Qed.

(** C5, as the code has it: a POST or PUT request whose body does not
    parse is never refused for that; it is served exactly like the same
    request with the body [{}]. So [createProject] answers 400,
    [createTodo] under a project that exists answers 400, [updateProject]
    of a project that exists answers 400 as well, all three leaving the
    state as it was, and [updateTodo] of a todo that exists answers 200
    with the record unchanged. *)
Theorem malformed_body_is_no_fields r clock s :
  Request.json r = None ->
  parseBody r = Json.JNull /\
  handler r clock s = handler (withJson r (Some (Json.JObj []))) clock s /\
  (forall ps now,
     createProject {| req := r; body := parseBody r; params := ps |} now s
     = (Returns (text "Missing project name" 400), s)) /\
  (forall projectId ps now,
     JsMap.has (projects s) projectId = true ->
     createTodo {| req := r; body := parseBody r; params := projectId :: ps |} now s
     = (Returns (text "Missing todo title" 400), s)) /\
  (forall projectId ps now,
     JsMap.has (projects s) projectId = true ->
     updateProject {| req := r; body := parseBody r; params := projectId :: ps |} now s
     = (Returns (text "Missing project name" 400), s)) /\
  (forall todoId todo ps now,
     JsMap.get (todos s) todoId = Some todo ->
     updateTodo {| req := r; body := parseBody r; params := todoId :: ps |} now s
     = (Returns (json (TodoObj todo) 200), s)).
Proof.
  intros Hj.
  assert (Hb : parseBody r = Json.JNull) by (unfold parseBody; now rewrite Hj).
  split; [exact Hb|].
  split; [now apply handler_malformed_body|].
  rewrite Hb.
  split; [reflexivity|].
  split.
  { intros pid ps now Hhas. unfold createTodo. simpl. now rewrite Hhas. }
  split.
  { intros pid ps now Hhas. unfold updateProject. simpl.
    apply JsMapFacts.has_true in Hhas. destruct Hhas as [p Hp]. now rewrite Hp. }
  intros tid todo ps now Hg. unfold updateTodo. simpl. rewrite Hg.
  rewrite todo_eta, (JsMapFacts.set_same _ _ _ Hg), with_todos_same. reflexivity.
Qed.

End BodyFacts.

(** C5, as the spec has it, fails for the update of a project: with a
    body that does not parse, [PUT /projects/1] on a project that exists
    answers 400, not success. *)
Lemma updateProject_malformed_body_400 :
  Request.json (exampleRequest "PUT" "/projects/1" None) = None /\
  JsMap.has (projects exampleState) "1" = true /\
  @handler exampleRuntime (exampleRequest "PUT" "/projects/1" None)
           exampleClock exampleState
    = (Returns (text "Missing project name" 400), exampleState).
Proof. repeat split; reflexivity. Qed.

(** ** Dates: [toISOString] gives a string that reads back as the same time *)
Module JsDateFacts.
Import JsDate.
Local Open Scope list_scope.

(** [YearFromDay] is the year of ECMAScript's [YearFromTime]: the one that
    starts at or before the day and whose successor starts after it. *)
Lemma YearFromDay_spec d :
  DayFromYear (YearFromDay d) <= d < DayFromYear (YearFromDay d + 1).
Proof.
  unfold YearFromDay.
  destruct (Z.ltb_spec d (DayFromYear (1970 + 400 * d / 146097))) as [H1|H1].
  - replace (1970 + 400 * d / 146097 - 1 + 1) with (1970 + 400 * d / 146097) by lia.
    split; [|assumption].
    revert H1. unfold DayFromYear. Z.to_euclidean_division_equations; lia.
  - destruct (Z.leb_spec (DayFromYear (1970 + 400 * d / 146097 + 1)) d) as [H2|H2].
    + split; [assumption|].
      revert H2 H1. unfold DayFromYear. Z.to_euclidean_division_equations; lia.
    + split; assumption.
Qed.

Lemma mod_of_multiple y n m : (n | m) -> y mod m = 0 -> y mod n = 0.
Proof.
  intros Hd H. rewrite <- (Z.mod_mod_divide y m n Hd), H. apply Zmod_0_l.
Qed.

Lemma DayFromYear_succ y : DayFromYear (y + 1) = DayFromYear y + DaysInYear y.
Proof.
  unfold DayFromYear, DaysInYear, isLeapYear.
  assert (H4 : (y + 1 - 1969) / 4 - (y - 1969) / 4 = if y mod 4 =? 0 then 1 else 0).
  { destruct (Z.eqb_spec (y mod 4) 0); Z.to_euclidean_division_equations; lia. }
  assert (H100 : (y + 1 - 1901) / 100 - (y - 1901) / 100 = if y mod 100 =? 0 then 1 else 0).
  { destruct (Z.eqb_spec (y mod 100) 0); Z.to_euclidean_division_equations; lia. }
  assert (H400 : (y + 1 - 1601) / 400 - (y - 1601) / 400 = if y mod 400 =? 0 then 1 else 0).
  { destruct (Z.eqb_spec (y mod 400) 0); Z.to_euclidean_division_equations; lia. }
  assert (D1 : y mod 100 = 0 -> y mod 4 = 0).
  { apply mod_of_multiple. exists 25. lia. }
  assert (D2 : y mod 400 = 0 -> y mod 100 = 0).
  { apply mod_of_multiple. exists 4. lia. }
  destruct (Z.eqb_spec (y mod 4) 0); destruct (Z.eqb_spec (y mod 100) 0);
    destruct (Z.eqb_spec (y mod 400) 0); cbn [andb orb negb] in *; cbv iota in *; lia.
Qed.

Lemma DayWithinYear_range t :
  0 <= DayWithinYear t < DaysInYear (YearFromTime t).
Proof.
  unfold DayWithinYear, YearFromTime.
  pose proof (YearFromDay_spec (Day t)) as H.
  rewrite DayFromYear_succ in H. lia.
Qed.

Lemma month_of_day y d :
  0 <= d < DaysInYear y ->
  0 <= monthOfDayWithinYear y d <= 11 /\
  daysBeforeMonth y (monthOfDayWithinYear y d) <= d
    < daysBeforeMonth y (monthOfDayWithinYear y d + 1).
Proof.
  unfold DaysInYear, monthOfDayWithinYear, daysBeforeMonth.
  destruct (isLeapYear y); cbn; intros H;
    repeat match goal with
           | |- context [if ?a <? ?b then _ else _] =>
               destruct (Z.ltb_spec a b); cbn
           end; lia.
Qed.

Lemma DaysInMonth_range y m : 0 <= m <= 11 -> 28 <= DaysInMonth y m <= 31.
Proof.
  intros H. unfold DaysInMonth, daysBeforeMonth.
  assert (C : m = 0 \/ m = 1 \/ m = 2 \/ m = 3 \/ m = 4 \/ m = 5 \/ m = 6 \/
              m = 7 \/ m = 8 \/ m = 9 \/ m = 10 \/ m = 11) by lia.
  destruct (isLeapYear y);
    repeat (destruct C as [-> | C]; [cbn; lia|]); subst m; cbn; lia.
Qed.

Lemma time_within_day t :
  MakeTime (HourFromTime t) (MinFromTime t) (SecFromTime t) (msFromTime t)
  = TimeWithinDay t.
Proof.
  unfold MakeTime, HourFromTime, MinFromTime, SecFromTime, msFromTime, TimeWithinDay,
    msPerHour, msPerMinute, msPerSecond, msPerDay.
  Z.to_euclidean_division_equations; lia.
Qed.

Lemma year_of_time_value t :
  isTimeValue t -> -999999 <= YearFromTime t <= 999999.
Proof.
  unfold isTimeValue, maxTime, YearFromTime. intros H.
  pose proof (YearFromDay_spec (Day t)) as Hy. revert Hy.
  assert (Hd : -100000000 <= Day t <= 100000000).
  { unfold Day, msPerDay. Z.to_euclidean_division_equations; lia. }
  revert Hd. generalize (YearFromDay (Day t)) (Day t). intros y d Hd.
  unfold DayFromYear. Z.to_euclidean_division_equations; lia.
Qed.

Lemma digit_cases d :
  0 <= d <= 9 ->
  d = 0 \/ d = 1 \/ d = 2 \/ d = 3 \/ d = 4 \/ d = 5 \/ d = 6 \/ d = 7 \/ d = 8 \/ d = 9.
Proof. lia. Qed.

Lemma digitValue_digitChar d : 0 <= d <= 9 -> digitValue (digitChar d) = Some d.
Proof.
  intros H. apply digit_cases in H.
  repeat (destruct H as [-> | H]; [reflexivity|]). now subst d.
Qed.

Lemma digitChar_not_sign d :
  0 <= d <= 9 ->
  Ascii.eqb (digitChar d) "+" = false /\ Ascii.eqb (digitChar d) "-" = false.
Proof.
  intros H. apply digit_cases in H.
  repeat (destruct H as [-> | H]; [now split|]). now subst d.
Qed.

Lemma length_digits w : forall n, List.length (digits w n) = w.
Proof.
  induction w as [|w IH]; intros n; simpl; [reflexivity|].
  rewrite length_app, IH. simpl. lia.
Qed.

Lemma numberOfDigits_app l1 : forall acc l2,
  numberOfDigits acc (l1 ++ l2) =
  bind (numberOfDigits acc l1) (fun a => numberOfDigits a l2).
Proof.
  induction l1 as [|c l1 IH]; intros acc l2; simpl; [reflexivity|].
  destruct (digitValue c); [apply IH | reflexivity].
Qed.

Lemma numberOfDigits_digits w : forall n acc,
  0 <= n < 10 ^ Z.of_nat w ->
  numberOfDigits acc (digits w n) = Some (acc * 10 ^ Z.of_nat w + n).
Proof.
  induction w as [|w IH]; intros n acc H.
  - simpl in *. f_equal. lia.
  - rewrite Nat2Z.inj_succ, Z.pow_succ_r in * by lia.
    set (P := 10 ^ Z.of_nat w) in *.
    pose proof (Z.div_mod n 10 ltac:(lia)) as Hn.
    pose proof (Z.mod_pos_bound n 10 ltac:(lia)) as Hr.
    assert (Hq : 0 <= n / 10 < P) by lia.
    cbn [digits]. rewrite numberOfDigits_app, (IH _ _ Hq).
    cbn [bind numberOfDigits]. rewrite digitValue_digitChar by lia.
    f_equal. lia.
Qed.

Lemma firstn_length_app {A : Type} (l1 l2 : list A) :
  firstn (List.length l1) (l1 ++ l2) = l1.
Proof. induction l1 as [|a l1 IH]; simpl; [reflexivity | now rewrite IH]. Qed.

Lemma skipn_length_app {A : Type} (l1 l2 : list A) :
  skipn (List.length l1) (l1 ++ l2) = l2.
Proof. induction l1 as [|a l1 IH]; simpl; [reflexivity | exact IH]. Qed.

Lemma takeNumber_app l rest n :
  numberOfDigits 0 l = Some n ->
  takeNumber (List.length l) (l ++ rest) = Some (n, rest).
Proof.
  intros H. unfold takeNumber.
  rewrite length_app.
  replace (Nat.leb (List.length l) (List.length l + List.length rest)) with true
    by (symmetry; apply Nat.leb_le; lia).
  now rewrite firstn_length_app, skipn_length_app, H.
Qed.

Lemma takeNumber_digits w n rest :
  0 <= n < 10 ^ Z.of_nat w ->
  takeNumber w (digits w n ++ rest) = Some (n, rest).
Proof.
  intros H.
  replace (takeNumber w) with (takeNumber (List.length (digits w n)))
    by now rewrite length_digits.
  apply takeNumber_app. now rewrite numberOfDigits_digits.
Qed.

Lemma expect_cons c rest : expect c (c :: rest) = Some rest.
Proof. simpl. now rewrite Ascii.eqb_refl. Qed.

Lemma takeYear_yearChars y rest :
  -999999 <= y <= 999999 ->
  takeYear (yearChars y ++ rest) = Some (y, rest).
Proof.
  intros H. unfold yearChars.
  destruct ((0 <=? y) && (y <=? 9999)) eqn:E.
  - apply andb_true_iff in E. destruct E as [E1%Z.leb_le E2%Z.leb_le].
    assert (Hw : 0 <= y < 10 ^ Z.of_nat 4) by (simpl; lia).
    pose proof (takeNumber_digits 4 y rest Hw) as T.
    remember (digits 4 y ++ rest) as l eqn:El.
    assert (Hhead : exists d l', 0 <= d <= 9 /\ l = digitChar d :: l').
    { subst l. simpl. eexists _, _. split; [|reflexivity].
      Z.to_euclidean_division_equations; lia. }
    destruct Hhead as (d & l' & Hd & ->).
    unfold takeYear. destruct (digitChar_not_sign d Hd) as [-> ->]. exact T.
  - destruct (Z.ltb_spec y 0) as [L|L].
    + assert (Hw : 0 <= Z.abs y < 10 ^ Z.of_nat 6) by (simpl; lia).
      cbn -[takeNumber digits]. rewrite (takeNumber_digits 6 (Z.abs y) rest Hw).
      destruct (Z.eqb_spec (Z.abs y) 0); [lia|]. f_equal. f_equal. lia.
    + assert (Hw : 0 <= Z.abs y < 10 ^ Z.of_nat 6) by (simpl; lia).
      cbn -[takeNumber digits]. rewrite (takeNumber_digits 6 (Z.abs y) rest Hw).
      f_equal. f_equal. lia.
Qed.

Lemma parse_toISOString t : isTimeValue t -> parse (toISOString t) = Some t.
Proof.
  intros Ht. unfold parse, toISOString.
  rewrite list_ascii_of_string_of_list_ascii.
  pose proof (year_of_time_value t Ht) as Hy.
  pose proof (DayWithinYear_range t) as Hd.
  pose proof (month_of_day _ _ Hd) as [Hm Hdm].
  fold (MonthFromTime t) in Hm, Hdm.
  assert (Hdate : 1 <= DateFromTime t <= DaysInMonth (YearFromTime t) (MonthFromTime t)).
  { unfold DateFromTime, DaysInMonth. lia. }
  pose proof (DaysInMonth_range (YearFromTime t) _ Hm) as Hdim.
  assert (Hh : 0 <= HourFromTime t <= 23)
    by (unfold HourFromTime; Z.to_euclidean_division_equations; lia).
  assert (Hmi : 0 <= MinFromTime t <= 59)
    by (unfold MinFromTime; Z.to_euclidean_division_equations; lia).
  assert (Hs : 0 <= SecFromTime t <= 59)
    by (unfold SecFromTime; Z.to_euclidean_division_equations; lia).
  assert (Hms : 0 <= msFromTime t <= 999)
    by (unfold msFromTime, msPerSecond; Z.to_euclidean_division_equations; lia).
  rewrite takeYear_yearChars by assumption. cbn [bind].
  rewrite expect_cons. cbn [bind].
  rewrite takeNumber_digits by (simpl; lia). cbn [bind].
  rewrite expect_cons. cbn [bind].
  rewrite takeNumber_digits by (simpl; lia). cbn [bind].
  rewrite expect_cons. cbn [bind].
  rewrite takeNumber_digits by (simpl; lia). cbn [bind].
  rewrite expect_cons. cbn [bind].
  rewrite takeNumber_digits by (simpl; lia). cbn [bind].
  rewrite expect_cons. cbn [bind].
  rewrite takeNumber_digits by (simpl; lia). cbn [bind].
  rewrite expect_cons. cbn [bind].
  rewrite takeNumber_digits by (simpl; lia). cbn [bind].
  rewrite expect_cons. cbn [bind].
  replace (MonthFromTime t + 1 - 1) with (MonthFromTime t) by lia.
  assert (Hback :
    MakeDate (MakeDay (YearFromTime t) (MonthFromTime t) (DateFromTime t))
             (MakeTime (HourFromTime t) (MinFromTime t) (SecFromTime t) (msFromTime t))
    = t).
  { rewrite time_within_day.
    unfold MakeDate, MakeDay, DateFromTime, DayWithinYear, TimeWithinDay, Day, msPerDay.
    Z.to_euclidean_division_equations; lia. }
  rewrite Hback.
  unfold isTimeValue in Ht.
  repeat match goal with
         | |- context [?a <=? ?b] =>
             destruct (Z.leb_spec a b); [cbn [andb] | lia]
         end.
  reflexivity.
Qed.

End JsDateFacts.

(** ** Regular expressions: what each route pattern matches *)
Module RegExpFacts.
Import RegExp.

Lemma append_empty_r s : s ++ "" = s.
Proof. induction s as [|a s IH]; simpl; [reflexivity | now rewrite IH]. Qed.

Lemma stripPrefix_app p s : stripPrefix p (p ++ s) = Some s.
Proof.
  induction p as [|a p IH]; simpl; [reflexivity|].
  now rewrite Ascii.eqb_refl.
Qed.

Lemma stripPrefix_self p : stripPrefix p p = Some "".
Proof.
  induction p as [|a p IH]; simpl; [reflexivity|].
  now rewrite Ascii.eqb_refl.
Qed.

Lemma stripPrefix_Some p : forall s r, stripPrefix p s = Some r -> s = p ++ r.
Proof.
  induction p as [|a p IH]; intros s r; simpl.
  - intros H. now injection H as ->.
  - destruct s as [|b s]; [discriminate|].
    destruct (Ascii.eqb_spec a b) as [->|]; [|discriminate].
    intros H. now rewrite (IH _ _ H).
Qed.

Lemma span_le_length s : (spanNotSlash s <= String.length s)%nat.
Proof.
  induction s as [|c s IH]; simpl; [lia|].
  destruct (Ascii.eqb c "/"); lia.
Qed.

Lemma span_full s :
  spanNotSlash s = String.length s <->
  forall c, In c (list_ascii_of_string s) -> c <> "/"%char.
Proof.
  induction s as [|a s IH]; simpl.
  - split; [intros _ c [] | reflexivity].
  - destruct (Ascii.eqb_spec a "/") as [->|Hne].
    + split; [discriminate|]. intros H. now contradiction (H "/"%char (or_introl eq_refl)).
    + split.
      * intros H c [<- | Hin]; [assumption|]. apply IH; [lia | assumption].
      * intros H. f_equal. apply IH. intros c Hin. apply H. now right.
Qed.

Lemma slice_empty_iff s : forall k, JsString.slice s k = "" <-> (String.length s <= k)%nat.
Proof.
  induction s as [|a s IH]; intros [|k]; simpl; try (split; [lia | reflexivity]).
  - split; [discriminate | lia].
  - rewrite IH. lia.
Qed.

Lemma substring_all s : String.substring 0 (String.length s) s = s.
Proof. induction s as [|a s IH]; simpl; [reflexivity | now rewrite IH]. Qed.

Lemma substring_slice s : forall k,
  (k <= String.length s)%nat -> s = String.substring 0 k s ++ JsString.slice s k.
Proof.
  induction s as [|a s IH]; intros [|k] H; simpl in *; try reflexivity; try lia.
  f_equal. apply IH. lia.
Qed.

Lemma length_substring s : forall k,
  (k <= String.length s)%nat -> String.length (String.substring 0 k s) = k.
Proof.
  induction s as [|a s IH]; intros [|k] H; simpl in *; try reflexivity; try lia.
  f_equal. apply IH. lia.
Qed.

(** The first [k] characters of [s] hold no slash when [k] is within the span. *)
Lemma substring_span s : forall k c,
  (k <= spanNotSlash s)%nat ->
  In c (list_ascii_of_string (String.substring 0 k s)) -> c <> "/"%char.
Proof.
  induction s as [|a s IH]; intros [|k] c H; simpl in *; try contradiction.
  destruct (Ascii.eqb_spec a "/") as [->|Hne]; [lia|].
  intros [<- | Hin]; [assumption|]. apply (IH k); [lia | assumption].
Qed.

Lemma span_app_slash x r :
  (forall c, In c (list_ascii_of_string x) -> c <> "/"%char) ->
  spanNotSlash (x ++ String "/" r) = String.length x.
Proof.
  induction x as [|a x IH]; simpl; intros H; [reflexivity|].
  destruct (Ascii.eqb_spec a "/") as [->|Hne].
  - now contradiction (H "/"%char (or_introl eq_refl)).
  - f_equal. apply IH. intros c Hin. apply H. now right.
Qed.

Lemma slice_app x y : JsString.slice (x ++ y) (String.length x) = y.
Proof. induction x as [|a x IH]; simpl; [reflexivity | exact IH]. Qed.

Lemma substring_app x y : String.substring 0 (String.length x) (x ++ y) = x.
Proof. induction x as [|a x IH]; simpl; [now destruct y | now rewrite IH]. Qed.

Lemma firstDown_Some {A : Type} (f : nat -> option A) n r :
  firstDown f n = Some r -> exists k, (1 <= k <= n)%nat /\ f k = Some r.
Proof.
  induction n as [|n IH]; simpl; [discriminate|].
  destruct (f (S n)) as [r'|] eqn:E.
  - intros H. injection H as ->. exists (S n). split; [lia | assumption].
  - intros H. destruct (IH H) as (k & Hk & Hf). exists k. split; [lia | assumption].
Qed.

Lemma firstDown_top {A : Type} (f : nat -> option A) n r :
  f (S n) = Some r -> firstDown f (S n) = Some r.
Proof. intros H. simpl. now rewrite H. Qed.

(** A pattern that starts with [^] matches at the start of the path or
    not at all. *)
Lemma search_caret_later re s : forall pos, search (Caret :: re) (S pos) s = None.
Proof.
  induction s as [|a s IH]; intros pos; simpl; [reflexivity | apply IH].
Qed.

Lemma matchRe_caret re s : matchRe s (Caret :: re) = matchHere re 0 s.
Proof.
  unfold matchRe. destruct s as [|a s]; simpl.
  - now destruct (matchHere re 0 "").
  - destruct (matchHere re 0 (String a s)); [reflexivity | apply search_caret_later].
Qed.

Lemma matchHere_dollar pos s caps :
  matchHere [Dollar] pos s = Some caps <-> s = "" /\ caps = [].
Proof.
  simpl. destruct s; split; try discriminate.
  - intros H. now injection H as <-.
  - now intros [_ ->].
  - intros [H _]. discriminate.
Qed.

(** [([^\/]+)$] *)
Lemma matchHere_segment_end pos s caps :
  matchHere [Segment; Dollar] pos s = Some caps <-> isSegment s /\ caps = [s].
Proof.
  cbn [matchHere]. split.
  - intros H. apply firstDown_Some in H. destruct H as (k & Hk & Hf).
    destruct (JsString.slice s k) eqn:E; [|discriminate].
    injection Hf as <-.
    apply slice_empty_iff in E. pose proof (span_le_length s) as Hs.
    assert (k = String.length s) by lia. subst k.
    split; [|now rewrite substring_all].
    split; [destruct s; [simpl in Hk; lia | discriminate]|].
    apply span_full. lia.
  - intros [[Hne Hns] ->]. apply span_full in Hns. rewrite Hns.
    destruct (String.length s) as [|n] eqn:El; [destruct s; [contradiction | discriminate]|].
    apply firstDown_top. rewrite <- El.
    assert (E : JsString.slice s (String.length s) = "") by (apply slice_empty_iff; lia).
    now rewrite E, substring_all.
Qed.

(** [([^\/]+)\/lit$] *)
Lemma matchHere_segment_lit pos l s caps :
  matchHere [Segment; Lit (String "/" l); Dollar] pos s = Some caps <->
  exists x, isSegment x /\ s = x ++ String "/" l /\ caps = [x].
Proof.
  cbn [matchHere]. split.
  - intros H. apply firstDown_Some in H. destruct H as (k & Hk & Hf).
    destruct (stripPrefix (String "/" l) (JsString.slice s k)) as [r|] eqn:E;
      [|discriminate].
    apply stripPrefix_Some in E.
    destruct r; [|discriminate]. injection Hf as <-.
    pose proof (span_le_length s) as Hs.
    exists (String.substring 0 k s). split; [|split; [|reflexivity]].
    + split.
      * intros E0. apply (f_equal String.length) in E0.
        rewrite length_substring in E0 by lia. simpl in E0. lia.
      * intros c. apply substring_span. lia.
    + rewrite (substring_slice s k) at 1 by lia. rewrite E.
      simpl. now rewrite append_empty_r.
  - intros (x & [Hne Hns] & -> & ->).
    rewrite (span_app_slash x l Hns).
    destruct (String.length x) as [|n] eqn:El; [destruct x; [contradiction | discriminate]|].
    apply firstDown_top. rewrite <- El.
    rewrite slice_app, stripPrefix_self, substring_app. reflexivity.
Qed.

(** [^lit$] *)
Lemma matchRe_literal l s caps :
  matchRe s [Caret; Lit l; Dollar] = Some caps <-> s = l /\ caps = [].
Proof.
  rewrite matchRe_caret. cbn [matchHere]. split.
  - destruct (stripPrefix l s) as [r|] eqn:E; [|discriminate].
    apply stripPrefix_Some in E. destruct r; [|discriminate].
    intros H. injection H as <-. rewrite append_empty_r in E. now split.
  - intros [-> ->]. now rewrite stripPrefix_self.
Qed.

(** [^lit([^\/]+)$] *)
Lemma matchRe_segment l s caps :
  matchRe s [Caret; Lit l; Segment; Dollar] = Some caps <->
  exists x, isSegment x /\ s = l ++ x /\ caps = [x].
Proof.
  rewrite matchRe_caret.
  change (matchHere [Lit l; Segment; Dollar] 0 s)
    with (match stripPrefix l s with
          | Some s' => matchHere [Segment; Dollar] (0 + String.length l) s'
          | None => None
          end).
  split.
  - destruct (stripPrefix l s) as [r|] eqn:E; [|discriminate].
    apply stripPrefix_Some in E. intros H.
    apply matchHere_segment_end in H. destruct H as [Hseg ->].
    exists r. split; [exact Hseg | split; [exact E | reflexivity]].
  - intros (x & Hseg & -> & ->). rewrite stripPrefix_app.
    apply matchHere_segment_end. now split.
Qed.

(** [^lit([^\/]+)\/lit'$] *)
Lemma matchRe_segment_lit l l' s caps :
  matchRe s [Caret; Lit l; Segment; Lit (String "/" l'); Dollar] = Some caps <->
  exists x, isSegment x /\ s = l ++ x ++ String "/" l' /\ caps = [x].
Proof.
  rewrite matchRe_caret.
  change (matchHere [Lit l; Segment; Lit (String "/" l'); Dollar] 0 s)
    with (match stripPrefix l s with
          | Some s' =>
              matchHere [Segment; Lit (String "/" l'); Dollar] (0 + String.length l) s'
          | None => None
          end).
  split.
  - destruct (stripPrefix l s) as [r|] eqn:E; [|discriminate].
    apply stripPrefix_Some in E. intros H.
    apply matchHere_segment_lit in H. destruct H as (x & Hseg & -> & ->).
    exists x. split; [exact Hseg | split; [exact E | reflexivity]].
  - intros (x & Hseg & -> & ->). rewrite stripPrefix_app.
    apply matchHere_segment_lit. exists x.
    split; [exact Hseg | split; reflexivity].
Qed.

(** [\/$], the pattern without [^]. *)
Lemma matchRe_slash_end s caps :
  matchRe s [Lit "/"; Dollar] = Some caps <-> (exists p, s = p ++ "/") /\ caps = [].
Proof.
  unfold matchRe. generalize 0%nat. induction s as [|a s IH]; intros pos.
  - simpl. split; [discriminate|]. intros [[p Hp] _]. now destruct p.
  - cbn [search matchHere stripPrefix].
    destruct (Ascii.eqb_spec "/" a) as [<-|Hne].
    + destruct s as [|b s].
      * split; [intros H; injection H as <-; split; [now exists "" | reflexivity]|].
        now intros [_ ->].
      * rewrite IH. split.
        -- intros [[p ->] ->]. split; [now exists (String "/" p) | reflexivity].
        -- intros [[p Hp] ->]. split; [|reflexivity].
           destruct p as [|c p]; [discriminate|]. injection Hp as _ Hp. now exists p.
    + rewrite IH. split.
      * intros [[p ->] ->]. split; [now exists (String a p) | reflexivity].
      * intros [[p Hp] ->]. split; [|reflexivity].
        destruct p as [|c p]; [simpl in Hp; congruence|]. injection Hp as _ Hp. now exists p.
Qed.

End RegExpFacts.

(** ** The router *)
Section RouterFacts.
Context {rt : Runtime}.

(** A route answers a request when its pattern matches the path and its
    method is the request's. *)
Lemma firstMatch_first rs path method m :
  firstMatch rs path method = Some m <->
  exists pre route post,
    rs = (pre ++ route :: post)%list /\
    RegExp.matchRe path (Route.path route) = Some (Match.params m) /\
    method = Route.method route /\
    Match.handler m = Route.handler route /\
    Match.name m = Route.name route /\
    forall r, In r pre ->
      RegExp.matchRe path (Route.path r) = None \/ method <> Route.method r.
Proof.
  revert m. induction rs as [|route rs IH]; intros m; simpl.
  - split; [discriminate|]. intros (pre & r & post & E & _). now destruct pre.
  - split.
    + destruct (RegExp.matchRe path (Route.path route)) as [caps|] eqn:Hre.
      * destruct (String.eqb_spec method (Route.method route)) as [Hm|Hm].
        -- intros H. injection H as <-. exists [], route, rs. simpl.
           do 5 (split; [auto|]). intros r [].
        -- intros H. apply IH in H.
           destruct H as (pre & r & post & -> & H1 & H2 & H3 & H4 & H5).
           exists (route :: pre), r, post.
           do 5 (split; [auto|]).
           intros r0 [<- | Hin]; [now right | now apply H5].
      * intros H. apply IH in H.
        destruct H as (pre & r & post & -> & H1 & H2 & H3 & H4 & H5).
        exists (route :: pre), r, post.
        do 5 (split; [auto|]).
        intros r0 [<- | Hin]; [now left | now apply H5].
    + intros (pre & r & post & E & H1 & H2 & H3 & H4 & H5).
      destruct pre as [|r0 pre]; simpl in E; injection E as -> ->.
      * rewrite H1, H2, String.eqb_refl.
        destruct m; simpl in *. now subst.
      * assert (Hr : firstMatch (pre ++ r :: post) path method = Some m).
        { apply IH. exists pre, r, post.
          do 5 (split; [auto|]).
          intros r1 Hin. apply H5. now right. }
        destruct (H5 r0 (or_introl eq_refl)) as [-> | Hne]; [exact Hr|].
        destruct (RegExp.matchRe path (Route.path r0)); [|exact Hr].
        destruct (String.eqb_spec method (Route.method r0)); [contradiction | exact Hr].
Qed.

(** The pattern of the first route has no [^]: it matches every path that
    ends with a slash. *)
Lemma root_pattern_matches_suffix p : forall pos,
  RegExp.search [RegExp.Lit "/"; RegExp.Dollar] pos (p ++ "/") = Some [].
Proof.
  induction p as [|c p IH]; intros pos.
  - reflexivity.
  - cbn [append RegExp.search RegExp.matchHere RegExp.stripPrefix].
    pose proof (IH (S pos)) as IH'.
    destruct (Ascii.eqb "/" c); [|exact IH'].
    destruct (p ++ "/") eqn:E; [now destruct p | exact IH'].
Qed.

(** Every route but the first is anchored at both ends: its pattern matches
    the paths of its template and no other, with the segment as capture. *)
Lemma routes_after_first_exact route path caps :
  In route (tl routes) ->
  RegExp.matchRe path (Route.path route) = Some caps ->
  ((path = "/projects" \/ path = "/todos" \/ path = "/login") /\ caps = []) \/
  exists x, isSegment x /\ caps = [x] /\
    (path = "/projects/" ++ x \/ path = "/projects/" ++ x ++ "/todos" \/
     path = "/todos/" ++ x).
Proof.
  unfold routes. cbn [tl].
  intros H; repeat (destruct H as [<- | H]); try contradiction; cbn [Route.path];
    intros Hm;
    first
      [ apply RegExpFacts.matchRe_literal in Hm; destruct Hm as [-> ->];
        left; split; [tauto | reflexivity]
      | apply RegExpFacts.matchRe_segment in Hm; destruct Hm as (x & Hx & -> & ->);
        right; exists x; split; [exact Hx | split; [reflexivity | tauto]]
      | apply RegExpFacts.matchRe_segment_lit in Hm;
        destruct Hm as (x & Hx & -> & ->);
        right; exists x; split; [exact Hx | split; [reflexivity | tauto]] ].
Qed.

(** C7 at the failing input: [GET /projects/] is not of the shape of any
    route template, yet [matchRoute] answers it with the first route, whose
    pattern is anchored at the end only; so does every GET of a path ending
    with a slash, and [handler] then answers 200 with [{}]. *)
Theorem matchRoute_trailing_slash :
  matchRoute "/projects/" "GET" =
    Some {| Match.handler := rootHandler; Match.name := None; Match.params := [] |} /\
  (forall p, matchRoute (p ++ "/") "GET" =
    Some {| Match.handler := rootHandler; Match.name := None; Match.params := [] |}) /\
  handler (exampleRequest "GET" "/projects/" None) exampleClock exampleState
    = (Returns (json EmptyObj 200), exampleState).
Proof.
  split; [reflexivity|]. split; [|reflexivity].
  intros p. unfold matchRoute, routes. cbn [firstMatch Route.path Route.method].
  unfold RegExp.matchRe. now rewrite root_pattern_matches_suffix.
Qed.

End RouterFacts.

(** ** The route table, route by route *)
Section RouteTable.
Context {rt : Runtime}.

Lemma firstMatch_skip route rs path method :
  RegExp.matchRe path (Route.path route) = None \/ method <> Route.method route ->
  firstMatch (route :: rs) path method = firstMatch rs path method.
Proof.
  intros H. simpl. destruct (RegExp.matchRe path (Route.path route)); [|reflexivity].
  destruct (String.eqb_spec method (Route.method route)); [|reflexivity].
  destruct H; [discriminate | contradiction].
Qed.

Lemma firstMatch_hit route rs path method caps :
  RegExp.matchRe path (Route.path route) = Some caps ->
  method = Route.method route ->
  firstMatch (route :: rs) path method =
    Some {| Match.handler := Route.handler route; Match.name := Route.name route;
            Match.params := caps |}.
Proof. intros H ->. simpl. now rewrite H, String.eqb_refl. Qed.

Lemma literal_no_match l path :
  path <> l -> RegExp.matchRe path [RegExp.Caret; RegExp.Lit l; RegExp.Dollar] = None.
Proof.
  intros H. destruct (RegExp.matchRe _ _) as [caps|] eqn:E; [|reflexivity].
  apply RegExpFacts.matchRe_literal in E. destruct E as [-> _]. contradiction.
Qed.

Lemma segment_no_match l path :
  (forall x, path <> l ++ x) ->
  RegExp.matchRe path [RegExp.Caret; RegExp.Lit l; RegExp.Segment; RegExp.Dollar] = None.
Proof.
  intros H. destruct (RegExp.matchRe _ _) as [caps|] eqn:E; [|reflexivity].
  apply RegExpFacts.matchRe_segment in E. destruct E as (x & _ & -> & _).
  now contradiction (H x).
Qed.

Lemma segment_lit_no_match l l' path :
  (forall x, isSegment x -> path <> l ++ x ++ String "/" l') ->
  RegExp.matchRe path
    [RegExp.Caret; RegExp.Lit l; RegExp.Segment; RegExp.Lit (String "/" l');
     RegExp.Dollar] = None.
Proof.
  intros H. destruct (RegExp.matchRe _ _) as [caps|] eqn:E; [|reflexivity].
  apply RegExpFacts.matchRe_segment_lit in E. destruct E as (x & Hx & -> & _).
  now contradiction (H x Hx).
Qed.

Lemma list_ascii_app a b :
  list_ascii_of_string (a ++ b) = (list_ascii_of_string a ++ list_ascii_of_string b)%list.
Proof. induction a as [|c a IH]; simpl; [reflexivity | now rewrite IH]. Qed.

(** A path that ends with a segment does not end with a slash. *)
Lemma segment_end_no_slash l x :
  isSegment x -> RegExp.matchRe (l ++ x) [RegExp.Lit "/"; RegExp.Dollar] = None.
Proof.
  intros [Hne Hns]. destruct (RegExp.matchRe _ _) as [caps|] eqn:E; [|reflexivity].
  apply RegExpFacts.matchRe_slash_end in E. destruct E as [[p Hp] _].
  apply (f_equal list_ascii_of_string) in Hp. rewrite !list_ascii_app in Hp.
  destruct (exists_last (l := list_ascii_of_string x)) as (lx & c & Hx).
  { destruct x; [contradiction | discriminate]. }
  rewrite Hx, app_assoc in Hp. apply app_inj_tail in Hp. destruct Hp as [_ Hc].
  exfalso. apply (Hns c); [|exact Hc]. rewrite Hx. apply in_or_app. right. now left.
Qed.

(** A segment followed by a slash and more is not a segment. *)
Lemma segment_slash_not_segment x r y :
  isSegment y -> x ++ String "/" r <> y.
Proof.
  intros [_ Hns] <-. apply (Hns "/"%char); [|reflexivity].
  rewrite list_ascii_app. apply in_or_app. right. now left.
Qed.

Lemma append_inj_l l a b : l ++ a = l ++ b -> a = b.
Proof. induction l as [|c l IH]; simpl; [auto|]. intros H. injection H as H. auto. Qed.

Ltac skip_method := rewrite firstMatch_skip by (right; discriminate).
Ltac skip_literal :=
  rewrite firstMatch_skip by (left; apply literal_no_match; discriminate).

Lemma matchRoute_createProject :
  matchRoute "/projects" "POST" =
    Some {| Match.handler := createProject; Match.name := None; Match.params := [] |}.
Proof. reflexivity. Qed.

Lemma matchRoute_project method h projectId rs1 :
  isSegment projectId ->
  firstMatch
    ({| Route.method := method;
        Route.path := [RegExp.Caret; RegExp.Lit "/projects/"; RegExp.Segment;
                       RegExp.Dollar];
        Route.handler := h; Route.name := None |} :: rs1)
    ("/projects/" ++ projectId) method =
  Some {| Match.handler := h; Match.name := None; Match.params := [projectId] |}.
Proof.
  intros Hseg. erewrite firstMatch_hit; [reflexivity | | reflexivity].
  apply RegExpFacts.matchRe_segment. exists projectId.
  split; [exact Hseg | split; reflexivity].
Qed.

Lemma matchRoute_getProject projectId :
  isSegment projectId ->
  matchRoute ("/projects/" ++ projectId) "GET" =
    Some {| Match.handler := getProject; Match.name := None;
            Match.params := [projectId] |}.
Proof.
  intros Hseg. unfold matchRoute, routes.
  rewrite firstMatch_skip by (left; apply (segment_end_no_slash "/projects/" _ Hseg)).
  skip_literal. skip_method.
  now apply matchRoute_project.
Qed.

Lemma matchRoute_deleteProject projectId :
  isSegment projectId ->
  matchRoute ("/projects/" ++ projectId) "DELETE" =
    Some {| Match.handler := deleteProject; Match.name := None;
            Match.params := [projectId] |}.
Proof.
  intros Hseg. unfold matchRoute, routes.
  do 5 skip_method. now apply matchRoute_project.
Qed.

Lemma matchRoute_createTodo projectId :
  isSegment projectId ->
  matchRoute ("/projects/" ++ projectId ++ "/todos") "POST" =
    Some {| Match.handler := createTodo; Match.name := None;
            Match.params := [projectId] |}.
Proof.
  intros Hseg. unfold matchRoute, routes.
  do 2 skip_method. skip_literal. do 4 skip_method.
  erewrite firstMatch_hit; [reflexivity | | reflexivity].
  apply RegExpFacts.matchRe_segment_lit. exists projectId.
  split; [exact Hseg | split; reflexivity].
Qed.

Lemma matchRoute_todo method h todoId rs1 :
  isSegment todoId ->
  firstMatch
    ({| Route.method := method;
        Route.path := [RegExp.Caret; RegExp.Lit "/todos/"; RegExp.Segment;
                       RegExp.Dollar];
        Route.handler := h; Route.name := None |} :: rs1)
    ("/todos/" ++ todoId) method =
  Some {| Match.handler := h; Match.name := None; Match.params := [todoId] |}.
Proof.
  intros Hseg. erewrite firstMatch_hit; [reflexivity | | reflexivity].
  apply RegExpFacts.matchRe_segment. exists todoId.
  split; [exact Hseg | split; reflexivity].
Qed.

Lemma matchRoute_getTodo todoId :
  isSegment todoId ->
  matchRoute ("/todos/" ++ todoId) "GET" =
    Some {| Match.handler := getTodo; Match.name := None; Match.params := [todoId] |}.
Proof.
  intros Hseg. unfold matchRoute, routes.
  rewrite firstMatch_skip by (left; apply (segment_end_no_slash "/todos/" _ Hseg)).
  skip_literal. skip_method.
  rewrite firstMatch_skip by (left; apply segment_no_match; discriminate).
  do 2 skip_method.
  rewrite firstMatch_skip by (left; apply segment_lit_no_match; discriminate).
  skip_method. skip_literal.
  now apply matchRoute_todo.
Qed.

Lemma matchRoute_updateTodo todoId :
  isSegment todoId ->
  matchRoute ("/todos/" ++ todoId) "PUT" =
    Some {| Match.handler := updateTodo; Match.name := None; Match.params := [todoId] |}.
Proof.
  intros Hseg. unfold matchRoute, routes.
  do 4 skip_method.
  rewrite firstMatch_skip by (left; apply segment_no_match; discriminate).
  do 5 skip_method.
  now apply matchRoute_todo.
Qed.


(** ** Requests through the server *)

(** A request that passes the gate goes to the handler of its route. *)
Lemma handler_dispatch r clock s m :
  matchRoute (Request.pathname r) (Request.method r) = Some m ->
  Match.name m = None ->
  Response.status (authHandler r (authNow clock) s) = 200%Z ->
  handler r clock s =
    Match.handler m
      {| req := r;
         body := if String.eqb (Request.method r) "POST"
                    || String.eqb (Request.method r) "PUT"
                 then parseBody r else Json.JNull;
         params := Match.params m |} (handlerNow clock) s.
Proof.
  intros Hm Hn Ha. unfold handler. rewrite Hm, Hn. simpl. now rewrite Ha.
Qed.

(** C3: [createTodo] for a project id that the project store does not hold
    answers 404 whatever the body is, and leaves the state, todo store and
    todo counter included, as it was. So does the server on every
    [POST /projects/{id}/todos] that passes the gate, whatever [req.json()]
    gives. *)
Theorem createTodo_unknown_project s projectId :
  JsMap.get (projects s) projectId = None ->
  (forall args now,
     hd_error (params args) = Some projectId ->
     createTodo args now s = (Returns notFound, s) /\
     todos (snd (createTodo args now s)) = todos s /\
     todoCounter (snd (createTodo args now s)) = todoCounter s) /\
  Response.status notFound = 404%Z /\
  (forall r clock,
     Request.method r = "POST" ->
     Request.pathname r = "/projects/" ++ projectId ++ "/todos" ->
     isSegment projectId ->
     Response.status (authHandler r (authNow clock) s) = 200%Z ->
     handler r clock s = (Returns notFound, s)).
Proof.
  intros H. apply JsMapFacts.has_false in H.
  assert (E : forall args now,
             hd_error (params args) = Some projectId ->
             createTodo args now s = (Returns notFound, s)).
  { intros args now Hp. unfold createTodo. now rewrite Hp, H. }
  split; [|split; [reflexivity|]].
  - intros args now Hp. rewrite (E args now Hp). now repeat split.
  - intros r clock Hm Hp Hseg Hauth.
    rewrite (handler_dispatch r clock s _
               ltac:(rewrite Hm, Hp; exact (matchRoute_createTodo projectId Hseg))
               eq_refl Hauth).
    now apply E.
Qed.

(** [createProject] reads its arguments for the body only. *)
Lemma createProject_body a1 a2 now s :
  body a1 = body a2 -> createProject a1 now s = createProject a2 now s.
Proof. intros H. unfold createProject. now rewrite H. Qed.

Lemma string_of_uint_no_slash d c :
  In c (list_ascii_of_string (NilEmpty.string_of_uint d)) -> c <> "/"%char.
Proof.
  induction d as [|d IH|d IH|d IH|d IH|d IH|d IH|d IH|d IH|d IH|d IH]; simpl;
    try contradiction; (intros [<- | Hin]; [discriminate | now apply IH]).
Qed.

(** The numeral of a counter is one path segment. *)
Lemma String_of_counter_segment n : isSegment (String_of_counter n).
Proof.
  split.
  - intros E. pose proof (counter_of_String_of_counter n) as H. rewrite E in H.
    injection H as <-. discriminate E.
  - intros c. apply string_of_uint_no_slash.
Qed.

(** C8: [createProject] with a name that is not blank answers 201 with a
    new project, and [getProject] on the id it returned then answers 200
    with that same project: its [id] is the numeral of the project counter,
    its [name] is the name given, trimmed (the very string given when it
    has no blank at either end), and its [createdAt] is the ISO-8601 form of
    the time of creation, which [Date.parse] reads back as that time. The
    same holds of the server on [POST /projects] followed by
    [GET /projects/{id}], both passing the gate. *)
Theorem createProject_then_getProject args now s str :
  JsDate.isTimeValue now ->
  Json.ToString Number_toString
    (Json.nullish (Json.getField (body args) "name") (Json.JStr "")) = Some str ->
  JsString.trim str <> "" ->
  exists p s',
    createProject args now s = (Returns (json (ProjectObj p) 201), s') /\
    (forall args' now',
       hd_error (params args') = Some (Project.id p) ->
       getProject args' now' s' = (Returns (json (ProjectObj p) 200), s')) /\
    Project.id p = String_of_counter (projectCounter s) /\
    Project.name p = JsString.trim str /\
    (forall x, Json.getField (body args) "name" = Some (Json.JStr x) ->
       JsString.trim x = x -> Project.name p = x) /\
    Project.createdAt p = JsDate.toISOString now /\
    JsDate.parse (Project.createdAt p) = Some now /\
    (forall r1 c1 r2 c2,
       Request.method r1 = "POST" -> Request.pathname r1 = "/projects" ->
       parseBody r1 = body args -> handlerNow c1 = now ->
       Response.status (authHandler r1 (authNow c1) s) = 200%Z ->
       Request.method r2 = "GET" ->
       Request.pathname r2 = "/projects/" ++ Project.id p ->
       Response.status (authHandler r2 (authNow c2) s') = 200%Z ->
       serve [(r1, c1); (r2, c2)] s =
         ([Returns (json (ProjectObj p) 201); Returns (json (ProjectObj p) 200)], s')).
Proof.
  intros Hnow Hs Ht.
  assert (Hc : exists p s',
             createProject args now s = (Returns (json (ProjectObj p) 201), s') /\
             JsMap.get (projects s') (Project.id p) = Some p /\
             Project.id p = String_of_counter (projectCounter s) /\
             Project.name p = JsString.trim str /\
             Project.createdAt p = JsDate.toISOString now).
  { unfold createProject. rewrite Hs.
    apply isEmpty_false in Ht. unfold JsString.falsy. cbv zeta. rewrite Ht.
    eexists _, _. split; [reflexivity|]. simpl.
    split; [apply JsMapFacts.get_set_eq | now repeat split]. }
  destruct Hc as (p & s' & Hc & Hget & Hid & Hname & Hcreated).
  assert (Hread : forall args' now',
             hd_error (params args') = Some (Project.id p) ->
             getProject args' now' s' = (Returns (json (ProjectObj p) 200), s')).
  { intros args' now' Hp. unfold getProject. now rewrite Hp, Hget. }
  exists p, s'.
  split; [exact Hc|]. split; [exact Hread|]. split; [exact Hid|].
  split; [exact Hname|].
  split.
  { intros x Hx Htrim. rewrite Hx in Hs. simpl in Hs. injection Hs as <-.
    now rewrite Hname. }
  split; [exact Hcreated|].
  split; [rewrite Hcreated; now apply JsDateFacts.parse_toISOString|].
  intros r1 c1 r2 c2 Hm1 Hp1 Hb1 Hn1 Ha1 Hm2 Hp2 Ha2.
  cbn [serve].
  rewrite (handler_dispatch r1 c1 s _
             ltac:(rewrite Hm1, Hp1; exact matchRoute_createProject) eq_refl Ha1).
  cbn [Match.handler Match.params]. rewrite Hm1, Hn1.
  change (String.eqb "POST" "POST" || String.eqb "POST" "PUT") with true.
  cbv iota.
  rewrite (createProject_body {| req := r1; body := parseBody r1; params := [] |}
             args now s Hb1), Hc.
  rewrite (handler_dispatch r2 c2 s' _
             ltac:(rewrite Hm2, Hp2, Hid;
                   exact (matchRoute_getProject _ (String_of_counter_segment _)))
             eq_refl Ha2).
  cbn [Match.handler Match.params]. rewrite Hread by (now rewrite Hid).
  reflexivity.
Qed.

End RouteTable.

(** * The theorems at work on the examples *)

Lemma updateTodo_type_strict_witness :
  hd_error (params (exampleArgs "PUT" "/todos/1"
              (Some (Json.JObj [("completed", Json.JStr "true")])) ["1"])) = Some "1" /\
  JsMap.get (todos exampleState) "1"
    = Some {| Todo.id := "1"; Todo.projectId := "1"; Todo.title := "Milk";
              Todo.completed := false; Todo.dueDate := None;
              Todo.createdAt := "2025-11-01T18:30:00.000Z" |} /\
  exists updated,
    fst (updateTodo
           (exampleArgs "PUT" "/todos/1"
              (Some (Json.JObj [("completed", Json.JStr "true")])) ["1"])
           0 exampleState)
      = Returns (json (TodoObj updated) 200) /\
    Todo.completed updated = false.
Proof.
  split; [reflexivity|]. split; [reflexivity|].
  destruct (updateTodo_type_strict
              (exampleArgs "PUT" "/todos/1"
                 (Some (Json.JObj [("completed", Json.JStr "true")])) ["1"])
              0 exampleState "1" _ eq_refl eq_refl)
    as (u & Hres & _ & _ & _ & _ & _ & _ & _ & Hc & _).
  exists u. split; [exact Hres | exact (Hc eq_refl)].
Defined.

Lemma updateTodo_title_unchecked_witness :
  hd_error (params (exampleArgs "PUT" "/todos/1"
              (Some (Json.JObj [("title", Json.JStr "")])) ["1"])) = Some "1" /\
  Json.getField (body (exampleArgs "PUT" "/todos/1"
              (Some (Json.JObj [("title", Json.JStr "")])) ["1"])) "title"
    = Some (Json.JStr "") /\
  exists updated,
    fst (updateTodo
           (exampleArgs "PUT" "/todos/1"
              (Some (Json.JObj [("title", Json.JStr "")])) ["1"])
           0 exampleState)
      = Returns (json (TodoObj updated) 200) /\
    Todo.title updated = "".
Proof.
  split; [reflexivity|]. split; [reflexivity|].
  destruct (@updateTodo_title_unchecked exampleRuntime
              (exampleArgs "PUT" "/todos/1"
                 (Some (Json.JObj [("title", Json.JStr "")])) ["1"])
              0 exampleState "1" _ "" eq_refl eq_refl eq_refl)
    as [(u & Hres & _ & Ht) _].
  exists u. split; [exact Hres | exact Ht].
Defined.

Lemma createTodo_unknown_project_witness :
  JsMap.get (projects exampleState) "does-not-exist" = None /\
  @handler exampleRuntime
    (exampleRequest "POST" "/projects/does-not-exist/todos" None)
    exampleClock exampleState
  = (Returns notFound, exampleState).
Proof.
  split; [reflexivity|].
  apply (@createTodo_unknown_project exampleRuntime exampleState "does-not-exist"
           eq_refl);
    try reflexivity.
  split; [discriminate|].
  intros c Hin. simpl in Hin.
  repeat (destruct Hin as [<- | Hin]; [discriminate|]). contradiction.
Defined.

Lemma deleteProject_keeps_todos_witness :
  JsMap.has (projects exampleState) "1" = true /\
  getTodo (exampleArgs "GET" "/todos/1" None ["1"]) 0
    (snd (deleteProject
            (exampleArgs "DELETE" "/projects/1" None ["1"]) 0 exampleState))
  = (Returns (json (TodoObj
       {| Todo.id := "1"; Todo.projectId := "1"; Todo.title := "Milk";
          Todo.completed := false; Todo.dueDate := None;
          Todo.createdAt := "2025-11-01T18:30:00.000Z" |}) 200),
     snd (deleteProject
            (exampleArgs "DELETE" "/projects/1" None ["1"]) 0 exampleState)).
Proof.
  split; [reflexivity|].
  pose proof (deleteProject_keeps_todos
                (exampleArgs "DELETE" "/projects/1" None ["1"]) 0 exampleState "1"
                eq_refl eq_refl) as H.
  cbv zeta in H. destruct H as (_ & _ & _ & _ & _ & _ & _ & H).
  apply (H "1" _ (exampleArgs "GET" "/todos/1" None ["1"]) 0 eq_refl eq_refl eq_refl).
Defined.

Lemma createTodo_completed_truthiness_witness :
  JsMap.has (projects exampleState) "1" = true /\
  JsString.trim "Eggs" <> "" /\
  exists todo,
    fst (@createTodo exampleRuntime
           (exampleArgs "POST" "/projects/1/todos"
              (Some (Json.JObj [("title", Json.JStr "Eggs");
                                ("completed", Json.JStr "false")])) ["1"])
           1762021740123 exampleState)
      = Returns (json (TodoObj todo) 201) /\
    Todo.completed todo = true.
Proof.
  split; [reflexivity|]. split; [discriminate|].
  destruct (@createTodo_completed_truthiness exampleRuntime
              (exampleArgs "POST" "/projects/1/todos"
                 (Some (Json.JObj [("title", Json.JStr "Eggs");
                                   ("completed", Json.JStr "false")])) ["1"])
              1762021740123 exampleState "1" "Eggs" eq_refl eq_refl eq_refl
              ltac:(discriminate))
    as (todo & Hres & _ & _ & _ & _ & _ & Hfalse & _).
  exists todo. split; [exact Hres | exact (Hfalse eq_refl)].
Defined.

Lemma project_ids_strictly_increase_witness :
  (N.of_nat (List.length exampleSession) < integerLimit)%N /\
  (1 < 3)%nat /\
  nth_error (fst (@serve exampleRuntime exampleSession initialState)) 1
    = Some (Returns (json (ProjectObj
                             {| Project.id := "1"; Project.name := "Groceries";
                                Project.createdAt := "2025-11-01T18:29:00.123Z" |})
                          201)) /\
  nth_error (fst (@serve exampleRuntime exampleSession initialState)) 3
    = Some (Returns (json (ProjectObj
                             {| Project.id := "2"; Project.name := "Chores";
                                Project.createdAt := "2025-11-01T18:29:00.123Z" |})
                          201)) /\
  exists n m,
    counter_of_String "1" = Some n /\ counter_of_String "2" = Some m /\
    (n < m)%N /\ "1" <> "2".
Proof.
  split; [vm_compute; reflexivity|].
  split; [lia|].
  split; [vm_compute; reflexivity|].
  split; [vm_compute; reflexivity|].
  apply (@project_ids_strictly_increase exampleRuntime exampleSession 1 3
           {| Project.id := "1"; Project.name := "Groceries";
              Project.createdAt := "2025-11-01T18:29:00.123Z" |}
           {| Project.id := "2"; Project.name := "Chores";
              Project.createdAt := "2025-11-01T18:29:00.123Z" |});
    [vm_compute; reflexivity | lia | vm_compute; reflexivity
    | vm_compute; reflexivity].
Defined.

Lemma malformed_body_is_no_fields_witness :
  Request.json (exampleRequest "PUT" "/todos/1" None) = None /\
  @handler exampleRuntime (exampleRequest "PUT" "/todos/1" None)
           exampleClock exampleState
  = @handler exampleRuntime
      (withJson (exampleRequest "PUT" "/todos/1" None) (Some (Json.JObj [])))
      exampleClock exampleState.
Proof.
  split; [reflexivity|].
  apply (@malformed_body_is_no_fields exampleRuntime
           (exampleRequest "PUT" "/todos/1" None) exampleClock exampleState eq_refl).
Defined.

Lemma createProject_then_getProject_witness :
  JsDate.isTimeValue 1762021740123 /\
  JsString.trim "Groceries" <> "" /\
  exists p s',
    @createProject exampleRuntime
      (exampleArgs "POST" "/projects"
         (Some (Json.JObj [("name", Json.JStr "Groceries")])) [])
      1762021740123 initialState
    = (Returns (json (ProjectObj p) 201), s') /\
    getProject (exampleArgs "GET" "/projects/1" None [Project.id p])
      1762021740123 s'
    = (Returns (json (ProjectObj p) 200), s') /\
    Project.name p = "Groceries" /\
    JsDate.parse (Project.createdAt p) = Some 1762021740123.
Proof.
  assert (Ht : JsDate.isTimeValue 1762021740123)
    by (unfold JsDate.isTimeValue, JsDate.maxTime; lia).
  split; [exact Ht|]. split; [discriminate|].
  destruct (@createProject_then_getProject exampleRuntime
              (exampleArgs "POST" "/projects"
                 (Some (Json.JObj [("name", Json.JStr "Groceries")])) [])
              1762021740123 initialState "Groceries" Ht eq_refl ltac:(discriminate))
    as (p & s' & Hc & Hg & _ & Hn & _ & _ & Hp & _).
  exists p, s'. split; [exact Hc|]. split; [|split; [exact Hn | exact Hp]].
  apply Hg. reflexivity.
Defined.

(** * More of the server *)

(** ** The three ways of a request *)
Section RequestFacts.
Context {rt : Runtime}.

Lemma optionStringEqb_true o x : optionStringEqb o x = true <-> o = Some x.
Proof.
  destruct o as [y|]; simpl; [|split; discriminate].
  destruct (String.eqb_spec y x); split; congruence.
Qed.

(** A request finds no route, or is stopped by the gate, or reaches the
    handler of its route. *)
Lemma handler_cases r clock s o s' :
  handler r clock s = (o, s') ->
  (matchRoute (Request.pathname r) (Request.method r) = None /\
   o = Returns notFound /\ s' = s) \/
  (exists m,
     matchRoute (Request.pathname r) (Request.method r) = Some m /\
     Match.name m <> Some "login" /\
     Response.status (authHandler r (authNow clock) s) <> 200 /\
     o = Returns (authHandler r (authNow clock) s) /\ s' = s) \/
  (exists m,
     matchRoute (Request.pathname r) (Request.method r) = Some m /\
     (Match.name m = Some "login" \/
      Response.status (authHandler r (authNow clock) s) = 200) /\
     Match.handler m {| req := r; body := bodyOf r; params := Match.params m |}
       (handlerNow clock) s = (o, s')).
Proof.
  unfold handler, bodyOf.
  destruct (matchRoute (Request.pathname r) (Request.method r)) as [m|] eqn:Hm.
  - destruct (optionStringEqb (Match.name m) "login") eqn:Hl; simpl.
    + intros H. right. right. exists m. split; [reflexivity|]. split; [|exact H].
      left. now apply optionStringEqb_true.
    + destruct (Z.eqb_spec (Response.status (authHandler r (authNow clock) s)) 200)
        as [Ha|Ha]; simpl.
      * intros H. right. right. exists m. split; [reflexivity|]. split; [|exact H].
        now right.
      * intros H. injection H as <- <-. right. left. exists m.
        split; [reflexivity|]. split; [|now repeat split].
        intros E. apply optionStringEqb_true in E. congruence.
  - intros H. injection H as <- <-. left. now repeat split.
Qed.

(** The route behind a match. *)
Lemma matchRoute_In path method m :
  matchRoute path method = Some m ->
  exists route, In route routes /\
    Match.handler m = Route.handler route /\
    Match.name m = Route.name route /\
    method = Route.method route /\
    RegExp.matchRe path (Route.path route) = Some (Match.params m).
Proof. apply firstMatch_In. Qed.

End RequestFacts.

(** ** What requests never do *)
Section NeverFacts.
Context {rt : Runtime}.

Ltac split_matches H :=
  repeat match type of H with
         | context [match ?x with _ => _ end] => destruct x eqn:?
         | context [if ?x then _ else _] => destruct x eqn:?
         end.

(** Opens a handler and follows each of its paths to the result. *)
Tactic Notation "paths" reference(h) :=
  unfold always, h; intros ? ? ? ? ? ?H;
  cbv beta iota zeta delta [JsMap.delete] in H;
  split_matches H; injection H as <- <-.

Ltac each_route H :=
  unfold routes in H; cbn [In] in H;
  repeat (destruct H as [<- | H]); [.. | contradiction];
  cbn [Route.handler Route.method Route.name Route.path].

(** A handler that throws has changed nothing, and is the handler of a
    POST or PUT route. *)
Lemma routes_throw route :
  In route routes ->
  always (fun _ _ s o s' =>
            forall e, o = Throws e ->
              s' = s /\ (Route.method route = "POST" \/ Route.method route = "PUT"))
         (Route.handler route).
Proof.
  intros Hin. each_route Hin.
  - paths rootHandler; intros e He; discriminate.
  - paths listProjects; intros e He; discriminate.
  - paths createProject; intros e He; try discriminate. split; [reflexivity | now left].
  - paths getProject; intros e He; discriminate.
  - paths updateProject; intros e He; try discriminate. split; [reflexivity | now right].
  - paths deleteProject; intros e He; discriminate.
  - paths listTodos; intros e He; discriminate.
  - paths createTodo; intros e He; try discriminate. split; [reflexivity | now left].
  - paths listAllTodos; intros e He; discriminate.
  - paths getTodo; intros e He; discriminate.
  - paths updateTodo; intros e He; discriminate.
  - paths deleteTodo; intros e He; discriminate.
  - paths login; intros e He; try discriminate. split; [reflexivity | now left].
Qed.

(** The handlers of the GET routes return, and change nothing. *)
Lemma routes_get route :
  In route routes -> Route.method route = "GET" ->
  always (fun _ _ s o s' => s' = s /\ exists resp, o = Returns resp)
         (Route.handler route).
Proof.
  intros Hin. each_route Hin; intros Hm; try discriminate Hm.
  - paths rootHandler; eauto.
  - paths listProjects; eauto.
  - paths getProject; eauto.
  - paths listTodos; eauto.
  - paths listAllTodos; eauto.
  - paths getTodo; eauto.
Qed.

(** X1: a GET request never changes the state and never throws, whatever
    its path, its headers and the state are. *)
Theorem get_changes_nothing r clock s o s' :
  Request.method r = "GET" ->
  handler r clock s = (o, s') ->
  s' = s /\ exists resp, o = Returns resp.
Proof.
  intros Hm H. destruct (handler_cases _ _ _ _ _ H)
    as [(_ & -> & ->) | [(m & _ & _ & _ & -> & ->) | (m & Hr & _ & Hh)]]; eauto.
  destruct (matchRoute_In _ _ _ Hr) as (route & Hin & Hhd & _ & Hmeth & _).
  rewrite Hhd in Hh. rewrite Hm in Hmeth.
  exact (routes_get route Hin (eq_sym Hmeth) _ _ _ _ _ Hh).
Qed.

(** X2: a request that throws leaves the state as it was, and is a POST
    or a PUT: reads and deletions never throw. *)
Theorem throw_changes_nothing r clock s e s' :
  handler r clock s = (Throws e, s') ->
  s' = s /\ (Request.method r = "POST" \/ Request.method r = "PUT").
Proof.
  intros H. destruct (handler_cases _ _ _ _ _ H)
    as [(_ & Ho & _) | [(m & _ & _ & _ & Ho & _) | (m & Hr & _ & Hh)]];
    try discriminate Ho.
  destruct (matchRoute_In _ _ _ Hr) as (route & Hin & Hhd & _ & Hmeth & _).
  rewrite Hhd in Hh. rewrite Hmeth.
  exact (routes_throw route Hin _ _ _ _ _ Hh e eq_refl).
Qed.

(** The login route is the route of [POST /login]. *)
Lemma login_route path method m :
  matchRoute path method = Some m -> Match.name m = Some "login" ->
  method = "POST" /\ path = "/login".
Proof.
  intros Hr Hn. destruct (matchRoute_In _ _ _ Hr) as (route & Hin & _ & Hname & Hm & Hre).
  rewrite Hname in Hn. subst method.
  each_route Hin; try discriminate Hn.
  cbn [Route.path Route.method] in *. split; [reflexivity|].
  apply RegExpFacts.matchRe_literal in Hre. tauto.
Qed.

(** X3: without a token that the gate accepts, nothing but [POST /login]
    reaches a handler: the answer is 404 (no route) or the gate's 401, and
    the state is as it was. *)
Theorem unauthorized_changes_nothing r clock s :
  Response.status (authHandler r (authNow clock) s) <> 200 ->
  ~ (Request.method r = "POST" /\ Request.pathname r = "/login") ->
  exists resp,
    handler r clock s = (Returns resp, s) /\
    (Response.status resp = 404 \/ Response.status resp = 401) /\
    (resp = notFound \/ resp = authHandler r (authNow clock) s).
Proof.
  intros Ha Hl. destruct (handler r clock s) as [o s'] eqn:H.
  destruct (handler_cases _ _ _ _ _ H)
    as [(_ & -> & ->) | [(m & _ & _ & _ & -> & ->) | (m & Hr & [Hn | Hok] & _)]].
  - exists notFound. split; [reflexivity|]. split; [now left | now left].
  - exists (authHandler r (authNow clock) s). split; [reflexivity|].
    split; [|now right]. right.
    destruct (authHandler_answers r (authNow clock) s) as [[msg E] | E];
      rewrite E in *; [reflexivity | now contradiction Ha].
  - now contradiction Hl; apply (login_route _ _ _ Hr Hn).
  - contradiction.
Qed.

(** The methods of the route table. *)
Lemma route_methods route :
  In route routes ->
  Route.method route = "GET" \/ Route.method route = "POST" \/
  Route.method route = "PUT" \/ Route.method route = "DELETE".
Proof. intros Hin. each_route Hin; tauto. Qed.

(** The first pattern finds no match in a path that ends with a text
    without a final slash. *)
Lemma root_pattern_no_suffix l t :
  t <> "" ->
  (forall pos, RegExp.search [RegExp.Lit "/"; RegExp.Dollar] pos t = None) ->
  forall pos, RegExp.search [RegExp.Lit "/"; RegExp.Dollar] pos (l ++ t) = None.
Proof.
  intros Ht Hnone. induction l as [|c l IH]; intros pos; [apply Hnone|].
  cbn [append RegExp.search RegExp.matchHere RegExp.stripPrefix].
  destruct (Ascii.eqb "/" c); [|apply IH].
  destruct (l ++ t) eqn:E; [|apply IH].
  destruct l; [contradiction | discriminate].
Qed.

(** No route but the first matches a path that ends with a slash. *)
Lemma slash_end_first_only route p caps :
  In route (tl routes) -> RegExp.matchRe (p ++ "/") (Route.path route) <> Some caps.
Proof.
  intros Hin Hm.
  pose proof (root_pattern_matches_suffix p 0) as Hroot.
  change (RegExp.search [RegExp.Lit "/"; RegExp.Dollar] 0 (p ++ "/"))
    with (RegExp.matchRe (p ++ "/") [RegExp.Lit "/"; RegExp.Dollar]) in Hroot.
  destruct (routes_after_first_exact _ _ _ Hin Hm)
    as [[[E | [E | E]] _] | (x & Hx & _ & [E | [E | E]])];
    rewrite E in Hroot.
  - discriminate Hroot.
  - discriminate Hroot.
  - discriminate Hroot.
  - now rewrite (segment_end_no_slash "/projects/" x Hx) in Hroot.
  - unfold RegExp.matchRe in Hroot.
    change ("/projects/" ++ x ++ "/todos") with (("/projects/" ++ x) ++ "/todos")
      in Hroot.
    rewrite root_pattern_no_suffix in Hroot;
      [discriminate Hroot | discriminate | reflexivity].
  - now rewrite (segment_end_no_slash "/todos/" x Hx) in Hroot.
Qed.

(** X4: a request that no route answers gets 404 without a look at its
    credentials, and changes nothing: so it is with every method other
    than GET, POST, PUT and DELETE, and with every POST, PUT or DELETE of
    a path that ends with a slash. *)
Theorem no_route_404 r clock s :
  (Request.method r <> "GET" /\ Request.method r <> "POST" /\
   Request.method r <> "PUT" /\ Request.method r <> "DELETE") \/
  (Request.method r <> "GET" /\ exists p, Request.pathname r = p ++ "/") ->
  matchRoute (Request.pathname r) (Request.method r) = None /\
  handler r clock s = (Returns notFound, s).
Proof.
  intros Hcase.
  assert (Hnone : matchRoute (Request.pathname r) (Request.method r) = None).
  { destruct (matchRoute _ _) as [m|] eqn:Hr; [exfalso | reflexivity].
    destruct (matchRoute_In _ _ _ Hr) as (route & Hin & _ & _ & Hm & Hre).
    destruct Hcase as [(H1 & H2 & H3 & H4) | (H1 & p & Hp)].
    - rewrite Hm in *. destruct (route_methods route Hin) as [E | [E | [E | E]]];
        contradiction.
    - assert (Htl : In route (tl routes)).
      { unfold routes in Hin. cbn [In] in Hin. destruct Hin as [<- | Hin].
        - now contradiction H1.
        - exact Hin. }
      rewrite Hp in Hre. exact (slash_end_first_only _ _ _ Htl Hre). }
  split; [exact Hnone|]. unfold handler. now rewrite Hnone.
Qed.

End NeverFacts.

(** ** Credentials: the gate and the login *)
Section CredentialFacts.
Context {rt : Runtime}.

Ltac split_matches H :=
  repeat match type of H with
         | context [match ?x with _ => _ end] => destruct x eqn:?
         | context [if ?x then _ else _] => destruct x eqn:?
         end.

Tactic Notation "paths" reference(h) :=
  unfold always, h; intros ? ? ? ? ? ?H;
  cbv beta iota zeta delta [JsMap.delete] in H;
  split_matches H; injection H as <- <-.

Ltac each_route H :=
  unfold routes in H; cbn [In] in H;
  repeat (destruct H as [<- | H]); [.. | contradiction];
  cbn [Route.handler Route.method Route.name Route.path].

Lemma startsWith_iff p : forall h,
  JsString.startsWith h p = true <-> exists t, h = p ++ t.
Proof.
  unfold JsString.startsWith. induction p as [|a p IH]; intros h; simpl.
  - split; [intros _; now exists h | intros _; now destruct h].
  - destruct h as [|b h]; [split; [discriminate | intros [t Ht]; discriminate]|].
    simpl. destruct (ascii_dec a b) as [<-|Hne].
    + rewrite IH. split; intros [t Ht]; exists t; congruence.
    + split; [discriminate|]. intros [t Ht]. congruence.
Qed.

Lemma slice_prefix p t : JsString.slice (p ++ t) (String.length p) = t.
Proof. induction p as [|a p IH]; simpl; [reflexivity | exact IH]. Qed.

Lemma startsWith_falsy h a p :
  JsString.startsWith h (String a p) = true -> JsString.falsy h = false.
Proof. destruct h; [discriminate | reflexivity]. Qed.

(** X5: the gate answers 200 exactly to a header [Bearer token] whose token
    is registered with an expiry that is not zero and not before the
    current time; it answers 401 else, with "Missing Authorization header"
    exactly when the header is absent or does not start with [Bearer ]
    (the scheme in these very letters, one space). *)
Theorem authHandler_accepts_iff r now s :
  (Response.status (authHandler r now s) = 200 <->
     exists token expMs,
       Request.authorization r = Some ("Bearer " ++ token) /\
       JsMap.get (validJwts s) token = Some expMs /\
       expMs <> 0 /\ now <= expMs) /\
  (authHandler r now s = json (ErrorObj "Missing Authorization header") 401 <->
     Request.authorization r = None \/
     exists h, Request.authorization r = Some h /\
               forall token, h <> "Bearer " ++ token) /\
  (Response.status (authHandler r now s) = 200 \/
   Response.status (authHandler r now s) = 401).
Proof.
  unfold authHandler.
  destruct (Request.authorization r) as [h|] eqn:Hh.
  2:{ split; [|split].
      - split; [discriminate|]. intros (t & e & Ht & _). discriminate.
      - split; [now left | reflexivity].
      - now right. }
  destruct (JsString.startsWith h "Bearer ") eqn:Hs.
  - rewrite (startsWith_falsy _ _ _ Hs). cbn [negb orb].
    apply startsWith_iff in Hs. destruct Hs as [token ->].
    rewrite (slice_prefix "Bearer " token).
    destruct (JsMap.get (validJwts s) token) as [e|] eqn:Hg.
    + destruct (Z.eqb_spec e 0) as [E0|E0]; cbn [orb].
      * split; [|split].
        -- split; [discriminate|]. intros (t & e' & Ht & Hg' & Hn & _).
           injection Ht as Ht. subst t. congruence.
        -- split; [discriminate|]. intros [Hn | (h & Hh' & Hno)]; [discriminate|].
           injection Hh' as <-. now contradiction (Hno token).
        -- now right.
      * destruct (Z.ltb_spec e now) as [L|L]; (split; [|split]).
        -- split; [discriminate|]. intros (t & e' & Ht & Hg' & _ & Hle).
           injection Ht as Ht. subst t.
           rewrite Hg in Hg'. injection Hg' as <-. lia.
        -- split; [discriminate|]. intros [Hn | (h & Hh' & Hno)]; [discriminate|].
           injection Hh' as <-. now contradiction (Hno token).
        -- now right.
        -- split; [intros _; exists token, e; now repeat split | reflexivity].
        -- split; [discriminate|]. intros [Hn | (h & Hh' & Hno)]; [discriminate|].
           injection Hh' as <-. now contradiction (Hno token).
        -- now left.
    + split; [|split].
      * split; [discriminate|]. intros (t & e' & Ht & Hg' & _).
        injection Ht as Ht. subst t. congruence.
      * split; [discriminate|]. intros [Hn | (h & Hh' & Hno)]; [discriminate|].
        injection Hh' as <-. now contradiction (Hno token).
      * now right.
  - rewrite orb_true_r. split; [|split].
    + split; [discriminate|]. intros (t & e & Ht & _). injection Ht as ->.
      assert (Hs' : JsString.startsWith ("Bearer " ++ t) "Bearer " = true)
        by (apply startsWith_iff; now exists t).
      simpl append in Hs'. rewrite Hs' in Hs. discriminate Hs.
    + split; [|reflexivity]. intros _. right. exists h. split; [reflexivity|].
      intros t ->.
      assert (Hs' : JsString.startsWith ("Bearer " ++ t) "Bearer " = true)
        by (apply startsWith_iff; now exists t).
      rewrite Hs' in Hs. discriminate Hs.
    + now right.
Qed.

(** *** [split] and the credentials *)

Lemma split_decompose sep s :
  exists x,
    (s = x /\ JsString.split sep s = [x]) \/
    (exists r, s = x ++ String sep r /\ JsString.split sep s = x :: JsString.split sep r).
Proof.
  induction s as [|c s IH]; simpl.
  - exists "". now left.
  - destruct (Ascii.eqb_spec c sep) as [->|Hne].
    + exists "". right. exists s. now split.
    + destruct IH as (x & [[-> ->] | (r & -> & ->)]).
      * exists (String c x). now left.
      * exists (String c x). right. exists r. now split.
Qed.

(** The first two fields of the decoded credentials are [admin] and
    [hunter2] exactly when the text is [admin:hunter2], alone or followed
    by a colon and anything. *)
Lemma credentials_iff decoded :
  (nth_error (JsString.split ":" decoded) 0 = Some USERNAME /\
   nth_error (JsString.split ":" decoded) 1 = Some PASSWORD) <->
  (decoded = "admin:hunter2" \/ exists rest, decoded = "admin:hunter2:" ++ rest).
Proof.
  split.
  - intros [H0 H1].
    destruct (split_decompose ":" decoded) as (x & [[-> E] | (r & -> & E)]);
      rewrite E in H0, H1; simpl in H0, H1; [discriminate|].
    injection H0 as ->.
    destruct (split_decompose ":" r) as (y & [[-> E'] | (r' & -> & E')]);
      rewrite E' in H1; simpl in H1; injection H1 as ->.
    + now left.
    + right. now exists r'.
  - intros [-> | [rest ->]]; split; reflexivity.
Qed.

(** [login] with these credentials. *)
Lemma login_accepts args clock s b64 decoded :
  Request.authorization (req args) = Some ("Basic " ++ b64) ->
  atob b64 = Some decoded ->
  (decoded = "admin:hunter2" \/ exists rest, decoded = "admin:hunter2:" ++ rest) ->
  login args clock s =
    (Returns (json (TokenObj (SignJWT USERNAME "user" (clock / 1000)
                                      (clock / 1000 + 60 * 60) JWT_SECRET)
                             ((clock / 1000 + 60 * 60) * 1000)) 200),
     with_validJwts s
       (JsMap.set (validJwts s)
          (SignJWT USERNAME "user" (clock / 1000) (clock / 1000 + 60 * 60) JWT_SECRET)
          ((clock / 1000 + 60 * 60) * 1000))).
Proof.
  intros Hh Ha Hc. apply credentials_iff in Hc. destruct Hc as [H0 H1].
  unfold login. rewrite Hh.
  assert (Hs : JsString.startsWith ("Basic " ++ b64) "Basic " = true)
    by (apply startsWith_iff; now exists b64).
  rewrite (startsWith_falsy _ _ _ Hs), Hs. cbn [negb orb].
  rewrite (slice_prefix "Basic " b64), Ha. cbv zeta.
  rewrite H0, H1. unfold optionStringEqb. now rewrite !String.eqb_refl.
Qed.

(** What [login] answers, and when. *)
Lemma login_outcomes args clock s o s' :
  login args clock s = (o, s') ->
  (exists b64 decoded,
     Request.authorization (req args) = Some ("Basic " ++ b64) /\
     atob b64 = Some decoded /\
     (decoded = "admin:hunter2" \/ exists rest, decoded = "admin:hunter2:" ++ rest) /\
     exists jwt expMs,
       o = Returns (json (TokenObj jwt expMs) 200) /\
       s' = with_validJwts s (JsMap.set (validJwts s) jwt expMs)) \/
  (s' = s /\
   (o = Returns (json (ErrorObj "Missing Authorization header") 401) \/
    o = Returns (json (ErrorObj "Invalid credentials") 401) \/
    o = Throws InvalidCharacterError)).
Proof.
  unfold login.
  destruct (Request.authorization (req args)) as [h|] eqn:Hh.
  2:{ intros H. injection H as <- <-. right. split; [reflexivity | now left]. }
  destruct (JsString.startsWith h "Basic ") eqn:Hs.
  2:{ rewrite orb_true_r. intros H. injection H as <- <-. right.
      split; [reflexivity | now left]. }
  rewrite (startsWith_falsy _ _ _ Hs). cbn [negb orb].
  apply startsWith_iff in Hs. destruct Hs as [b64 ->].
  rewrite (slice_prefix "Basic " b64).
  destruct (atob b64) as [decoded|] eqn:Ha.
  2:{ intros H. injection H as <- <-. right. split; [reflexivity | tauto]. }
  cbv zeta.
  destruct (optionStringEqb (nth_error (JsString.split ":" decoded) 0) USERNAME) eqn:E0;
    cbn [negb orb].
  2:{ intros H. injection H as <- <-. right. split; [reflexivity | tauto]. }
  destruct (optionStringEqb (nth_error (JsString.split ":" decoded) 1) PASSWORD) eqn:E1;
    cbn [negb].
  2:{ intros H. injection H as <- <-. right. split; [reflexivity | tauto]. }
  intros H. injection H as <- <-. left. exists b64, decoded.
  split; [first [reflexivity | exact Hh]|].
  split; [first [reflexivity | exact Ha]|].
  apply optionStringEqb_true in E0, E1.
  split; [apply credentials_iff; now split|].
  eexists _, _. split; reflexivity.
Qed.

Lemma matchRoute_login :
  matchRoute "/login" "POST" =
    Some {| Match.handler := login; Match.name := Some "login"; Match.params := [] |}.
Proof. reflexivity. Qed.

(** [POST /login] goes to [login] past the gate. *)
Lemma handler_login r clock s :
  Request.method r = "POST" -> Request.pathname r = "/login" ->
  handler r clock s =
    login {| req := r; body := parseBody r; params := [] |} (handlerNow clock) s.
Proof.
  intros Hm Hp. unfold handler. rewrite Hm, Hp, matchRoute_login. reflexivity.
Qed.

(** X6: [POST /login] with the header [Basic b64], where [atob] turns
    [b64] into [admin:hunter2] (alone, or followed by a colon and
    anything), answers 200 with a token and its expiry whatever the state
    and without any bearer token; the expiry is a whole second, more than
    3599 seconds and at most one hour after the clock; the token is
    registered with that expiry, and from then on the gate lets a request
    with that token pass exactly as long as the clock is not past the
    expiry. *)
Theorem login_issues_token r clock s b64 decoded :
  Request.method r = "POST" -> Request.pathname r = "/login" ->
  Request.authorization r = Some ("Basic " ++ b64) ->
  atob b64 = Some decoded ->
  (decoded = "admin:hunter2" \/ exists rest, decoded = "admin:hunter2:" ++ rest) ->
  0 <= handlerNow clock ->
  exists jwt expMs s',
    handler r clock s = (Returns (json (TokenObj jwt expMs) 200), s') /\
    jwt = SignJWT "admin" "user" (handlerNow clock / 1000)
                  (handlerNow clock / 1000 + 3600) "hunter2" /\
    expMs = (handlerNow clock / 1000 + 3600) * 1000 /\
    handlerNow clock + 3599000 < expMs <= handlerNow clock + 3600000 /\
    JsMap.get (validJwts s') jwt = Some expMs /\
    projects s' = projects s /\ todos s' = todos s /\
    projectCounter s' = projectCounter s /\ todoCounter s' = todoCounter s /\
    (forall r2 now2,
       Request.authorization r2 = Some ("Bearer " ++ jwt) ->
       (Response.status (authHandler r2 now2 s') = 200 <-> now2 <= expMs)).
Proof.
  intros Hm Hp Hh Ha Hc Hnow.
  eexists _, _, _. split.
  { rewrite (handler_login r clock s Hm Hp).
    apply (login_accepts _ _ _ b64 decoded); [exact Hh | exact Ha | exact Hc]. }
  split; [reflexivity|]. split; [reflexivity|].
  split; [Z.to_euclidean_division_equations; lia|].
  split; [cbn [validJwts with_validJwts]; apply JsMapFacts.get_set_eq|].
  do 4 (split; [reflexivity|]).
  intros r2 now2 H2. rewrite (authHandler_bearer r2 now2 _ _ H2).
  cbn [validJwts with_validJwts]. rewrite JsMapFacts.get_set_eq.
  destruct (Z.eqb_spec ((handlerNow clock / 1000 + 60 * 60) * 1000) 0) as [E|E];
    [exfalso; revert E; Z.to_euclidean_division_equations; lia|].
  cbn [orb].
  destruct (Z.ltb_spec ((handlerNow clock / 1000 + 60 * 60) * 1000) now2);
    cbn [Response.status json]; split; intros; try lia; try discriminate; reflexivity.
Qed.

(** X7: [POST /login] answers with a token only to the right credentials;
    in every other case it answers 401 ("Missing Authorization header"
    without a [Basic ] header, "Invalid credentials" else) or throws where
    [atob] throws, and the state is as it was. *)
Theorem login_refuses r clock s o s' :
  Request.method r = "POST" -> Request.pathname r = "/login" ->
  handler r clock s = (o, s') ->
  (exists b64 decoded,
     Request.authorization r = Some ("Basic " ++ b64) /\
     atob b64 = Some decoded /\
     (decoded = "admin:hunter2" \/ exists rest, decoded = "admin:hunter2:" ++ rest) /\
     exists jwt expMs, o = Returns (json (TokenObj jwt expMs) 200)) \/
  (s' = s /\
   (o = Returns (json (ErrorObj "Missing Authorization header") 401) \/
    o = Returns (json (ErrorObj "Invalid credentials") 401) \/
    o = Throws InvalidCharacterError)).
Proof.
  intros Hm Hp H. rewrite (handler_login r clock s Hm Hp) in H.
  destruct (login_outcomes _ _ _ _ _ H)
    as [(b64 & decoded & Hh & Ha & Hc & jwt & expMs & Ho & _) | Hfail].
  - left. exists b64, decoded. cbn [req] in Hh. eauto 10.
  - now right.
Qed.

End CredentialFacts.

(** ** The registry and the todo counter over sequences of requests *)
Section SequenceFacts.
Context {rt : Runtime}.

Ltac split_matches H :=
  repeat match type of H with
         | context [match ?x with _ => _ end] => destruct x eqn:?
         | context [if ?x then _ else _] => destruct x eqn:?
         end.

Tactic Notation "paths" reference(h) :=
  unfold always, h; intros ? ? ? ? ? ?H;
  cbv beta iota zeta delta [JsMap.delete] in H;
  split_matches H; injection H as <- <-.

Ltac each_route H :=
  unfold routes in H; cbn [In] in H;
  repeat (destruct H as [<- | H]); [.. | contradiction];
  cbn [Route.handler Route.method Route.name Route.path].

(** Only the login handler writes to the registry, and it writes one
    entry and nothing else. *)
Lemma routes_registry route :
  In route routes ->
  always (fun _ _ s o s' =>
            validJwts s' = validJwts s \/
            (Route.name route = Some "login" /\
             exists jwt expMs,
               o = Returns (json (TokenObj jwt expMs) 200) /\
               s' = with_validJwts s (JsMap.set (validJwts s) jwt expMs)))
         (Route.handler route).
Proof.
  intros Hin. each_route Hin.
  - paths rootHandler; now left.
  - paths listProjects; now left.
  - paths createProject; now left.
  - paths getProject; now left.
  - paths updateProject; now left.
  - paths deleteProject; now left.
  - paths listTodos; now left.
  - paths createTodo; now left.
  - paths listAllTodos; now left.
  - paths getTodo; now left.
  - paths updateTodo; now left.
  - paths deleteTodo; now left.
  - paths login; try (now left). right. split; [reflexivity|]. eauto.
Qed.

Lemma registry_frame_aux r clock s o s' :
  handler r clock s = (o, s') ->
  validJwts s' = validJwts s \/
  exists jwt expMs, s' = with_validJwts s (JsMap.set (validJwts s) jwt expMs).
Proof.
  intros H. destruct (handler_cases _ _ _ _ _ H)
    as [(_ & _ & ->) | [(m & _ & _ & _ & _ & ->) | (m & Hr & _ & Hh)]];
    [now left | now left |].
  destruct (matchRoute_In _ _ _ Hr) as (route & Hin & Hhd & _).
  rewrite Hhd in Hh.
  destruct (routes_registry route Hin _ _ _ _ _ Hh) as [E | (_ & jwt & e & _ & E)];
    [now left | right; eauto].
Qed.

(** X8: no request but a successful [POST /login] changes the token
    registry, and that one changes nothing else: it sets the entry of the
    token it returns. *)
Theorem registry_only_login r clock s o s' :
  handler r clock s = (o, s') ->
  validJwts s' = validJwts s \/
  (Request.method r = "POST" /\ Request.pathname r = "/login" /\
   exists jwt expMs,
     o = Returns (json (TokenObj jwt expMs) 200) /\
     s' = with_validJwts s (JsMap.set (validJwts s) jwt expMs)).
Proof.
  intros H. destruct (handler_cases _ _ _ _ _ H)
    as [(_ & _ & ->) | [(m & _ & _ & _ & _ & ->) | (m & Hr & _ & Hh)]];
    [now left | now left |].
  destruct (matchRoute_In _ _ _ Hr) as (route & Hin & Hhd & Hname & _).
  rewrite Hhd in Hh.
  destruct (routes_registry route Hin _ _ _ _ _ Hh) as [E | (Hn & Hrest)];
    [now left | right].
  rewrite <- Hname in Hn. destruct (login_route _ _ _ Hr Hn) as [-> ->].
  now repeat split.
Qed.

Lemma registered_step r clock s o s' token :
  handler r clock s = (o, s') -> registered s token -> registered s' token.
Proof.
  intros H [e He]. unfold registered.
  destruct (registry_frame_aux r clock s o s' H) as [-> | (jwt & expMs & ->)];
    [now exists e|].
  cbn [validJwts with_validJwts].
  destruct (String.eqb_spec jwt token) as [->|Hne].
  - exists expMs. apply JsMapFacts.get_set_eq.
  - exists e. now rewrite JsMapFacts.get_set_ne.
Qed.

(** X9: a token is never revoked: once registered, it is registered after
    any sequence of requests. *)
Theorem tokens_never_revoked rs : forall s os s' token,
  serve rs s = (os, s') -> registered s token -> registered s' token.
Proof.
  induction rs as [|[r clock] rs IH]; simpl; intros s os s' token H Hreg.
  - now injection H as _ <-.
  - destruct (handler r clock s) as [o s1] eqn:Hh.
    destruct (serve rs s1) as [os1 s2] eqn:Hs.
    injection H as _ <-.
    apply (IH _ _ _ _ Hs). exact (registered_step _ _ _ _ _ _ Hh Hreg).
Qed.

(** A handler leaves the todo counter as it is or increments it, and a
    todo that it answers with 201 has the numeral of the counter found. *)
Lemma routes_count_todos route :
  In route routes ->
  always (fun _ _ s o s' =>
            (todoCounter s' = todoCounter s \/
             todoCounter s' = increment (todoCounter s)) /\
            forall t, o = Returns (json (TodoObj t) 201) ->
              Todo.id t = String_of_counter (todoCounter s) /\
              todoCounter s' = increment (todoCounter s))
         (Route.handler route).
Proof.
  intros Hin. each_route Hin.
  - paths rootHandler; (split; [simpl; auto | intros ? ?; discriminate]).
  - paths listProjects; (split; [simpl; auto | intros ? ?; discriminate]).
  - paths createProject; (split; [simpl; auto | intros ? ?; discriminate]).
  - paths getProject; (split; [simpl; auto | intros ? ?; discriminate]).
  - paths updateProject; (split; [simpl; auto | intros ? ?; discriminate]).
  - paths deleteProject; (split; [simpl; auto | intros ? ?; discriminate]).
  - paths listTodos; (split; [simpl; auto | intros ? ?; discriminate]).
  - paths createTodo; (split; [simpl; auto |]); intros t Ht; try discriminate;
      injection Ht as <-; simpl; (split; reflexivity).
  - paths listAllTodos; (split; [simpl; auto | intros ? ?; discriminate]).
  - paths getTodo; (split; [simpl; auto | intros ? ?; discriminate]).
  - paths updateTodo; (split; [simpl; auto | intros ? ?; discriminate]).
  - paths deleteTodo; (split; [simpl; auto | intros ? ?; discriminate]).
  - paths login; (split; [simpl; auto | intros ? ?; discriminate]).
Qed.

Lemma handler_count_todos r clock s o s' :
  handler r clock s = (o, s') ->
  (todoCounter s' = todoCounter s \/
   todoCounter s' = increment (todoCounter s)) /\
  forall t, o = Returns (json (TodoObj t) 201) ->
    Todo.id t = String_of_counter (todoCounter s) /\
    todoCounter s' = increment (todoCounter s).
Proof.
  intros H. destruct (handler_cases _ _ _ _ _ H)
    as [(_ & -> & ->) | [(m & _ & _ & _ & -> & ->) | (m & Hr & _ & Hh)]].
  - split; [auto | intros ? ?; discriminate].
  - split; [auto|]. intros t Ht. injection Ht as Ht.
    destruct (authHandler_answers r (authNow clock) s) as [[msg E] | E];
      rewrite E in Ht; discriminate.
  - destruct (matchRoute_In _ _ _ Hr) as (route & Hin & Hhd & _).
    rewrite Hhd in Hh. exact (routes_count_todos route Hin _ _ _ _ _ Hh).
Qed.

(** Over a sequence of requests that is too short to take the counter to
    [2^53]: the counter goes up by at most one a request, and every todo
    created has the numeral of a number between the counter at the start
    and the counter at the end. *)
Lemma serve_count_todos rs : forall s os s',
  (todoCounter s + N.of_nat (List.length rs) <= integerLimit)%N ->
  serve rs s = (os, s') ->
  (todoCounter s <= todoCounter s' <=
     todoCounter s + N.of_nat (List.length rs))%N /\
  forall i t, nth_error os i = Some (Returns (json (TodoObj t) 201)) ->
    exists n, Todo.id t = String_of_counter n /\
              (todoCounter s <= n < todoCounter s')%N.
Proof.
  induction rs as [|[r clock] rs IH]; intros s os s' Hb H.
  - simpl in H. injection H as <- <-. split; [simpl; lia|].
    intros [|i] t Ht; discriminate.
  - simpl in H.
    change (List.length ((r, clock) :: rs)) with (S (List.length rs)) in *.
    destruct (handler r clock s) as [o s1] eqn:Hh.
    destruct (serve rs s1) as [os1 s2] eqn:Hs.
    injection H as <- <-.
    destruct (handler_count_todos _ _ _ _ _ Hh) as [Hstep Hcreate].
    rewrite increment_below in Hstep, Hcreate by lia.
    destruct (IH s1 os1 s2) as [Hle' Hrest]; [lia | assumption |].
    split; [lia|].
    intros [|i] t Ht; simpl in Ht.
    + injection Ht as ->. destruct (Hcreate t eq_refl) as [Hid Hlt].
      exists (todoCounter s). split; [assumption | lia].
    + destruct (Hrest i t Ht) as (n & Hid & Hn). exists n. split; [assumption | lia].
Qed.

(** Two todos created one after the other, in such a sequence: the later
    id is the numeral of a greater number. *)
Lemma serve_todos_ordered rs : forall s os s' i j t u,
  (todoCounter s + N.of_nat (List.length rs) <= integerLimit)%N ->
  serve rs s = (os, s') ->
  (i < j)%nat ->
  nth_error os i = Some (Returns (json (TodoObj t) 201)) ->
  nth_error os j = Some (Returns (json (TodoObj u) 201)) ->
  exists n m, Todo.id t = String_of_counter n /\
              Todo.id u = String_of_counter m /\
              (todoCounter s <= n < m)%N.
Proof.
  induction rs as [|[r clock] rs IH]; intros s os s' i j t u Hb H Hij Ht Hu.
  - simpl in H. injection H as <- <-. destruct i; discriminate.
  - simpl in H.
    change (List.length ((r, clock) :: rs)) with (S (List.length rs)) in *.
    destruct (handler r clock s) as [o s1] eqn:Hh.
    destruct (serve rs s1) as [os1 s2] eqn:Hs.
    injection H as <- <-.
    destruct j as [|j]; [lia|]. simpl in Hu.
    destruct (handler_count_todos _ _ _ _ _ Hh) as [Hstep Hcreate].
    rewrite increment_below in Hstep, Hcreate by lia.
    destruct i as [|i]; simpl in Ht.
    + injection Ht as ->. destruct (Hcreate t eq_refl) as [Hid Hlt].
      destruct (serve_count_todos rs s1 os1 s2) as [_ Hrest]; [lia | assumption |].
      destruct (Hrest j u Hu) as (m & Hm & Hrange).
      exists (todoCounter s), m.
      split; [assumption|]. split; [assumption | lia].
    + destruct (IH s1 os1 s2 i j t u) as (n & m & Hn & Hm & Hr);
        [lia | assumption | lia | assumption | assumption |].
      exists n, m. split; [assumption|]. split; [assumption | lia].
Qed.

(** X10: in a sequence of fewer than [2^53] requests served from the start
    of the process, two successful todo creations, under whatever
    projects, return ids that are the numerals of two numbers, the later
    one strictly greater: todo ids are not reused, whatever was deleted in
    between, and the first one is [1] whatever the project counter is. The
    bound keeps the counter, a double, below [2^53], where [todoCounter++]
    stops counting and the id repeats. *)
Theorem todo_ids_strictly_increase rs i j t u :
  (N.of_nat (List.length rs) < integerLimit)%N ->
  (i < j)%nat ->
  nth_error (fst (serve rs initialState)) i = Some (Returns (json (TodoObj t) 201)) ->
  nth_error (fst (serve rs initialState)) j = Some (Returns (json (TodoObj u) 201)) ->
  exists n m,
    counter_of_String (Todo.id t) = Some n /\
    counter_of_String (Todo.id u) = Some m /\
    (1 <= n < m)%N /\
    Todo.id t <> Todo.id u.
Proof.
  intros Hb Hij Ht Hu.
  destruct (serve rs initialState) as [os s'] eqn:Hs. simpl in Ht, Hu.
  destruct (serve_todos_ordered rs initialState os s' i j t u)
    as (n & m & Hn & Hm & Hlt); try assumption.
  { change (todoCounter initialState) with 1%N. lia. }
  exists n, m. rewrite Hn, Hm, !counter_of_String_of_counter.
  change (todoCounter initialState) with 1%N in Hlt.
  split; [reflexivity|]. split; [reflexivity|]. split; [lia|].
  intros E. apply String_of_counter_inj in E. lia.
Qed.

End SequenceFacts.

(** ** Maps, once more: keys, order and entries *)
Module JsMapOrder.
Section Facts.
Context {V : Type}.
Implicit Types (m : JsMap.t V) (k : string) (v : V).

Lemma get_None_iff m k : JsMap.get m k = None <-> ~ In k (keys m).
Proof.
  induction m as [|[k0 v0] m IH]; simpl; [tauto|].
  destruct (String.eqb_spec k0 k) as [->|Hne].
  - split; [discriminate | intros H; now contradiction H; left].
  - rewrite IH. tauto.
Qed.

(** [get] finds an entry of the list. *)
Lemma get_In m k v : JsMap.get m k = Some v -> In (k, v) m.
Proof.
  induction m as [|[k0 v0] m IH]; simpl; [discriminate|].
  destruct (String.eqb_spec k0 k) as [->|Hne].
  - intros H. injection H as ->. now left.
  - intros H. right. now apply IH.
Qed.

(** With one entry per key, every entry is found by [get]. *)
Lemma In_get m k v : NoDup (keys m) -> In (k, v) m -> JsMap.get m k = Some v.
Proof.
  induction m as [|[k0 v0] m IH]; simpl; [contradiction|].
  intros Hnd [E | Hin].
  - injection E as -> ->. now rewrite String.eqb_refl.
  - inversion Hnd as [|? ? Hnotin Hnd']; subst.
    destruct (String.eqb_spec k0 k) as [->|Hne].
    + contradiction Hnotin. change k with (fst (k, v)). now apply in_map.
    + now apply IH.
Qed.

(** A new key goes last. *)
Lemma set_absent m k v : JsMap.get m k = None -> JsMap.set m k v = (m ++ [(k, v)])%list.
Proof.
  induction m as [|[k0 v0] m IH]; simpl; [reflexivity|].
  destruct (String.eqb k0 k); [discriminate|].
  intros H. now rewrite IH.
Qed.

(** A present key keeps its place. *)
Lemma keys_set_present m k v v0 :
  JsMap.get m k = Some v0 -> keys (JsMap.set m k v) = keys m.
Proof.
  induction m as [|[k1 v1] m IH]; simpl; [discriminate|].
  destruct (String.eqb_spec k1 k) as [->|Hne]; [reflexivity|].
  intros H. simpl. now rewrite IH.
Qed.

Lemma Forall_set (P : string * V -> Prop) m k v :
  Forall P m -> P (k, v) -> Forall P (JsMap.set m k v).
Proof.
  intros Hm Hp. induction m as [|[k0 v0] m IH]; simpl.
  - now constructor.
  - inversion Hm; subst. destruct (String.eqb k0 k); constructor; auto.
Qed.

Lemma Forall_remove (P : string * V -> Prop) m k :
  Forall P m -> Forall P (JsMap.remove m k).
Proof.
  intros Hm. induction m as [|[k0 v0] m IH]; simpl; [constructor|].
  inversion Hm; subst. destruct (String.eqb k0 k); [auto | constructor; auto].
Qed.

Lemma keys_remove_In m k k' : In k' (keys (JsMap.remove m k)) -> In k' (keys m).
Proof.
  induction m as [|[k0 v0] m IH]; simpl; [tauto|].
  destruct (String.eqb k0 k); simpl; intros H; [right; auto|].
  destruct H; [now left | right; auto].
Qed.

Lemma NoDup_remove m k : NoDup (keys m) -> NoDup (keys (JsMap.remove m k)).
Proof.
  induction m as [|[k0 v0] m IH]; simpl; [constructor|].
  intros Hnd. inversion Hnd as [|? ? Hnotin Hnd']; subst.
  destruct (String.eqb k0 k); [auto|]. simpl. constructor; [|auto].
  intros Hin. apply Hnotin. eapply keys_remove_In; eauto.
Qed.

Lemma NoDup_snoc (l : list string) k : NoDup l -> ~ In k l -> NoDup (l ++ [k]).
Proof.
  induction l as [|a l IH]; simpl; intros Hnd Hk.
  - constructor; [tauto | constructor].
  - inversion Hnd as [|? ? Ha Hnd']; subst. constructor.
    + rewrite in_app_iff. simpl. intros [H | [H | []]]; [tauto | subst; tauto].
    + apply IH; tauto.
Qed.

Lemma NoDup_set m k v : NoDup (keys m) -> NoDup (keys (JsMap.set m k v)).
Proof.
  intros Hnd. destruct (JsMap.get m k) as [v0|] eqn:E.
  - now rewrite (keys_set_present _ _ _ _ E).
  - rewrite (set_absent _ _ _ E). unfold keys. rewrite map_app. simpl.
    apply get_None_iff in E. now apply NoDup_snoc.
Qed.

(** The values, in order, after the removal of a key. *)
Lemma values_remove m k :
  JsMap.values (JsMap.remove m k) =
  map snd (filter (fun e => negb (String.eqb (fst e) k)) m).
Proof.
  unfold JsMap.values. induction m as [|[k0 v0] m IH]; simpl; [reflexivity|].
  destruct (String.eqb k0 k); simpl; now rewrite IH.
Qed.

End Facts.
End JsMapOrder.

(** ** [trim] gives a trimmed string *)
Lemma trimEnd_idempotent s : JsString.trimEnd (JsString.trimEnd s) = JsString.trimEnd s.
Proof.
  induction s as [|c s IH]; simpl; [reflexivity|].
  destruct (JsString.isWhiteSpace c && JsString.isEmpty (JsString.trimEnd s)) eqn:E;
    [reflexivity|].
  simpl. now rewrite IH, E.
Qed.

Lemma trimStart_head s :
  JsString.trimStart s = "" \/
  exists c r, JsString.trimStart s = String c r /\ JsString.isWhiteSpace c = false.
Proof.
  induction s as [|c s IH]; simpl; [now left|].
  destruct (JsString.isWhiteSpace c) eqn:E; [exact IH|].
  right. now exists c, s.
Qed.

Lemma trim_idempotent s : JsString.trim (JsString.trim s) = JsString.trim s.
Proof.
  unfold JsString.trim.
  destruct (trimStart_head s) as [-> | (c & r & -> & Hc)]; [reflexivity|].
  simpl. rewrite Hc. simpl. rewrite Hc. simpl.
  now rewrite trimEnd_idempotent, Hc.
Qed.

(** ** The invariant of the stores *)
Section InvariantFacts.
Context {rt : Runtime}.

Ltac split_matches H :=
  repeat match type of H with
         | context [match ?x with _ => _ end] => destruct x eqn:?
         | context [if ?x then _ else _] => destruct x eqn:?
         end.

Tactic Notation "paths" reference(h) :=
  unfold always, h; intros ? ? ? ? ? ?H;
  cbv beta iota zeta delta [JsMap.delete] in H;
  split_matches H; injection H as <- <-.

Ltac each_route H :=
  unfold routes in H; cbn [In] in H;
  repeat (destruct H as [<- | H]); [.. | contradiction];
  cbn [Route.handler Route.method Route.name Route.path].

(** An id given out stays one as the counter goes on, up to [2^53]. *)
Lemma assignedId_mono c c' k :
  (c <= c' <= integerLimit)%N -> assignedId c k -> assignedId c' k.
Proof.
  intros Hle (n & -> & Hn & Hc). exists n. split; [reflexivity|].
  split; [exact Hn|]. destruct Hc as [Hc | [-> ->]]; [left; lia | right; lia].
Qed.

(** The counter's own number is given out by incrementing it. *)
Lemma assignedId_increment c :
  (1 <= c <= integerLimit)%N -> assignedId (increment c) (String_of_counter c).
Proof.
  intros Hc. exists c. split; [reflexivity|]. split; [lia|].
  destruct (N.eq_dec c integerLimit) as [->|Hne].
  - right. now rewrite increment_integerLimit.
  - left. rewrite increment_below; lia.
Qed.

Lemma increment_within c :
  (c <= integerLimit)%N -> (c <= increment c <= integerLimit)%N.
Proof.
  intros Hc. split; [apply increment_le | now apply increment_bounded].
Qed.

Lemma projectEntryOk_mono c c' e :
  (c <= c' <= integerLimit)%N -> projectEntryOk c e -> projectEntryOk c' e.
Proof.
  intros Hle (H1 & H2 & H3). split; [exact H1|]. split; [|exact H3].
  now apply (assignedId_mono c).
Qed.

Lemma todoEntryOk_mono p p' t t' e :
  (p <= p' <= integerLimit)%N -> (t <= t' <= integerLimit)%N ->
  todoEntryOk p t e -> todoEntryOk p' t' e.
Proof.
  intros Hp Ht (H1 & H2 & H3). split; [exact H1|].
  split; [now apply (assignedId_mono t) | now apply (assignedId_mono p)].
Qed.

(** The numeral of a counter below [2^53] is not a key yet. *)
Lemma counter_fresh {V : Type} (m : JsMap.t V) c :
  (c < integerLimit)%N ->
  Forall (fun e => assignedId c (fst e)) m ->
  JsMap.get m (String_of_counter c) = None.
Proof.
  intros Hc H. apply JsMapOrder.get_None_iff. unfold keys. rewrite in_map_iff.
  intros ([k v] & Hk & Hin). simpl in Hk. subst k.
  rewrite Forall_forall in H. destruct (H _ Hin) as (n & Hn & _ & Hlt).
  simpl in Hn. apply String_of_counter_inj in Hn. lia.
Qed.

Lemma projects_fresh s :
  wellFormed s -> (projectCounter s < integerLimit)%N ->
  JsMap.get (projects s) (String_of_counter (projectCounter s)) = None.
Proof.
  intros (_ & _ & Hp & _) Hc. apply counter_fresh; [exact Hc|].
  eapply Forall_impl; [|exact Hp]. intros e He. apply He.
Qed.

Lemma todos_fresh s :
  wellFormed s -> (todoCounter s < integerLimit)%N ->
  JsMap.get (todos s) (String_of_counter (todoCounter s)) = None.
Proof.
  intros (_ & _ & _ & Ht & _) Hc. apply counter_fresh; [exact Hc|].
  eapply Forall_impl; [|exact Ht]. intros e He. apply He.
Qed.

(** What the invariant says of an entry that [get] finds. *)
Lemma wellFormed_project s k p :
  wellFormed s -> JsMap.get (projects s) k = Some p ->
  projectEntryOk (projectCounter s) (k, p).
Proof.
  intros (_ & _ & Hp & _) Hg. rewrite Forall_forall in Hp.
  apply Hp. now apply JsMapOrder.get_In.
Qed.

Lemma wellFormed_todo s k t :
  wellFormed s -> JsMap.get (todos s) k = Some t ->
  todoEntryOk (projectCounter s) (todoCounter s) (k, t).
Proof.
  intros (_ & _ & _ & Ht & _) Hg. rewrite Forall_forall in Ht.
  apply Ht. now apply JsMapOrder.get_In.
Qed.

Lemma wellFormed_initial : wellFormed initialState.
Proof.
  unfold wellFormed, initialState, integerLimit. simpl.
  repeat split; try constructor; lia.
Qed.

Lemma createProject_keeps : always (fun _ _ s _ s' => wellFormed s -> wellFormed s') createProject.
Proof.
  unfold always, createProject. intros args now s o s' H Hwf.
  destruct (Json.ToString _ _) as [str|]; [|now injection H as _ <-].
  destruct (JsString.falsy (JsString.trim str)) eqn:Hf; [now injection H as _ <-|].
  injection H as _ <-.
  destruct Hwf as (N1 & N2 & Fp & Ft & C1 & C2).
  unfold wellFormed. cbn [projects todos projectCounter todoCounter with_projects
                          with_projectCounter].
  pose proof (increment_within (projectCounter s) ltac:(lia)) as Hi.
  split; [now apply JsMapOrder.NoDup_set|]. split; [exact N2|].
  split.
  { apply JsMapOrder.Forall_set.
    - eapply Forall_impl; [|exact Fp]. intros e. now apply projectEntryOk_mono.
    - split; [reflexivity|]. split; [|split].
      + now apply assignedId_increment.
      + apply trim_idempotent.
      + now apply isEmpty_false. }
  split.
  { eapply Forall_impl; [|exact Ft]. intros e. apply todoEntryOk_mono; lia. }
  split; lia.
Qed.

Lemma updateProject_keeps : always (fun _ _ s _ s' => wellFormed s -> wellFormed s') updateProject.
Proof.
  unfold always, updateProject. intros args now s o s' H Hwf.
  destruct (hd_error (params args)) as [pid|]; [|now injection H as _ <-].
  destruct (JsMap.get (projects s) pid) as [existing|] eqn:Hg; [|now injection H as _ <-].
  destruct (Json.ToString _ _) as [str|]; [|now injection H as _ <-].
  destruct (JsString.falsy (JsString.trim str)) eqn:Hf; [now injection H as _ <-|].
  injection H as _ <-.
  destruct (wellFormed_project _ _ _ Hwf Hg) as (Hid & Hassigned & _).
  destruct Hwf as (N1 & N2 & Fp & Ft & C1 & C2).
  unfold wellFormed. cbn [projects todos projectCounter todoCounter with_projects].
  split; [now apply JsMapOrder.NoDup_set|]. split; [exact N2|].
  split; [|now repeat split].
  apply JsMapOrder.Forall_set; [exact Fp|].
  split; [exact Hid|]. split; [exact Hassigned|].
  split; [apply trim_idempotent | now apply isEmpty_false].
Qed.

Lemma deleteProject_keeps : always (fun _ _ s _ s' => wellFormed s -> wellFormed s') deleteProject.
Proof.
  unfold always, deleteProject, JsMap.delete. intros args now s o s' H Hwf.
  destruct (hd_error (params args)) as [pid|]; [|now injection H as _ <-].
  assert (E : s' = with_projects s (JsMap.remove (projects s) pid)).
  { destruct (negb (JsMap.has (projects s) pid)); now injection H as _ <-. }
  subst s'. destruct Hwf as (N1 & N2 & Fp & Ft & C1 & C2).
  unfold wellFormed. cbn [projects todos projectCounter todoCounter with_projects].
  split; [now apply JsMapOrder.NoDup_remove|]. split; [exact N2|].
  split; [now apply JsMapOrder.Forall_remove | now repeat split].
Qed.

Lemma createTodo_keeps : always (fun _ _ s _ s' => wellFormed s -> wellFormed s') createTodo.
Proof.
  unfold always, createTodo. intros args now s o s' H Hwf.
  destruct (hd_error (params args)) as [pid|]; [|now injection H as _ <-].
  destruct (JsMap.has (projects s) pid) eqn:Hhas; cbn [negb] in H;
    [|now injection H as _ <-].
  destruct (Json.ToString _ _) as [str|]; [|now injection H as _ <-].
  destruct (JsString.falsy (JsString.trim str)) eqn:Hf; [now injection H as _ <-|].
  injection H as _ <-.
  apply JsMapFacts.has_true in Hhas. destruct Hhas as [p Hp].
  destruct (wellFormed_project _ _ _ Hwf Hp) as (_ & Hassigned & _).
  destruct Hwf as (N1 & N2 & Fp & Ft & C1 & C2).
  unfold wellFormed. cbn [projects todos projectCounter todoCounter with_todos
                          with_todoCounter].
  pose proof (increment_within (todoCounter s) ltac:(lia)) as Hi.
  split; [exact N1|]. split; [now apply JsMapOrder.NoDup_set|].
  split; [exact Fp|].
  split; [|split; lia].
  apply JsMapOrder.Forall_set.
  - eapply Forall_impl; [|exact Ft]. intros e. apply todoEntryOk_mono; lia.
  - split; [reflexivity|]. split; [|exact Hassigned].
    now apply assignedId_increment.
Qed.

Lemma updateTodo_keeps : always (fun _ _ s _ s' => wellFormed s -> wellFormed s') updateTodo.
Proof.
  unfold always, updateTodo. intros args now s o s' H Hwf.
  destruct (hd_error (params args)) as [tid|]; [|now injection H as _ <-].
  destruct (JsMap.get (todos s) tid) as [todo|] eqn:Hg; [|now injection H as _ <-].
  injection H as _ <-.
  destruct (wellFormed_todo _ _ _ Hwf Hg) as (Hid & Hassigned & Hproject).
  destruct Hwf as (N1 & N2 & Fp & Ft & C1 & C2).
  unfold wellFormed. cbn [projects todos projectCounter todoCounter with_todos].
  split; [exact N1|]. split; [now apply JsMapOrder.NoDup_set|].
  split; [exact Fp|]. split; [|now split].
  apply JsMapOrder.Forall_set; [exact Ft|]. now repeat split.
Qed.

Lemma deleteTodo_keeps : always (fun _ _ s _ s' => wellFormed s -> wellFormed s') deleteTodo.
Proof.
  unfold always, deleteTodo, JsMap.delete. intros args now s o s' H Hwf.
  destruct (hd_error (params args)) as [tid|]; [|now injection H as _ <-].
  assert (E : s' = with_todos s (JsMap.remove (todos s) tid)).
  { destruct (negb (JsMap.has (todos s) tid)); now injection H as _ <-. }
  subst s'. destruct Hwf as (N1 & N2 & Fp & Ft & C1 & C2).
  unfold wellFormed. cbn [projects todos projectCounter todoCounter with_todos].
  split; [exact N1|]. split; [now apply JsMapOrder.NoDup_remove|].
  split; [exact Fp|]. split; [now apply JsMapOrder.Forall_remove | now split].
Qed.

Lemma login_keeps : always (fun _ _ s _ s' => wellFormed s -> wellFormed s') login.
Proof.
  intros args now s o s' H Hwf.
  destruct (login_outcomes _ _ _ _ _ H)
    as [(_ & _ & _ & _ & _ & jwt & e & _ & ->) | (-> & _)]; exact Hwf.
Qed.

Lemma routes_keep route :
  In route routes ->
  always (fun _ _ s _ s' => wellFormed s -> wellFormed s') (Route.handler route).
Proof.
  intros Hin. each_route Hin;
    auto using createProject_keeps, updateProject_keeps, deleteProject_keeps,
      createTodo_keeps, updateTodo_keeps, deleteTodo_keeps, login_keeps.
  - paths rootHandler; auto.
  - paths listProjects; auto.
  - paths getProject; auto.
  - paths listTodos; auto.
  - paths listAllTodos; auto.
  - paths getTodo; auto.
Qed.

Lemma handler_keeps r clock s o s' :
  handler r clock s = (o, s') -> wellFormed s -> wellFormed s'.
Proof.
  intros H. destruct (handler_cases _ _ _ _ _ H)
    as [(_ & _ & ->) | [(m & _ & _ & _ & _ & ->) | (m & Hr & _ & Hh)]]; auto.
  destruct (matchRoute_In _ _ _ Hr) as (route & Hin & Hhd & _).
  rewrite Hhd in Hh. exact (routes_keep route Hin _ _ _ _ _ Hh).
Qed.

Lemma serve_keeps rs : forall s os s',
  serve rs s = (os, s') -> wellFormed s -> wellFormed s'.
Proof.
  induction rs as [|[r clock] rs IH]; simpl; intros s os s' H Hwf.
  - now injection H as _ <-.
  - destruct (handler r clock s) as [o s1] eqn:Hh.
    destruct (serve rs s1) as [os1 s2] eqn:Hs.
    injection H as _ <-.
    apply (IH _ _ _ Hs). exact (handler_keeps _ _ _ _ _ Hh Hwf).
Qed.

(** X11: whatever requests the server has answered since its start, its
    stores are in order: the counters are from 1 to [2^53], where a double
    stops counting; a project is stored under its own id, the numeral of a
    number from 1 that is below the project counter, or is the counter
    when that has stopped at [2^53], and its name is trimmed and not
    empty; a todo is stored under its own id, the numeral of such a number
    for the todo counter, and names a project id that the project counter
    has given out (of a project that may be deleted since); no map has two
    entries for one key. *)
Theorem reachable_stores_in_order rs os s :
  serve rs initialState = (os, s) ->
  NoDup (keys (projects s)) /\ NoDup (keys (todos s)) /\
  (1 <= projectCounter s <= integerLimit)%N /\
  (1 <= todoCounter s <= integerLimit)%N /\
  (forall k p, JsMap.get (projects s) k = Some p ->
     Project.id p = k /\
     (exists n, k = String_of_counter n /\ (1 <= n)%N /\
                ((n < projectCounter s)%N \/
                 (n = projectCounter s /\ projectCounter s = integerLimit))) /\
     JsString.trim (Project.name p) = Project.name p /\ Project.name p <> "") /\
  (forall k t, JsMap.get (todos s) k = Some t ->
     Todo.id t = k /\
     (exists n, k = String_of_counter n /\ (1 <= n)%N /\
                ((n < todoCounter s)%N \/
                 (n = todoCounter s /\ todoCounter s = integerLimit))) /\
     (exists n, Todo.projectId t = String_of_counter n /\ (1 <= n)%N /\
                ((n < projectCounter s)%N \/
                 (n = projectCounter s /\ projectCounter s = integerLimit)))).
Proof.
  intros H. pose proof (serve_keeps rs _ _ _ H wellFormed_initial) as Hwf.
  split; [apply Hwf|]. split; [apply Hwf|].
  split; [apply Hwf|]. split; [apply Hwf|]. split.
  - intros k p Hg. exact (wellFormed_project _ _ _ Hwf Hg).
  - intros k t Hg. exact (wellFormed_todo _ _ _ Hwf Hg).
Qed.

End InvariantFacts.

(** ** Listing, renaming and deleting *)
Section StoreFacts.
Context {rt : Runtime}.

Lemma reachable_wellFormed rs os s :
  serve rs initialState = (os, s) -> wellFormed s.
Proof. intros H. exact (serve_keeps rs _ _ _ H wellFormed_initial). Qed.

(** [createProject] with a name that is not blank: the project and the
    state it leaves. *)
Lemma createProject_success args now s str :
  Json.ToString Number_toString
    (Json.nullish (Json.getField (body args) "name") (Json.JStr "")) = Some str ->
  JsString.trim str <> "" ->
  createProject args now s =
    (Returns (json (ProjectObj
       {| Project.id := String_of_counter (projectCounter s);
          Project.name := JsString.trim str;
          Project.createdAt := JsDate.toISOString now |}) 201),
     with_projects (with_projectCounter s (increment (projectCounter s)))
       (JsMap.set (projects s) (String_of_counter (projectCounter s))
          {| Project.id := String_of_counter (projectCounter s);
             Project.name := JsString.trim str;
             Project.createdAt := JsDate.toISOString now |})).
Proof.
  intros Hs Ht. unfold createProject. rewrite Hs.
  apply isEmpty_false in Ht. unfold JsString.falsy. cbv zeta. now rewrite Ht.
Qed.

(** [createTodo] under a project that exists, with a title that is not
    blank: the todo and the state it leaves. *)
Lemma createTodo_result args now s projectId str :
  hd_error (params args) = Some projectId ->
  JsMap.has (projects s) projectId = true ->
  Json.ToString Number_toString
    (Json.nullish (Json.getField (body args) "title") (Json.JStr "")) = Some str ->
  JsString.trim str <> "" ->
  exists todo,
    createTodo args now s =
      (Returns (json (TodoObj todo) 201),
       with_todos (with_todoCounter s (increment (todoCounter s)))
                  (JsMap.set (todos s) (String_of_counter (todoCounter s)) todo)) /\
    Todo.id todo = String_of_counter (todoCounter s) /\
    Todo.projectId todo = projectId /\
    Todo.title todo = JsString.trim str /\
    Todo.dueDate todo =
      match Json.getField (body args) "dueDate" with
      | Some (Json.JStr d) => Some d
      | _ => None
      end /\
    Todo.createdAt todo = JsDate.toISOString now.
Proof.
  intros Hp Hhas Hs Ht. unfold createTodo. rewrite Hp, Hhas, Hs. simpl.
  apply isEmpty_false in Ht. unfold JsString.falsy. rewrite Ht.
  eexists. split; [reflexivity|]. now repeat split.
Qed.

(** At [2^53] the project counter gives its number out again: two
    creations in a row return the same id, and the second project takes
    the place of the first. *)
Lemma createProject_repeats_at_limit args now args' now' s str str' :
  projectCounter s = integerLimit ->
  Json.ToString Number_toString
    (Json.nullish (Json.getField (body args) "name") (Json.JStr "")) = Some str ->
  JsString.trim str <> "" ->
  Json.ToString Number_toString
    (Json.nullish (Json.getField (body args') "name") (Json.JStr "")) = Some str' ->
  JsString.trim str' <> "" ->
  exists p s1 q s2,
    createProject args now s = (Returns (json (ProjectObj p) 201), s1) /\
    createProject args' now' s1 = (Returns (json (ProjectObj q) 201), s2) /\
    Project.id p = String_of_counter integerLimit /\
    Project.id q = Project.id p /\
    JsMap.get (projects s2) (Project.id p) = Some q.
Proof.
  intros Hc Hs Ht Hs' Ht'. eexists _, _, _, _.
  split; [exact (createProject_success args now s str Hs Ht)|].
  split; [exact (createProject_success args' now' _ str' Hs' Ht')|].
  cbn [Project.id projects projectCounter with_projects with_projectCounter].
  rewrite Hc, increment_integerLimit.
  split; [reflexivity|]. split; [reflexivity|]. apply JsMapFacts.get_set_eq.
Qed.

(** X12: in a state that the server can reach, with the project counter
    below [2^53], a project just created is the last of [listProjects],
    after the projects that were there, in their order; and with the todo
    counter below [2^53], a todo just created is the last of
    [listAllTodos] and the last of the [listTodos] of its project. (At
    [2^53] the counter has given its number out before, and the new entry
    takes the place of the one that has it.) *)
Theorem new_entries_listed_last rs os s :
  serve rs initialState = (os, s) ->
  (forall args now str,
     (projectCounter s < integerLimit)%N ->
     Json.ToString Number_toString
       (Json.nullish (Json.getField (body args) "name") (Json.JStr "")) = Some str ->
     JsString.trim str <> "" ->
     exists p s',
       createProject args now s = (Returns (json (ProjectObj p) 201), s') /\
       forall args' now',
         listProjects args' now' s' =
           (Returns (json (ProjectArr (JsMap.values (projects s) ++ [p])) 200), s')) /\
  (forall args now projectId str,
     (todoCounter s < integerLimit)%N ->
     hd_error (params args) = Some projectId ->
     JsMap.has (projects s) projectId = true ->
     Json.ToString Number_toString
       (Json.nullish (Json.getField (body args) "title") (Json.JStr "")) = Some str ->
     JsString.trim str <> "" ->
     exists t s',
       createTodo args now s = (Returns (json (TodoObj t) 201), s') /\
       (forall args' now',
          listAllTodos args' now' s' =
            (Returns (json (TodoArr (JsMap.values (todos s) ++ [t])) 200), s')) /\
       (forall args' now' old,
          hd_error (params args') = Some projectId ->
          listTodos args' now' s = (Returns (json (TodoArr old) 200), s) ->
          listTodos args' now' s' = (Returns (json (TodoArr (old ++ [t])) 200), s'))).
Proof.
  intros Hreach. pose proof (reachable_wellFormed _ _ _ Hreach) as Hwf.
  split.
  - intros args now str Hc Hs Ht. eexists _, _.
    split; [exact (createProject_success args now s str Hs Ht)|].
    intros args' now'. unfold listProjects.
    cbn [projects with_projects with_projectCounter].
    rewrite (JsMapOrder.set_absent _ _ _ (projects_fresh s Hwf Hc)).
    unfold JsMap.values. now rewrite map_app.
  - intros args now pid str Hlim Hp Hhas Hs Ht.
    destruct (createTodo_result args now s pid str Hp Hhas Hs Ht)
      as (t & Hc & _ & Hpid & _).
    eexists t, _. split; [exact Hc|].
    assert (Hvals : JsMap.values
                      (JsMap.set (todos s) (String_of_counter (todoCounter s)) t)
                    = (JsMap.values (todos s) ++ [t])%list).
    { rewrite (JsMapOrder.set_absent _ _ _ (todos_fresh s Hwf Hlim)).
      unfold JsMap.values. now rewrite map_app. }
    split.
    + intros args' now'. unfold listAllTodos.
      cbn [todos with_todos with_todoCounter]. now rewrite Hvals.
    + intros args' now' old Hp'. unfold listTodos. rewrite Hp'.
      cbn [projects todos with_todos with_todoCounter]. rewrite Hhas. cbn [negb].
      intros Hold. injection Hold as <-.
      rewrite Hvals, filter_app. cbn [filter]. rewrite Hpid, String.eqb_refl.
      reflexivity.
Qed.

(** X13: a successful [createTodo] is read back by [getTodo] under the id
    it returned: the numeral of the todo counter, the project id of the
    path, the title trimmed, a [dueDate] that is the body's when that is a
    string and [null] in every other case, and a [createdAt] that
    [Date.parse] reads back as the time of creation; the projects and the
    project counter are as they were, and the todo counter is one more
    when it was below [2^53], and is still [2^53] when it was that. *)
Theorem createTodo_then_getTodo args now s projectId str :
  JsDate.isTimeValue now ->
  hd_error (params args) = Some projectId ->
  JsMap.has (projects s) projectId = true ->
  Json.ToString Number_toString
    (Json.nullish (Json.getField (body args) "title") (Json.JStr "")) = Some str ->
  JsString.trim str <> "" ->
  exists t s',
    createTodo args now s = (Returns (json (TodoObj t) 201), s') /\
    (forall args' now',
       hd_error (params args') = Some (Todo.id t) ->
       getTodo args' now' s' = (Returns (json (TodoObj t) 200), s')) /\
    Todo.id t = String_of_counter (todoCounter s) /\
    Todo.projectId t = projectId /\
    Todo.title t = JsString.trim str /\
    (forall d, Json.getField (body args) "dueDate" = Some (Json.JStr d) ->
       Todo.dueDate t = Some d) /\
    (Json.typeof (Json.getField (body args) "dueDate") <> "string" ->
       Todo.dueDate t = None) /\
    JsDate.parse (Todo.createdAt t) = Some now /\
    projects s' = projects s /\ projectCounter s' = projectCounter s /\
    ((todoCounter s < integerLimit)%N -> todoCounter s' = (todoCounter s + 1)%N) /\
    (todoCounter s = integerLimit -> todoCounter s' = integerLimit).
Proof.
  intros Hnow Hp Hhas Hs Ht.
  destruct (createTodo_result args now s projectId str Hp Hhas Hs Ht)
    as (t & Hc & Hid & Hpid & Htitle & Hdue & Hcreated).
  eexists t, _. split; [exact Hc|].
  split.
  { intros args' now' Hp'. unfold getTodo. rewrite Hp', Hid.
    cbn [todos with_todos]. now rewrite JsMapFacts.get_set_eq. }
  split; [exact Hid|]. split; [exact Hpid|]. split; [exact Htitle|].
  split; [intros d Hd; now rewrite Hdue, Hd|].
  split.
  { intros Hty. rewrite Hdue.
    destruct (Json.getField (body args) "dueDate") as [[| | | d | |]|];
      try reflexivity. now contradiction Hty. }
  split; [rewrite Hcreated; now apply JsDateFacts.parse_toISOString|].
  split; [reflexivity|]. split; [reflexivity|].
  cbn [todoCounter with_todos with_todoCounter]. split.
  - apply increment_below.
  - intros ->. apply increment_integerLimit.
Qed.

(** X14: [updateProject] answers 404 for an id that is not there before it
    looks at the body; for a project that is there it answers 400 to a
    blank name and changes nothing, and else 200 with the project renamed
    to the trimmed name: the id, the creation time, the place in the
    listing, the other projects, the todos and the counters stay. *)
Theorem updateProject_renames args now s projectId :
  hd_error (params args) = Some projectId ->
  (JsMap.get (projects s) projectId = None ->
     updateProject args now s = (Returns notFound, s)) /\
  (forall existing str,
     JsMap.get (projects s) projectId = Some existing ->
     Json.ToString Number_toString
       (Json.nullish (Json.getField (body args) "name") (Json.JStr "")) = Some str ->
     (JsString.trim str = "" ->
        updateProject args now s = (Returns (text "Missing project name" 400), s)) /\
     (JsString.trim str <> "" ->
        exists updated s',
          updateProject args now s = (Returns (json (ProjectObj updated) 200), s') /\
          Project.name updated = JsString.trim str /\
          Project.id updated = Project.id existing /\
          Project.createdAt updated = Project.createdAt existing /\
          JsMap.get (projects s') projectId = Some updated /\
          keys (projects s') = keys (projects s) /\
          (forall other, other <> projectId ->
             JsMap.get (projects s') other = JsMap.get (projects s) other) /\
          todos s' = todos s /\ projectCounter s' = projectCounter s /\
          todoCounter s' = todoCounter s /\ validJwts s' = validJwts s)).
Proof.
  intros Hp. split.
  - intros Hg. unfold updateProject. now rewrite Hp, Hg.
  - intros existing str Hg Hs. unfold updateProject. rewrite Hp, Hg, Hs. cbv zeta.
    unfold JsString.falsy. split.
    + intros ->. reflexivity.
    + intros Ht. apply isEmpty_false in Ht. rewrite Ht.
      eexists _, _. split; [reflexivity|].
      cbn [projects todos projectCounter todoCounter validJwts with_projects
           Project.name Project.id Project.createdAt].
      do 3 (split; [reflexivity|]).
      split; [apply JsMapFacts.get_set_eq|].
      split; [exact (JsMapOrder.keys_set_present _ _ _ _ Hg)|].
      split; [intros other Hne; apply JsMapFacts.get_set_ne; congruence|].
      now repeat split.
Qed.

(** X15: [deleteTodo] of a todo that is there answers 204 and removes that
    todo alone: it is no longer read, a second deletion answers 404, the
    other todos are as they were and in their order, and the projects are
    untouched; for an id that is not there it answers 404 and changes
    nothing. *)
Theorem deleteTodo_once args now s todoId :
  hd_error (params args) = Some todoId ->
  (JsMap.get (todos s) todoId = None ->
     deleteTodo args now s = (Returns notFound, s)) /\
  (forall todo, JsMap.get (todos s) todoId = Some todo ->
     exists s',
       deleteTodo args now s = (Returns noContent, s') /\
       JsMap.get (todos s') todoId = None /\
       (forall other, other <> todoId ->
          JsMap.get (todos s') other = JsMap.get (todos s) other) /\
       JsMap.values (todos s') =
         map snd (filter (fun e => negb (String.eqb (fst e) todoId)) (todos s)) /\
       projects s' = projects s /\ projectCounter s' = projectCounter s /\
       todoCounter s' = todoCounter s /\
       (forall args' now',
          hd_error (params args') = Some todoId ->
          getTodo args' now' s' = (Returns notFound, s') /\
          deleteTodo args' now' s' = (Returns notFound, s'))).
Proof.
  intros Hp. split.
  - intros Hg. unfold deleteTodo, JsMap.delete. rewrite Hp.
    rewrite (proj2 (JsMapFacts.has_false _ _) Hg). cbn [negb].
    now rewrite (JsMapFacts.remove_absent _ _ Hg), with_todos_same.
  - intros todo Hg. unfold deleteTodo at 1, JsMap.delete. rewrite Hp.
    assert (Hhas : JsMap.has (todos s) todoId = true)
      by (apply JsMapFacts.has_true; eauto).
    rewrite Hhas. cbn [negb]. eexists. split; [reflexivity|].
    cbn [projects todos projectCounter todoCounter with_todos].
    split; [apply JsMapFacts.get_remove_eq|].
    split; [intros other Hne; apply JsMapFacts.get_remove_ne; congruence|].
    split; [apply JsMapOrder.values_remove|].
    do 3 (split; [reflexivity|]).
    intros args' now' Hp'.
    pose proof (JsMapFacts.get_remove_eq (todos s) todoId) as Hgone.
    split.
    + unfold getTodo. rewrite Hp'. cbn [todos with_todos]. now rewrite Hgone.
    + unfold deleteTodo, JsMap.delete. rewrite Hp'. cbn [todos with_todos].
      rewrite (proj2 (JsMapFacts.has_false _ _) Hgone). cbn [negb].
      rewrite (JsMapFacts.remove_absent _ _ Hgone).
      reflexivity.
Qed.

(** X16: once a project is deleted, its id answers 404 to [getProject],
    [updateProject], a second [deleteProject], [listTodos] and
    [createTodo], whatever the body; the todos it had are still all in
    [listAllTodos], which is as it was. *)
Theorem deleted_project_is_gone args now s projectId :
  hd_error (params args) = Some projectId ->
  JsMap.has (projects s) projectId = true ->
  exists s',
    deleteProject args now s = (Returns noContent, s') /\
    (forall args' now',
       hd_error (params args') = Some projectId ->
       getProject args' now' s' = (Returns notFound, s') /\
       updateProject args' now' s' = (Returns notFound, s') /\
       deleteProject args' now' s' = (Returns notFound, s') /\
       listTodos args' now' s' = (Returns notFound, s') /\
       createTodo args' now' s' = (Returns notFound, s')) /\
    (forall args' now',
       listAllTodos args' now' s' =
         (Returns (json (TodoArr (JsMap.values (todos s))) 200), s')).
Proof.
  intros Hp Hhas. unfold deleteProject at 1, JsMap.delete. rewrite Hp, Hhas.
  cbn [negb]. eexists. split; [reflexivity|].
  pose proof (JsMapFacts.get_remove_eq (projects s) projectId) as Hgone.
  pose proof (proj2 (JsMapFacts.has_false _ _) Hgone) as Hnot.
  split; [|reflexivity].
  intros args' now' Hp'.
  split; [unfold getProject; rewrite Hp'; cbn [projects with_projects];
          now rewrite Hgone|].
  split; [unfold updateProject; rewrite Hp'; cbn [projects with_projects];
          now rewrite Hgone|].
  split.
  { unfold deleteProject, JsMap.delete. rewrite Hp'. cbn [projects with_projects].
    rewrite Hnot. cbn [negb]. rewrite (JsMapFacts.remove_absent _ _ Hgone).
    reflexivity. }
  split; [unfold listTodos; rewrite Hp'; cbn [projects with_projects];
          now rewrite Hnot|].
  unfold createTodo. rewrite Hp'. cbn [projects with_projects]. now rewrite Hnot.
Qed.

(** X17: in a state that the server can reach, [listTodos] of a project that
    is there answers 200 with exactly the stored todos that name the
    project, each once, in the order of [listAllTodos]; for a project id
    that is not there it answers 404, whatever todos name it. *)
Theorem listTodos_exact rs os s args now projectId :
  serve rs initialState = (os, s) ->
  hd_error (params args) = Some projectId ->
  (JsMap.has (projects s) projectId = false ->
     listTodos args now s = (Returns notFound, s)) /\
  (JsMap.has (projects s) projectId = true ->
     exists result,
       listTodos args now s = (Returns (json (TodoArr result) 200), s) /\
       result = filter (fun t => String.eqb (Todo.projectId t) projectId)
                       (JsMap.values (todos s)) /\
       (forall t, In t result <->
          JsMap.get (todos s) (Todo.id t) = Some t /\ Todo.projectId t = projectId) /\
       NoDup (map Todo.id result)).
Proof.
  intros Hreach Hp. pose proof (reachable_wellFormed _ _ _ Hreach) as Hwf.
  split; [intros Hhas; unfold listTodos; now rewrite Hp, Hhas|].
  intros Hhas. eexists. split; [unfold listTodos; rewrite Hp, Hhas; reflexivity|].
  split; [reflexivity|].
  destruct Hwf as (_ & Nt & _ & Ft & _).
  assert (Hval : forall t, In t (JsMap.values (todos s)) <->
                           JsMap.get (todos s) (Todo.id t) = Some t).
  { intros t. unfold JsMap.values. rewrite in_map_iff. split.
    - intros ([k t'] & E & Hin). simpl in E. subst t'.
      rewrite Forall_forall in Ft. destruct (Ft _ Hin) as (Hid & _). simpl in Hid.
      rewrite Hid. now apply JsMapOrder.In_get.
    - intros Hg. exists (Todo.id t, t). split; [reflexivity|].
      now apply JsMapOrder.get_In. }
  split.
  - intros t. rewrite filter_In, Hval. split.
    + intros [Hg He]. split; [exact Hg | now apply String.eqb_eq].
    + intros [Hg He]. split; [exact Hg | now apply String.eqb_eq].
  - assert (Hids : map Todo.id (JsMap.values (todos s)) = keys (todos s)).
    { unfold JsMap.values, keys. rewrite map_map. apply map_ext_in.
      intros e Hin. rewrite Forall_forall in Ft. apply (Ft e Hin). }
    rewrite <- Hids in Nt. clear Hids Hval.
    induction (JsMap.values (todos s)) as [|t l IH]; simpl; [constructor|].
    inversion Nt as [|? ? Hnotin Nt']; subst.
    destruct (String.eqb (Todo.projectId t) projectId); [|auto].
    simpl. constructor; [|auto].
    intros Hin. apply Hnotin. rewrite in_map_iff in *.
    destruct Hin as (u & Hu & Hin). exists u. split; [exact Hu|].
    apply filter_In in Hin. tauto.
Qed.

End StoreFacts.

(** ** The route table as a whole *)
Section TableFacts.
Context {rt : Runtime}.

Ltac each_route H :=
  unfold routes in H; cbn [In] in H;
  repeat (destruct H as [<- | H]); [.. | contradiction];
  cbn [Route.handler Route.method Route.name Route.path].

Ltac skip_method := rewrite firstMatch_skip by (right; discriminate).
Ltac skip_literal :=
  rewrite firstMatch_skip by (left; apply literal_no_match; discriminate).

Lemma matchRoute_root p :
  matchRoute (p ++ "/") "GET" =
    Some {| Match.handler := rootHandler; Match.name := None; Match.params := [] |}.
Proof.
  unfold matchRoute, routes. cbn [firstMatch Route.path Route.method].
  unfold RegExp.matchRe. now rewrite root_pattern_matches_suffix.
Qed.

Lemma matchRoute_updateProject projectId :
  isSegment projectId ->
  matchRoute ("/projects/" ++ projectId) "PUT" =
    Some {| Match.handler := updateProject; Match.name := None;
            Match.params := [projectId] |}.
Proof.
  intros Hseg. unfold matchRoute, routes.
  do 4 skip_method. now apply matchRoute_project.
Qed.

Lemma matchRoute_deleteTodo todoId :
  isSegment todoId ->
  matchRoute ("/todos/" ++ todoId) "DELETE" =
    Some {| Match.handler := deleteTodo; Match.name := None; Match.params := [todoId] |}.
Proof.
  intros Hseg. unfold matchRoute, routes.
  do 5 skip_method.
  rewrite firstMatch_skip by (left; apply segment_no_match; discriminate).
  do 5 skip_method.
  now apply matchRoute_todo.
Qed.

Lemma matchRoute_listTodos projectId :
  isSegment projectId ->
  matchRoute ("/projects/" ++ projectId ++ "/todos") "GET" =
    Some {| Match.handler := listTodos; Match.name := None;
            Match.params := [projectId] |}.
Proof.
  intros Hseg. unfold matchRoute, routes.
  rewrite firstMatch_skip.
  2:{ left. unfold RegExp.matchRe.
      change ("/projects/" ++ projectId ++ "/todos")
        with (("/projects/" ++ projectId) ++ "/todos").
      apply root_pattern_no_suffix; [discriminate | reflexivity]. }
  skip_literal. skip_method.
  rewrite firstMatch_skip.
  2:{ left. destruct (RegExp.matchRe _ _) as [caps|] eqn:E; [exfalso | reflexivity].
      apply RegExpFacts.matchRe_segment in E. destruct E as (y & Hy & E & _).
      apply append_inj_l in E.
      exact (segment_slash_not_segment projectId "todos" y Hy E). }
  do 2 skip_method.
  erewrite firstMatch_hit; [reflexivity | | reflexivity].
  apply RegExpFacts.matchRe_segment_lit. exists projectId.
  split; [exact Hseg | split; reflexivity].
Qed.

(** X18: the whole of [matchRoute]: a method and a path find a route exactly
    in these thirteen cases, with these handlers and parameters, an id
    being any non-empty text without a slash. GET of a path that ends with
    a slash always finds the first route. *)
Theorem matchRoute_table path method m :
  matchRoute path method = Some m <->
  (method = "GET" /\ (exists p, path = p ++ "/") /\ m = found rootHandler []) \/
  (method = "GET" /\ path = "/projects" /\ m = found listProjects []) \/
  (method = "POST" /\ path = "/projects" /\ m = found createProject []) \/
  (exists id, isSegment id /\ path = "/projects/" ++ id /\
     ((method = "GET" /\ m = found getProject [id]) \/
      (method = "PUT" /\ m = found updateProject [id]) \/
      (method = "DELETE" /\ m = found deleteProject [id]))) \/
  (exists id, isSegment id /\ path = "/projects/" ++ id ++ "/todos" /\
     ((method = "GET" /\ m = found listTodos [id]) \/
      (method = "POST" /\ m = found createTodo [id]))) \/
  (method = "GET" /\ path = "/todos" /\ m = found listAllTodos []) \/
  (exists id, isSegment id /\ path = "/todos/" ++ id /\
     ((method = "GET" /\ m = found getTodo [id]) \/
      (method = "PUT" /\ m = found updateTodo [id]) \/
      (method = "DELETE" /\ m = found deleteTodo [id]))) \/
  (method = "POST" /\ path = "/login" /\
   m = {| Match.handler := login; Match.name := Some "login"; Match.params := [] |}).
Proof.
  unfold found. split.
  - intros Hr. destruct (matchRoute_In _ _ _ Hr) as (route & Hin & Hh & Hn & Hm & Hre).
    destruct m as [h n ps]. cbn [Match.handler Match.name Match.params] in *.
    subst h n method.
    each_route Hin; cbn [Route.path] in Hre;
      first
        [ apply RegExpFacts.matchRe_slash_end in Hre; destruct Hre as [Hp ->]
        | apply RegExpFacts.matchRe_literal in Hre; destruct Hre as [-> ->]
        | apply RegExpFacts.matchRe_segment in Hre; destruct Hre as (x & Hx & -> & ->)
        | apply RegExpFacts.matchRe_segment_lit in Hre;
          destruct Hre as (x & Hx & -> & ->) ].
    + left. tauto.
    + right; left. tauto.
    + do 2 right; left. tauto.
    + do 3 right; left. exists x. tauto.
    + do 3 right; left. exists x. tauto.
    + do 3 right; left. exists x. tauto.
    + do 4 right; left. exists x. tauto.
    + do 4 right; left. exists x. tauto.
    + do 5 right; left. tauto.
    + do 6 right; left. exists x. tauto.
    + do 6 right; left. exists x. tauto.
    + do 6 right; left. exists x. tauto.
    + do 7 right. tauto.
  - intros [(-> & [p ->] & ->) | [(-> & -> & ->) | [(-> & -> & ->) |
            [(x & Hx & -> & [(-> & ->) | [(-> & ->) | (-> & ->)]]) |
            [(x & Hx & -> & [(-> & ->) | (-> & ->)]) | [(-> & -> & ->) |
            [(x & Hx & -> & [(-> & ->) | [(-> & ->) | (-> & ->)]]) |
             (-> & -> & ->)]]]]]]].
    + apply matchRoute_root.
    + reflexivity.
    + reflexivity.
    + now apply matchRoute_getProject.
    + now apply matchRoute_updateProject.
    + now apply matchRoute_deleteProject.
    + now apply matchRoute_listTodos.
    + now apply matchRoute_createTodo.
    + reflexivity.
    + now apply matchRoute_getTodo.
    + now apply matchRoute_updateTodo.
    + now apply matchRoute_deleteTodo.
    + reflexivity.
Qed.

(** X19: a body that parses to something that is not an object (an array,
    a string, a number, a boolean or [null]) is served like the body
    [{}]: no handler finds a field in it. *)
Theorem non_object_body_is_no_fields r clock s v :
  Request.json r = Some v -> isObject v = false ->
  handler r clock s = handler (withJson r (Some (Json.JObj []))) clock s.
Proof.
  intros Hj Hv. unfold handler. simpl.
  destruct (matchRoute (Request.pathname r) (Request.method r)) as [m|] eqn:Hm;
    [|reflexivity].
  destruct (matchRoute_In _ _ _ Hm) as (route & Hin & Hh & _).
  pose proof (routes_fields route Hin) as Hf. rewrite <- Hh in Hf.
  assert (Hsame : sameFields v (Json.JObj [])).
  { intros k. destruct v; try reflexivity. discriminate Hv. }
  assert (Hrun :
    Match.handler m
      {| req := r;
         body := if String.eqb (Request.method r) "POST"
                    || String.eqb (Request.method r) "PUT"
                 then parseBody r else Json.JNull;
         params := Match.params m |} (handlerNow clock) s =
    Match.handler m
      {| req := withJson r (Some (Json.JObj []));
         body := if String.eqb (Request.method r) "POST"
                    || String.eqb (Request.method r) "PUT"
                 then parseBody (withJson r (Some (Json.JObj []))) else Json.JNull;
         params := Match.params m |} (handlerNow clock) s).
  { apply Hf; [reflexivity|].
    unfold parseBody. rewrite Hj. simpl.
    destruct (_ || _); [exact Hsame | apply sameFields_refl]. }
  assert (Hauth : authHandler (withJson r (Some (Json.JObj []))) (authNow clock) s
                  = authHandler r (authNow clock) s) by reflexivity.
  rewrite Hauth, Hrun. reflexivity.
Qed.

Lemma trim_blank x : isBlank x -> JsString.trim x = "".
Proof.
  intros H. unfold JsString.trim.
  assert (E : JsString.trimStart x = "").
  { induction x as [|c x IH]; simpl; [reflexivity|].
    rewrite (H c (or_introl eq_refl)). apply IH. intros c' Hc'. apply H. now right. }
  now rewrite E.
Qed.

(** X20: [createProject] and the name it is given: a name that is absent,
    [null], an empty array, or a string of white space only is refused
    with 400; a boolean gives the project the name [true] or [false]; an
    object gives it the name [[object Object]], unless it has a field
    named [toString], in which case the handler throws a TypeError; in the
    cases without a project the state is as it was. *)
Theorem createProject_coerces_name args now s :
  (Json.getField (body args) "name" = None \/
   Json.getField (body args) "name" = Some Json.JNull \/
   Json.getField (body args) "name" = Some (Json.JArr []) \/
   Json.getField (body args) "name" = Some (Json.JArr [Json.JNull]) \/
   (exists x, Json.getField (body args) "name" = Some (Json.JStr x) /\ isBlank x) ->
   createProject args now s = (Returns (text "Missing project name" 400), s)) /\
  (forall b, Json.getField (body args) "name" = Some (Json.JBool b) ->
     exists p s', createProject args now s = (Returns (json (ProjectObj p) 201), s') /\
                  Project.name p = if b then "true" else "false") /\
  (forall props, Json.getField (body args) "name" = Some (Json.JObj props) ->
     Json.lookup "toString" props = None ->
     exists p s', createProject args now s = (Returns (json (ProjectObj p) 201), s') /\
                  Project.name p = "[object Object]") /\
  (forall props v, Json.getField (body args) "name" = Some (Json.JObj props) ->
     Json.lookup "toString" props = Some v ->
     createProject args now s = (Throws TypeError, s)).
Proof.
  split; [|split; [|split]].
  - intros [H | [H | [H | [H | (x & H & Hx)]]]]; unfold createProject; rewrite H;
      try reflexivity.
    simpl. now rewrite (trim_blank x Hx).
  - intros b H. unfold createProject. rewrite H. destruct b; simpl; eauto.
  - intros props H Hl. unfold createProject. rewrite H. simpl. rewrite Hl. simpl. eauto.
  - intros props v H Hl. unfold createProject. rewrite H. simpl. now rewrite Hl.
Qed.

End TableFacts.

(** * The further theorems at work on the examples *)

Lemma get_changes_nothing_witness :
  Request.method (exampleRequest "GET" "/todos" None) = "GET" /\
  snd (@handler exampleRuntime (exampleRequest "GET" "/todos" None)
         exampleClock exampleState) = exampleState.
Proof.
  split; [reflexivity|].
  apply (@get_changes_nothing exampleRuntime (exampleRequest "GET" "/todos" None)
           exampleClock exampleState
           (fst (@handler exampleRuntime (exampleRequest "GET" "/todos" None)
                   exampleClock exampleState)));
    [reflexivity | apply surjective_pairing].
Defined.

Lemma throw_changes_nothing_witness :
  @handler exampleRuntime
    (exampleRequest "POST" "/projects"
       (Some (Json.JObj [("name", Json.JObj [("toString", Json.JNull)])])))
    exampleClock exampleState
  = (Throws TypeError, exampleState) /\
  (exampleState = exampleState /\
   (Request.method (exampleRequest "POST" "/projects" None) = "POST" \/
    Request.method (exampleRequest "POST" "/projects" None) = "PUT")).
Proof.
  split; [reflexivity|].
  apply (@throw_changes_nothing exampleRuntime
           (exampleRequest "POST" "/projects"
              (Some (Json.JObj [("name", Json.JObj [("toString", Json.JNull)])])))
           exampleClock exampleState TypeError exampleState).
  reflexivity.
Defined.

Lemma unauthorized_changes_nothing_witness :
  Response.status
    (authHandler (exampleAnonymous "DELETE" "/projects/1") (authNow exampleClock)
       exampleState) <> 200 /\
  exists resp,
    @handler exampleRuntime (exampleAnonymous "DELETE" "/projects/1")
      exampleClock exampleState = (Returns resp, exampleState) /\
    (Response.status resp = 404 \/ Response.status resp = 401).
Proof.
  assert (Ha : Response.status
                 (authHandler (exampleAnonymous "DELETE" "/projects/1")
                    (authNow exampleClock) exampleState) <> 200)
    by (simpl; discriminate).
  split; [exact Ha|].
  destruct (@unauthorized_changes_nothing exampleRuntime
              (exampleAnonymous "DELETE" "/projects/1") exampleClock exampleState Ha)
    as (resp & Hr & Hs & _).
  - intros [Hm _]. discriminate Hm.
  - exists resp. split; [exact Hr | exact Hs].
Defined.

Lemma no_route_404_witness :
  Request.method (exampleRequest "PATCH" "/todos/1" None) <> "GET" /\
  @handler exampleRuntime (exampleRequest "PATCH" "/todos/1" None)
    exampleClock exampleState = (Returns notFound, exampleState).
Proof.
  split; [discriminate|].
  apply (@no_route_404 exampleRuntime (exampleRequest "PATCH" "/todos/1" None)
           exampleClock exampleState).
  left. repeat split; discriminate.
Defined.

Lemma login_issues_token_witness :
  @atob exampleRuntime "admin:hunter2" = Some "admin:hunter2" /\
  0 <= handlerNow exampleClock /\
  exists jwt expMs s',
    @handler exampleRuntime (exampleLogin "admin:hunter2") exampleClock initialState
      = (Returns (json (TokenObj jwt expMs) 200), s') /\
    expMs = 1762025340000 /\
    JsMap.get (validJwts s') jwt = Some expMs.
Proof.
  split; [reflexivity|]. split; [simpl; lia|].
  destruct (@login_issues_token exampleRuntime (exampleLogin "admin:hunter2")
              exampleClock initialState "admin:hunter2" "admin:hunter2"
              eq_refl eq_refl eq_refl eq_refl (or_introl eq_refl)
              ltac:(simpl; lia))
    as (jwt & expMs & s' & Hh & _ & He & _ & Hg & _).
  exists jwt, expMs, s'. split; [exact Hh|]. split; [exact He | exact Hg].
Defined.

Lemma login_refuses_witness :
  @handler exampleRuntime (exampleLogin "admin:wrong") exampleClock exampleState
    = (Returns (json (ErrorObj "Invalid credentials") 401), exampleState) /\
  ((exists b64 decoded,
      Request.authorization (exampleLogin "admin:wrong") = Some ("Basic " ++ b64) /\
      @atob exampleRuntime b64 = Some decoded /\
      (decoded = "admin:hunter2" \/ exists rest, decoded = "admin:hunter2:" ++ rest) /\
      exists jwt expMs,
        Returns (json (ErrorObj "Invalid credentials") 401)
        = Returns (json (TokenObj jwt expMs) 200)) \/
   (exampleState = exampleState /\
    (Returns (json (ErrorObj "Invalid credentials") 401)
       = Returns (json (ErrorObj "Missing Authorization header") 401) \/
     Returns (json (ErrorObj "Invalid credentials") 401)
       = Returns (json (ErrorObj "Invalid credentials") 401) \/
     Returns (json (ErrorObj "Invalid credentials") 401)
       = Throws InvalidCharacterError))).
Proof.
  split; [reflexivity|].
  apply (@login_refuses exampleRuntime (exampleLogin "admin:wrong") exampleClock
           exampleState _ exampleState eq_refl eq_refl).
  reflexivity.
Defined.

Lemma registry_only_login_witness :
  validJwts
    (snd (@handler exampleRuntime
            (exampleRequest "POST" "/projects"
               (Some (Json.JObj [("name", Json.JStr "Chores")])))
            exampleClock exampleState))
  = validJwts exampleState.
Proof.
  destruct (@registry_only_login exampleRuntime
              (exampleRequest "POST" "/projects"
                 (Some (Json.JObj [("name", Json.JStr "Chores")])))
              exampleClock exampleState _ _ (surjective_pairing _))
    as [E | (_ & Hp & _)].
  - exact E.
  - discriminate Hp.
Defined.

Lemma tokens_never_revoked_witness :
  registered exampleState "tok" /\
  registered (snd (@serve exampleRuntime exampleSession exampleState)) "tok".
Proof.
  assert (H : registered exampleState "tok") by (eexists; reflexivity).
  split; [exact H|].
  apply (@tokens_never_revoked exampleRuntime exampleSession exampleState
           (fst (@serve exampleRuntime exampleSession exampleState)));
    [apply surjective_pairing | exact H].
Defined.

Lemma todo_ids_strictly_increase_witness :
  (N.of_nat (List.length exampleTodoSession) < integerLimit)%N /\
  (2 < 4)%nat /\
  nth_error (fst (@serve exampleRuntime exampleTodoSession initialState)) 2
    = Some (Returns (json (TodoObj
                             {| Todo.id := "1"; Todo.projectId := "1";
                                Todo.title := "Milk"; Todo.completed := false;
                                Todo.dueDate := None;
                                Todo.createdAt := "2025-11-01T18:29:00.123Z" |})
                          201)) /\
  nth_error (fst (@serve exampleRuntime exampleTodoSession initialState)) 4
    = Some (Returns (json (TodoObj
                             {| Todo.id := "2"; Todo.projectId := "1";
                                Todo.title := "Eggs"; Todo.completed := false;
                                Todo.dueDate := Some "2025-12-01";
                                Todo.createdAt := "2025-11-01T18:29:00.123Z" |})
                          201)) /\
  exists n m,
    counter_of_String "1" = Some n /\ counter_of_String "2" = Some m /\
    (1 <= n < m)%N /\ "1" <> "2".
Proof.
  split; [vm_compute; reflexivity|].
  split; [lia|].
  split; [vm_compute; reflexivity|].
  split; [vm_compute; reflexivity|].
  apply (@todo_ids_strictly_increase exampleRuntime exampleTodoSession 2 4
           {| Todo.id := "1"; Todo.projectId := "1"; Todo.title := "Milk";
              Todo.completed := false; Todo.dueDate := None;
              Todo.createdAt := "2025-11-01T18:29:00.123Z" |}
           {| Todo.id := "2"; Todo.projectId := "1"; Todo.title := "Eggs";
              Todo.completed := false; Todo.dueDate := Some "2025-12-01";
              Todo.createdAt := "2025-11-01T18:29:00.123Z" |});
    [vm_compute; reflexivity | lia | vm_compute; reflexivity
    | vm_compute; reflexivity].
Defined.

Lemma reachable_stores_in_order_witness :
  NoDup (keys (todos (snd (@serve exampleRuntime exampleTodoSession initialState)))).
Proof.
  apply (@reachable_stores_in_order exampleRuntime exampleTodoSession
           (fst (@serve exampleRuntime exampleTodoSession initialState))
           (snd (@serve exampleRuntime exampleTodoSession initialState))).
  apply surjective_pairing.
Defined.

Lemma new_entries_listed_last_witness :
  (projectCounter (snd (@serve exampleRuntime exampleTodoSession initialState))
   < integerLimit)%N /\
  exists p s',
    @createProject exampleRuntime
      (exampleArgs "POST" "/projects"
         (Some (Json.JObj [("name", Json.JStr "Chores")])) [])
      1762021740123 (snd (@serve exampleRuntime exampleTodoSession initialState))
    = (Returns (json (ProjectObj p) 201), s') /\
    listProjects (exampleArgs "GET" "/projects" None []) 0 s' =
      (Returns (json (ProjectArr
         (JsMap.values
            (projects (snd (@serve exampleRuntime exampleTodoSession initialState)))
          ++ [p])) 200), s').
Proof.
  assert (Hlim : (projectCounter
                    (snd (@serve exampleRuntime exampleTodoSession initialState))
                  < integerLimit)%N) by (vm_compute; reflexivity).
  split; [exact Hlim|].
  destruct (@new_entries_listed_last exampleRuntime exampleTodoSession
              (fst (@serve exampleRuntime exampleTodoSession initialState))
              (snd (@serve exampleRuntime exampleTodoSession initialState))
              (surjective_pairing _))
    as [Hp _].
  destruct (Hp (exampleArgs "POST" "/projects"
                  (Some (Json.JObj [("name", Json.JStr "Chores")])) [])
               1762021740123 "Chores" Hlim eq_refl ltac:(discriminate))
    as (p & s' & Hc & Hl).
  exists p, s'. split; [exact Hc | apply Hl].
Defined.

Lemma createTodo_then_getTodo_witness :
  JsDate.isTimeValue 1762021740123 /\
  JsMap.has (projects exampleState) "1" = true /\
  (todoCounter exampleState < integerLimit)%N /\
  exists t s',
    @createTodo exampleRuntime
      (exampleArgs "POST" "/projects/1/todos"
         (Some (Json.JObj [("title", Json.JStr " Eggs "); ("dueDate", Json.JBool true)]))
         ["1"])
      1762021740123 exampleState
    = (Returns (json (TodoObj t) 201), s') /\
    Todo.title t = "Eggs" /\ Todo.dueDate t = None /\
    JsDate.parse (Todo.createdAt t) = Some 1762021740123 /\
    todoCounter s' = (todoCounter exampleState + 1)%N.
Proof.
  assert (Ht : JsDate.isTimeValue 1762021740123)
    by (unfold JsDate.isTimeValue, JsDate.maxTime; lia).
  assert (Hlim : (todoCounter exampleState < integerLimit)%N)
    by (vm_compute; reflexivity).
  split; [exact Ht|]. split; [reflexivity|]. split; [exact Hlim|].
  destruct (@createTodo_then_getTodo exampleRuntime
              (exampleArgs "POST" "/projects/1/todos"
                 (Some (Json.JObj [("title", Json.JStr " Eggs ");
                                   ("dueDate", Json.JBool true)])) ["1"])
              1762021740123 exampleState "1" " Eggs " Ht eq_refl eq_refl eq_refl
              ltac:(discriminate))
    as (t & s' & Hc & _ & _ & _ & Htitle & _ & Hdue & Hparse & _ & _ & Hnext & _).
  exists t, s'. split; [exact Hc|]. split; [exact Htitle|].
  split; [apply Hdue; discriminate|]. split; [exact Hparse | exact (Hnext Hlim)].
Defined.

Lemma updateProject_renames_witness :
  hd_error (params (exampleArgs "PUT" "/projects/1"
              (Some (Json.JObj [("name", Json.JStr " Food ")])) ["1"])) = Some "1" /\
  exists updated s',
    @updateProject exampleRuntime
      (exampleArgs "PUT" "/projects/1"
         (Some (Json.JObj [("name", Json.JStr " Food ")])) ["1"]) 0 exampleState
    = (Returns (json (ProjectObj updated) 200), s') /\
    Project.name updated = "Food" /\
    keys (projects s') = keys (projects exampleState).
Proof.
  split; [reflexivity|].
  destruct (@updateProject_renames exampleRuntime
              (exampleArgs "PUT" "/projects/1"
                 (Some (Json.JObj [("name", Json.JStr " Food ")])) ["1"])
              0 exampleState "1" eq_refl) as [_ H].
  destruct (H _ " Food " eq_refl eq_refl) as [_ Hok].
  destruct (Hok ltac:(discriminate)) as (u & s' & Hu & Hn & _ & _ & _ & Hk & _).
  exists u, s'. split; [exact Hu|]. split; [exact Hn | exact Hk].
Defined.

Lemma deleteTodo_once_witness :
  hd_error (params (exampleArgs "DELETE" "/todos/1" None ["1"])) = Some "1" /\
  exists s',
    deleteTodo (exampleArgs "DELETE" "/todos/1" None ["1"]) 0 exampleState
      = (Returns noContent, s') /\
    deleteTodo (exampleArgs "DELETE" "/todos/1" None ["1"]) 0 s'
      = (Returns notFound, s').
Proof.
  split; [reflexivity|].
  destruct (deleteTodo_once (exampleArgs "DELETE" "/todos/1" None ["1"]) 0
              exampleState "1" eq_refl) as [_ H].
  destruct (H _ eq_refl) as (s' & Hd & _ & _ & _ & _ & _ & _ & Hagain).
  exists s'. split; [exact Hd|].
  apply (Hagain (exampleArgs "DELETE" "/todos/1" None ["1"]) 0 eq_refl).
Defined.

Lemma deleted_project_is_gone_witness :
  JsMap.has (projects exampleState) "1" = true /\
  exists s',
    deleteProject (exampleArgs "DELETE" "/projects/1" None ["1"]) 0 exampleState
      = (Returns noContent, s') /\
    listTodos (exampleArgs "GET" "/projects/1/todos" None ["1"]) 0 s'
      = (Returns notFound, s') /\
    listAllTodos (exampleArgs "GET" "/todos" None []) 0 s'
      = (Returns (json (TodoArr (JsMap.values (todos exampleState))) 200), s').
Proof.
  split; [reflexivity|].
  destruct (@deleted_project_is_gone exampleRuntime
              (exampleArgs "DELETE" "/projects/1" None ["1"]) 0 exampleState "1"
              eq_refl eq_refl) as (s' & Hd & Hgone & Hall).
  exists s'. split; [exact Hd|]. split; [|apply Hall].
  apply (Hgone (exampleArgs "GET" "/projects/1/todos" None ["1"]) 0 eq_refl).
Defined.

Lemma listTodos_exact_witness :
  hd_error (params (exampleArgs "GET" "/projects/1/todos" None ["1"])) = Some "1" /\
  exists result,
    listTodos (exampleArgs "GET" "/projects/1/todos" None ["1"]) 0
      (snd (@serve exampleRuntime exampleTodoSession initialState))
    = (Returns (json (TodoArr result) 200),
       snd (@serve exampleRuntime exampleTodoSession initialState)) /\
    NoDup (map Todo.id result).
Proof.
  split; [reflexivity|].
  destruct (@listTodos_exact exampleRuntime exampleTodoSession
              (fst (@serve exampleRuntime exampleTodoSession initialState))
              (snd (@serve exampleRuntime exampleTodoSession initialState))
              (exampleArgs "GET" "/projects/1/todos" None ["1"]) 0 "1"
              (surjective_pairing _) eq_refl) as [_ H].
  destruct (H eq_refl) as (result & Hl & _ & _ & Hnd).
  exists result. split; [exact Hl | exact Hnd].
Defined.

Lemma non_object_body_is_no_fields_witness :
  isObject (Json.JArr [Json.JStr "name"]) = false /\
  @handler exampleRuntime
    (exampleRequest "PUT" "/todos/1" (Some (Json.JArr [Json.JStr "name"])))
    exampleClock exampleState
  = @handler exampleRuntime
      (withJson (exampleRequest "PUT" "/todos/1" (Some (Json.JArr [Json.JStr "name"])))
                (Some (Json.JObj [])))
      exampleClock exampleState.
Proof.
  split; [reflexivity|].
  apply (@non_object_body_is_no_fields exampleRuntime
           (exampleRequest "PUT" "/todos/1" (Some (Json.JArr [Json.JStr "name"])))
           exampleClock exampleState (Json.JArr [Json.JStr "name"]) eq_refl eq_refl).
Defined.
